(** * Hospital management system: the store and the console workflows

    A shallow embedding of [db_operator.py], [schemas.py], [models.py], the
    console actions of [main_cli.py] and [login/loginclass.py], followed by
    the properties of the bed, appointment, update, notification,
    prescription and login workflows.

    Conventions of the embedding.
    - A table is the list of its rows; [query(...).filter(...).first()] is
      the first row of the list that satisfies the filter, and an update
      writes the changed object back at the position it was read from.
    - A Python [dict] is an insertion-ordered association list.
    - Python values that reach a schema or a column are dynamically typed:
      [value].
    - Constraints that only the SQL server enforces (foreign keys, NOT NULL,
      uniqueness) are outside the repository and are not modelled.
    - The behaviour of library calls on text ([int], the schema coercions,
      [strptime], [strftime], the e-mail check) is a parameter: [Coercions]. *)

From Stdlib Require Import ZArith DecimalString DecimalZ DecimalPos.
From stdpp Require Import base option list strings numbers.

(** ** Dynamically typed values and dictionaries *)

(** An instant, at the resolution kept by the text format
    ['%Y-%m-%d %H:%M:%S']. *)
Definition datetime := Z.

Inductive value :=
| VNone
| VInt (z : Z)
| VStr (s : string)
| VDate (d : datetime).

#[global] Instance value_eq_dec : EqDecision value.
Proof. solve_decision. Defined.

Definition dict := list (string * value).

Fixpoint dict_get (k : string) (d : dict) : option value :=
  match d with
  | [] => None
  | (k', v) :: d' => if decide (k' = k) then Some v else dict_get k d'
  end.

Definition as_int (v : value) : option Z :=
  match v with VInt z => Some z | _ => None end.
Definition as_str (v : value) : option string :=
  match v with VStr s => Some s | _ => None end.
Definition as_date (v : value) : option datetime :=
  match v with VDate d => Some d | _ => None end.
Definition as_opt_int (v : value) : option (option Z) :=
  match v with VNone => Some None | VInt z => Some (Some z) | _ => None end.
Definition as_opt_str (v : value) : option (option string) :=
  match v with VNone => Some None | VStr s => Some (Some s) | _ => None end.
Definition as_opt_date (v : value) : option (option datetime) :=
  match v with VNone => Some None | VDate d => Some (Some d) | _ => None end.

Definition of_opt_int (o : option Z) : value :=
  match o with Some z => VInt z | None => VNone end.
Definition of_opt_str (o : option string) : value :=
  match o with Some s => VStr s | None => VNone end.
Definition of_opt_date (o : option datetime) : value :=
  match o with Some d => VDate d | None => VNone end.

(** ** Exceptions and outcomes *)

Inductive exn :=
| EOFError          (* [input()] on an exhausted console *)
| ValueError        (* [int(text)] on text that is no integer *)
| AttributeError    (* attribute access on [None] *)
| ValidationError   (* a schema rejects its keyword arguments *)
| NameError         (* [eval] of an expression outside the known ones *)
| DBAPIError.       (* the store refuses a pending row at commit *)

Inductive outcome (A : Type) :=
| Raised (e : exn)
| Returned (a : A).
Arguments Raised {A} e.
Arguments Returned {A} a.

(** ** Library behaviour on text *)

Class Coercions := {
  (** [int(text)], also the reading of numeric text by the schemas *)
  int_of_text : string → option Z;
  (** the schemas' reading of text as a datetime *)
  datetime_of_text : string → option datetime;
  (** [datetime.strptime(text, '%Y-%m-%d %H:%M:%S')] *)
  strptime : string → option datetime;
  (** [d.strftime('%Y-%m-%d %H:%M:%S')] *)
  strftime : datetime → string;
  (** the [EmailStr] check *)
  is_email : string → bool;
  (** the address that [EmailStr] returns for text it accepts: the text in
      normal form *)
  normalized : string → string;
  (** text printed by [strftime] is read back as the same instant *)
  datetime_of_text_strftime : ∀ d, datetime_of_text (strftime d) = Some d
}.

(** ** schemas.py *)

Module schemas.

Inductive kind := KInt | KStr | KDatetime | KEmail.

(** A declared field: its name, its type, and whether it is declared
    [Optional[...] = None]. *)
Record field := Field {
  f_name : string;
  f_kind : kind;
  f_optional : bool
}.

Section validation.
Context `{Coercions}.

(** Validation of one non-[None] value against a field type.  The
    callers in [main_cli] pass text, integers and datetimes only to
    fields of the matching type or as text. *)
Definition coerce (k : kind) (v : value) : option value :=
  match k, v with
  | KInt, VInt z => Some (VInt z)
  | KInt, VStr s => VInt <$> int_of_text s
  | KStr, VStr s => Some (VStr s)
  | KDatetime, VDate d => Some (VDate d)
  | KDatetime, VStr s => VDate <$> datetime_of_text s
  | KEmail, VStr s => if is_email s then Some (VStr (normalized s)) else None
  | _, _ => None
  end.

Definition validate_field (kw : dict) (f : field) : option (string * value) :=
  match dict_get (f_name f) kw with
  | None | Some VNone =>
      if f_optional f then Some (f_name f, VNone) else None
  | Some v => (λ v', (f_name f, v')) <$> coerce (f_kind f) v
  end.

(** The dictionary of a schema object built from keyword arguments
    [kw]: every declared field, in declaration order,
    validated; keyword arguments that name no field are ignored. *)
Definition BaseModel (fields : list field) (kw : dict) : outcome dict :=
  match mapM (validate_field kw) fields with
  | Some d => Returned d
  | None => Raised ValidationError
  end.

Definition DoctorBase : dict → outcome dict :=
  BaseModel [Field "Doc_Name" KStr false; Field "Speciality" KStr false;
             Field "Phone_Num" KStr true; Field "Email" KEmail false].

Definition StaffBase : dict → outcome dict :=
  BaseModel [Field "Name" KStr false; Field "Department" KStr false;
             Field "Email" KEmail false; Field "Hire_Date" KDatetime false].

Definition StaffShiftBase : dict → outcome dict :=
  BaseModel [Field "Staff_ID" KInt false; Field "Shift_Start" KDatetime false;
             Field "Shift_End" KDatetime false].

Definition PatientBase : dict → outcome dict :=
  BaseModel [Field "Patient_Name" KStr false; Field "Patient_Records" KStr false;
             Field "Phone_Num" KStr true; Field "Email" KEmail false;
             Field "Doc_ID" KInt true; Field "Staff_ID" KInt true].

Definition AppointmentBase : dict → outcome dict :=
  BaseModel [Field "Patient_ID" KInt true; Field "Doc_ID" KInt false;
             Field "Appointment_Date" KDatetime false; Field "Statusof" KInt true;
             Field "Typeof" KStr true; Field "Speciality" KStr false;
             Field "Notes" KStr true].

Definition BedBase : dict → outcome dict :=
  BaseModel [Field "Bed_ID" KInt false; Field "Ward_ID" KInt false;
             Field "Patient_ID" KInt true; Field "Status" KStr false;
             Field "Assigned_Date" KDatetime true].

Definition NotificationCreate : dict → outcome dict :=
  BaseModel [Field "Recipient_Type" KStr false; Field "Recipient_ID" KInt false;
             Field "Message" KStr false].
End validation.

End schemas.

(** ** models.py *)

(** Each mapped class is a module: the record of its columns, attribute
    assignment by name ([setattr]), and [as_dict].  Assigning a name that is
    no column only sets a plain attribute on the Python object, which is
    never written to the table: the row is unchanged.  A value of another
    kind than the column holds cannot be stored: [None]. *)
Module models.

Module Doctor.
Record row := mk {
  Doc_ID : Z;
  Doc_Name : string;
  Speciality : string;
  Phone_Num : option string;
  Email : string
}.
Definition setattr (key : string) (v : value) (r : row) : option row :=
  if decide (key = "Doc_ID") then
    (λ x, mk x (Doc_Name r) (Speciality r) (Phone_Num r) (Email r)) <$> as_int v
  else if decide (key = "Doc_Name") then
    (λ x, mk (Doc_ID r) x (Speciality r) (Phone_Num r) (Email r)) <$> as_str v
  else if decide (key = "Speciality") then
    (λ x, mk (Doc_ID r) (Doc_Name r) x (Phone_Num r) (Email r)) <$> as_str v
  else if decide (key = "Phone_Num") then
    (λ x, mk (Doc_ID r) (Doc_Name r) (Speciality r) x (Email r)) <$> as_opt_str v
  else if decide (key = "Email") then
    (λ x, mk (Doc_ID r) (Doc_Name r) (Speciality r) (Phone_Num r) x) <$> as_str v
  else Some r.
Definition as_dict (r : row) : dict :=
  [("Doc_ID", VInt (Doc_ID r)); ("Doc_Name", VStr (Doc_Name r));
   ("Speciality", VStr (Speciality r)); ("Phone_Num", of_opt_str (Phone_Num r));
   ("Email", VStr (Email r))].
End Doctor.

Module Staff.
Record row := mk {
  Staff_ID : Z;
  Name : string;
  Department : string;
  Email : string;
  Hire_Date : datetime
}.
Definition setattr (key : string) (v : value) (r : row) : option row :=
  if decide (key = "Staff_ID") then
    (λ x, mk x (Name r) (Department r) (Email r) (Hire_Date r)) <$> as_int v
  else if decide (key = "Name") then
    (λ x, mk (Staff_ID r) x (Department r) (Email r) (Hire_Date r)) <$> as_str v
  else if decide (key = "Department") then
    (λ x, mk (Staff_ID r) (Name r) x (Email r) (Hire_Date r)) <$> as_str v
  else if decide (key = "Email") then
    (λ x, mk (Staff_ID r) (Name r) (Department r) x (Hire_Date r)) <$> as_str v
  else if decide (key = "Hire_Date") then
    (λ x, mk (Staff_ID r) (Name r) (Department r) (Email r) x) <$> as_date v
  else Some r.
Definition as_dict (r : row) : dict :=
  [("Staff_ID", VInt (Staff_ID r)); ("Name", VStr (Name r));
   ("Department", VStr (Department r)); ("Email", VStr (Email r));
   ("Hire_Date", VDate (Hire_Date r))].
End Staff.

(** [Shift_End] is declared a text column and holds the text of a
    datetime; it is kept here as the datetime it denotes. *)
Module StaffShift.
Record row := mk {
  Shift_ID : Z;
  Staff_ID : option Z;
  Shift_Start : datetime;
  Shift_End : datetime
}.
Definition setattr (key : string) (v : value) (r : row) : option row :=
  if decide (key = "Shift_ID") then
    (λ x, mk x (Staff_ID r) (Shift_Start r) (Shift_End r)) <$> as_int v
  else if decide (key = "Staff_ID") then
    (λ x, mk (Shift_ID r) x (Shift_Start r) (Shift_End r)) <$> as_opt_int v
  else if decide (key = "Shift_Start") then
    (λ x, mk (Shift_ID r) (Staff_ID r) x (Shift_End r)) <$> as_date v
  else if decide (key = "Shift_End") then
    (λ x, mk (Shift_ID r) (Staff_ID r) (Shift_Start r) x) <$> as_date v
  else Some r.
Definition as_dict (r : row) : dict :=
  [("Shift_ID", VInt (Shift_ID r)); ("Staff_ID", of_opt_int (Staff_ID r));
   ("Shift_Start", VDate (Shift_Start r)); ("Shift_End", VDate (Shift_End r))].
End StaffShift.

Module Patient.
Record row := mk {
  Patient_ID : Z;
  Patient_Name : string;
  Patient_Records : string;
  Phone_Num : option string;
  Email : string;
  Doc_ID : option Z;
  Staff_ID : option Z
}.
Definition as_dict (r : row) : dict :=
  [("Patient_ID", VInt (Patient_ID r)); ("Patient_Name", VStr (Patient_Name r));
   ("Patient_Records", VStr (Patient_Records r));
   ("Phone_Num", of_opt_str (Phone_Num r)); ("Email", VStr (Email r));
   ("Doc_ID", of_opt_int (Doc_ID r)); ("Staff_ID", of_opt_int (Staff_ID r))].
End Patient.

Module Bed.
Record row := mk {
  Bed_ID : Z;
  Ward_ID : Z;
  Patient_ID : option Z;
  Status : string;
  Assigned_Date : option datetime
}.
Definition setattr (key : string) (v : value) (r : row) : option row :=
  if decide (key = "Bed_ID") then
    (λ x, mk x (Ward_ID r) (Patient_ID r) (Status r) (Assigned_Date r)) <$> as_int v
  else if decide (key = "Ward_ID") then
    (λ x, mk (Bed_ID r) x (Patient_ID r) (Status r) (Assigned_Date r)) <$> as_int v
  else if decide (key = "Patient_ID") then
    (λ x, mk (Bed_ID r) (Ward_ID r) x (Status r) (Assigned_Date r)) <$> as_opt_int v
  else if decide (key = "Status") then
    (λ x, mk (Bed_ID r) (Ward_ID r) (Patient_ID r) x (Assigned_Date r)) <$> as_str v
  else if decide (key = "Assigned_Date") then
    (λ x, mk (Bed_ID r) (Ward_ID r) (Patient_ID r) (Status r) x) <$> as_opt_date v
  else Some r.
Definition as_dict (r : row) : dict :=
  [("Bed_ID", VInt (Bed_ID r)); ("Ward_ID", VInt (Ward_ID r));
   ("Patient_ID", of_opt_int (Patient_ID r)); ("Status", VStr (Status r));
   ("Assigned_Date", of_opt_date (Assigned_Date r))].
End Bed.

(** [Statusof] is declared a text column and is written by the schemas as
    the integer code 0 to 4; it is kept here as that integer. *)
Module Appointment.
Record row := mk {
  Appointment_ID : Z;
  Patient_ID : option Z;
  Doc_ID : Z;
  Appointment_Date : datetime;
  Statusof : option Z;
  Typeof : option string;
  Speciality : string;
  Notes : option string
}.
Definition columns : list string :=
  ["Appointment_ID"; "Patient_ID"; "Doc_ID"; "Appointment_Date"; "Statusof";
   "Typeof"; "Speciality"; "Notes"].
Definition setattr (key : string) (v : value) (r : row) : option row :=
  if decide (key = "Appointment_ID") then
    (λ x, mk x (Patient_ID r) (Doc_ID r) (Appointment_Date r) (Statusof r)
             (Typeof r) (Speciality r) (Notes r)) <$> as_int v
  else if decide (key = "Patient_ID") then
    (λ x, mk (Appointment_ID r) x (Doc_ID r) (Appointment_Date r) (Statusof r)
             (Typeof r) (Speciality r) (Notes r)) <$> as_opt_int v
  else if decide (key = "Doc_ID") then
    (λ x, mk (Appointment_ID r) (Patient_ID r) x (Appointment_Date r) (Statusof r)
             (Typeof r) (Speciality r) (Notes r)) <$> as_int v
  else if decide (key = "Appointment_Date") then
    (λ x, mk (Appointment_ID r) (Patient_ID r) (Doc_ID r) x (Statusof r)
             (Typeof r) (Speciality r) (Notes r)) <$> as_date v
  else if decide (key = "Statusof") then
    (λ x, mk (Appointment_ID r) (Patient_ID r) (Doc_ID r) (Appointment_Date r) x
             (Typeof r) (Speciality r) (Notes r)) <$> as_opt_int v
  else if decide (key = "Typeof") then
    (λ x, mk (Appointment_ID r) (Patient_ID r) (Doc_ID r) (Appointment_Date r)
             (Statusof r) x (Speciality r) (Notes r)) <$> as_opt_str v
  else if decide (key = "Speciality") then
    (λ x, mk (Appointment_ID r) (Patient_ID r) (Doc_ID r) (Appointment_Date r)
             (Statusof r) (Typeof r) x (Notes r)) <$> as_str v
  else if decide (key = "Notes") then
    (λ x, mk (Appointment_ID r) (Patient_ID r) (Doc_ID r) (Appointment_Date r)
             (Statusof r) (Typeof r) (Speciality r) x) <$> as_opt_str v
  else Some r.
(** The constructor called with keyword arguments [kw], for the row that
    the store numbers [id]: a column that is not named stays NULL, a
    name that is no column is refused. *)
Definition new (id : Z) (kw : dict) : option row :=
  let col k := default VNone (dict_get k kw) in
  if decide (Forall (λ kv : string * value, kv.1 ∈ columns) kw) then
    pid ← as_opt_int (col "Patient_ID");
    did ← as_int (col "Doc_ID");
    date ← as_date (col "Appointment_Date");
    st ← as_opt_int (col "Statusof");
    ty ← as_opt_str (col "Typeof");
    sp ← as_str (col "Speciality");
    notes ← as_opt_str (col "Notes");
    Some (mk id pid did date st ty sp notes)
  else None.
Definition as_dict (r : row) : dict :=
  [("Appointment_ID", VInt (Appointment_ID r));
   ("Patient_ID", of_opt_int (Patient_ID r)); ("Doc_ID", VInt (Doc_ID r));
   ("Appointment_Date", VDate (Appointment_Date r));
   ("Statusof", of_opt_int (Statusof r)); ("Typeof", of_opt_str (Typeof r));
   ("Speciality", VStr (Speciality r)); ("Notes", of_opt_str (Notes r))].
End Appointment.

Module Prescription.
Record row := mk {
  Prescription_ID : Z;
  Patient_ID : Z;
  Doctor_ID : Z;
  Date_Issued : datetime;
  Notes : option string
}.
End Prescription.

Module PrescriptionDetail.
Record row := mk {
  Detail_ID : Z;
  Prescription_ID : Z;
  Medication_Name : string;
  Dosage : string;
  Frequency : string;
  Duration : string
}.
End PrescriptionDetail.

Module Notification.
Record row := mk {
  Notification_ID : Z;
  Recipient_Type : string;
  Recipient_ID : Z;
  Message : string;
  Status : string;
  Created_At : datetime;
  Read_At : option datetime
}.
Definition as_dict (r : row) : dict :=
  [("Notification_ID", VInt (Notification_ID r));
   ("Recipient_Type", VStr (Recipient_Type r));
   ("Recipient_ID", VInt (Recipient_ID r)); ("Message", VStr (Message r));
   ("Status", VStr (Status r)); ("Created_At", VDate (Created_At r));
   ("Read_At", of_opt_date (Read_At r))].
End Notification.

End models.

(** ** The database: one list of rows per table *)

Record database := Database {
  Doctors : list models.Doctor.row;
  Staff : list models.Staff.row;
  StaffShifts : list models.StaffShift.row;
  Patients : list models.Patient.row;
  Appointments : list models.Appointment.row;
  Beds : list models.Bed.row;
  Prescriptions : list models.Prescription.row;
  Prescription_Details : list models.PrescriptionDetail.row;
  Notifications : list models.Notification.row
}.

Definition set_Doctors (t : list models.Doctor.row) (db : database) : database :=
  Database t (Staff db) (StaffShifts db) (Patients db) (Appointments db) (Beds db)
           (Prescriptions db) (Prescription_Details db) (Notifications db).
Definition set_Staff (t : list models.Staff.row) (db : database) : database :=
  Database (Doctors db) t (StaffShifts db) (Patients db) (Appointments db) (Beds db)
           (Prescriptions db) (Prescription_Details db) (Notifications db).
Definition set_StaffShifts (t : list models.StaffShift.row) (db : database) : database :=
  Database (Doctors db) (Staff db) t (Patients db) (Appointments db) (Beds db)
           (Prescriptions db) (Prescription_Details db) (Notifications db).
Definition set_Appointments (t : list models.Appointment.row) (db : database) : database :=
  Database (Doctors db) (Staff db) (StaffShifts db) (Patients db) t (Beds db)
           (Prescriptions db) (Prescription_Details db) (Notifications db).
Definition set_Beds (t : list models.Bed.row) (db : database) : database :=
  Database (Doctors db) (Staff db) (StaffShifts db) (Patients db) (Appointments db) t
           (Prescriptions db) (Prescription_Details db) (Notifications db).
Definition set_Notifications (t : list models.Notification.row) (db : database) : database :=
  Database (Doctors db) (Staff db) (StaffShifts db) (Patients db) (Appointments db)
           (Beds db) (Prescriptions db) (Prescription_Details db) t.

(** ** db_operator.py *)

Module db_ops.
Import models.

(** [query(T).filter(P).first()] *)
Definition first {A} (P : A → Prop) `{∀ x, Decision (P x)} (tbl : list A) : option A :=
  snd <$> list_find P tbl.

(** [for key, value in payload.items(): setattr(obj, key, value)] *)
Definition setattrs {A} (setattr : string → value → A → option A)
    (payload : dict) (obj : A) : option A :=
  foldl (λ acc kv, acc ≫= setattr kv.1 kv.2) (Some obj) payload.

(** The body shared by every [update_...]: fetch the first row that
    satisfies [P]; when there is one, assign the payload to it, commit and
    return the stored row; when there is none, return [None]. *)
Definition update_row {A} (P : A → Prop) `{∀ x, Decision (P x)}
    (setattr : string → value → A → option A) (payload : dict) (tbl : list A)
    : outcome (option A) * list A :=
  match list_find P tbl with
  | Some (i, obj) =>
      match setattrs setattr payload obj with
      | Some obj' => (Returned (Some obj'), <[i:=obj']> tbl)
      | None => (Raised DBAPIError, tbl)
      end
  | None => (Returned None, tbl)
  end.

(** The number the store gives to a new row of a table whose rows are
    numbered [ids]. *)
Definition next_id (ids : list Z) : Z := (1 + foldr Z.max 0 ids)%Z.

(** *** Doctor *)
Definition get_doctor (db : database) (doctor_id : Z) : option Doctor.row :=
  first (λ d, Doctor.Doc_ID d = doctor_id) (Doctors db).

Definition update_doctor (db : database) (doctor_id : Z) (doctor : dict)
    : outcome (option Doctor.row) * database :=
  let '(r, t) := update_row (λ d, Doctor.Doc_ID d = doctor_id) Doctor.setattr
                   doctor (Doctors db) in
  (r, set_Doctors t db).

(** *** Staff *)
Definition get_staff_member (db : database) (staff_id : Z) : option Staff.row :=
  first (λ s, Staff.Staff_ID s = staff_id) (Staff db).

Definition update_staff (db : database) (staff_id : Z) (staff : dict)
    : outcome (option Staff.row) * database :=
  let '(r, t) := update_row (λ s, Staff.Staff_ID s = staff_id) Staff.setattr
                   staff (Staff db) in
  (r, set_Staff t db).

(** *** StaffShift *)
Definition get_staff_shift (db : database) (shift_id : Z) : option StaffShift.row :=
  first (λ s, StaffShift.Shift_ID s = shift_id) (StaffShifts db).

Definition update_staff_shift (db : database) (shift_id : Z) (staff_shift : dict)
    : outcome (option StaffShift.row) * database :=
  let '(r, t) := update_row (λ s, StaffShift.Shift_ID s = shift_id)
                   StaffShift.setattr staff_shift (StaffShifts db) in
  (r, set_StaffShifts t db).

(** *** Patient *)
Definition get_patient (db : database) (patient_id : Z) : option Patient.row :=
  first (λ p, Patient.Patient_ID p = patient_id) (Patients db).

(** *** Appointment *)
Definition create_appointment (db : database) (appointment : dict)
    : outcome Appointment.row * database :=
  let id := next_id (Appointment.Appointment_ID <$> Appointments db) in
  match Appointment.new id appointment with
  | Some db_appointment =>
      (Returned db_appointment,
       set_Appointments (Appointments db ++ [db_appointment]) db)
  | None => (Raised DBAPIError, db)
  end.

Definition get_appointment (db : database) (appointment_id : Z)
    : option Appointment.row :=
  first (λ a, Appointment.Appointment_ID a = appointment_id) (Appointments db).

Definition update_appointment (db : database) (appointment_id : Z)
    (appointment : dict) : outcome (option Appointment.row) * database :=
  let '(r, t) := update_row (λ a, Appointment.Appointment_ID a = appointment_id)
                   Appointment.setattr appointment (Appointments db) in
  (r, set_Appointments t db).

(** *** Bed *)
Definition get_bed (db : database) (bed_id : Z) : option Bed.row :=
  first (λ b, Bed.Bed_ID b = bed_id) (Beds db).

Definition get_available_bed (db : database) : list Bed.row :=
  filter (λ b, Bed.Status b = "Available") (Beds db).

Definition get_occupied_bed (db : database) : list Bed.row :=
  filter (λ b, Bed.Status b = "Occupied") (Beds db).

Definition update_bed (db : database) (bed_id : Z) (bed : dict)
    : outcome (option Bed.row) * database :=
  let '(r, t) := update_row (λ b, Bed.Bed_ID b = bed_id) Bed.setattr
                   bed (Beds db) in
  (r, set_Beds t db).

(** *** Prescription *)

(** [eval(searchby)], on the comparisons of a column of [Prescription]
    with [value]; any other text is outside the embedding. *)
Definition eval (searchby : string) : option (Prescription.row → Z → bool) :=
  if decide (searchby = "Prescription.Prescription_ID == value") then
    Some (λ p value, bool_decide (Prescription.Prescription_ID p = value))
  else if decide (searchby = "Prescription.Patient_ID == value") then
    Some (λ p value, bool_decide (Prescription.Patient_ID p = value))
  else if decide (searchby = "Prescription.Doctor_ID == value") then
    Some (λ p value, bool_decide (Prescription.Doctor_ID p = value))
  else None.

(** One line of the joined result. *)
Definition prescription_line (p : Prescription.row) (d : Doctor.row)
    (pt : Patient.row) (det : PrescriptionDetail.row) : dict :=
  [("Prescription_ID", VInt (Prescription.Prescription_ID p));
   ("Doc_Name", VStr (Doctor.Doc_Name d));
   ("Patient_Name", VStr (Patient.Patient_Name pt));
   ("Date_Issued", VDate (Prescription.Date_Issued p));
   ("Notes", of_opt_str (Prescription.Notes p));
   ("Medication_Name", VStr (PrescriptionDetail.Medication_Name det));
   ("Dosage", VStr (PrescriptionDetail.Dosage det));
   ("Frequency", VStr (PrescriptionDetail.Frequency det));
   ("Duration", VStr (PrescriptionDetail.Duration det))].

Definition get_prescriptions_by (db : database) (searchby : string) (value : Z)
    : outcome (list dict) :=
  match eval searchby with
  | Some keep =>
      Returned (
        p ← Prescriptions db;
        d ← filter (λ d, Prescription.Doctor_ID p = Doctor.Doc_ID d) (Doctors db);
        pt ← filter (λ pt, Prescription.Patient_ID p = Patient.Patient_ID pt)
               (Patients db);
        det ← filter (λ det, Prescription.Prescription_ID p
                              = PrescriptionDetail.Prescription_ID det)
                (Prescription_Details db);
        if keep p value then [prescription_line p d pt det] else [])
  | None => Raised NameError
  end.

(** *** Notification *)
Definition create_notification (db : database) (notification : dict)
    (now : datetime) : outcome Notification.row * database :=
  match dict_get "Recipient_Type" notification ≫= as_str,
        dict_get "Recipient_ID" notification ≫= as_int,
        dict_get "Message" notification ≫= as_str with
  | Some ty, Some rid, Some msg =>
      let id := next_id (Notification.Notification_ID <$> Notifications db) in
      let db_notification := Notification.mk id ty rid msg "Unread" now None in
      (Returned db_notification,
       set_Notifications (Notifications db ++ [db_notification]) db)
  | _, _, _ => (Raised AttributeError, db)
  end.

Definition mark_notification_as_read (db : database) (notification_id : Z)
    (now : datetime) : option Notification.row * database :=
  match list_find (λ n, Notification.Notification_ID n = notification_id)
          (Notifications db) with
  | Some (i, n) =>
      let n' := Notification.mk (Notification.Notification_ID n)
                  (Notification.Recipient_Type n) (Notification.Recipient_ID n)
                  (Notification.Message n) "Read" (Notification.Created_At n)
                  (Some now) in
      (Some n', set_Notifications (<[i:=n']> (Notifications db)) db)
  | None => (None, db)
  end.

Definition get_notifications_for_recipient (db : database)
    (recipient_type : string) (recipient_id : Z) : list Notification.row :=
  filter (λ n, Notification.Recipient_Type n = recipient_type
               ∧ Notification.Recipient_ID n = recipient_id) (Notifications db).

End db_ops.

(** ** The console *)

(** What [print_table] shows: the column names and one list of cells per
    row. *)
Record table := Table {
  field_names : list string;
  rows : list (list value)
}.

(** The lines still to be typed, the tables shown so far, and the store.
    Prompts and messages are not recorded. *)
Record world := World {
  stdin : list string;
  stdout : list table;
  db : database
}.

(** A console action either returns or raises, and leaves a world behind;
    every write to the store is committed where it is made, so the world
    left by an exception holds what was committed before it. *)
Definition cli (A : Type) : Type := world → outcome A * world.

#[global] Instance cli_ret : MRet cli := λ A a w, (Returned a, w).
#[global] Instance cli_bind : MBind cli := λ A B f m w,
  match m w with
  | (Returned a, w') => f a w'
  | (Raised e, w') => (Raised e, w')
  end.

Definition raise {A} (e : exn) : cli A := λ w, (Raised e, w).

Definition of_outcome {A} (o : outcome A) : cli A := λ w, (o, w).

(** [input(prompt)] *)
Definition input : cli string := λ w,
  match stdin w with
  | [] => (Raised EOFError, w)
  | line :: rest => (Returned line, World rest (stdout w) (db w))
  end.

(** [int(text)] *)
Definition int `{Coercions} (text : string) : cli Z :=
  match int_of_text text with
  | Some z => mret z
  | None => raise ValueError
  end.

(** [obj.attribute], which raises on [None] *)
Definition attr {A B} (obj : option A) (attribute : A → B) : cli B :=
  match obj with
  | Some o => mret (attribute o)
  | None => raise AttributeError
  end.

Definition echo (t : table) : cli unit := λ w,
  (Returned (), World (stdin w) (stdout w ++ [t]) (db w)).

(** A call of a [db_operator] function that only reads. *)
Definition query {A} (f : database → A) : cli A := λ w, (Returned (f (db w)), w).

(** A call of a [db_operator] function that may write. *)
Definition store {A} (f : database → outcome A * database) : cli A := λ w,
  let '(r, db') := f (db w) in (r, World (stdin w) (stdout w) db').

(** [while True: line = input(...); ...]: the body sees the line and the
    store, and either raises, or breaks with a result, or goes round
    again ([None]). *)
Fixpoint prompt_loop {A} (body : string → database → outcome (option A))
    (d : database) (lines : list string) : outcome A * list string :=
  match lines with
  | [] => (Raised EOFError, [])
  | line :: rest =>
      match body line d with
      | Raised e => (Raised e, rest)
      | Returned (Some a) => (Returned a, rest)
      | Returned None => prompt_loop body d rest
      end
  end.

Definition while_true {A} (body : string → database → outcome (option A)) : cli A :=
  λ w, let '(r, rest) := prompt_loop body (db w) (stdin w) in
       (r, World rest (stdout w) (db w)).

(** ** main_cli.py *)

Module main_cli.
Import models schemas.

(** The argument of [print_table]: [None] or an empty list, one object, or
    a list of objects or of result lines. *)
Inductive results :=
| Nothing
| Single (r : dict)
| Many (rs : list dict).

Definition one {A} (as_dict : A → dict) (obj : option A) : results :=
  match obj with Some o => Single (as_dict o) | None => Nothing end.

Definition print_table (res : results) (stop : bool) : cli unit :=
  match res with
  | Nothing | Many [] => mret ()
  | Single r => echo (Table r.*1 [r.*2])
  | Many ((r0 :: _) as rs) => echo (Table r0.*1 ((λ r : dict, r.*2) <$> rs))
  end;;
  if stop then input;; mret () else mret ().

(** [str.isdigit], on text of single-byte characters *)
Definition isdigit (s : string) : bool :=
  negb (bool_decide (s = "")) &&
  forallb (λ c, bool_decide (48 ≤ Ascii.nat_of_ascii c ≤ 57))
          (String.list_ascii_of_string s).

Section actions.
Context `{Coercions}.

Definition is_valid_date (date_str : string) : bool :=
  match strptime date_str with Some _ => true | None => false end.

(** [prior if text == '' else text] *)
Definition or_keep (text : string) (prior : cli value) : cli value :=
  if decide (text = "") then prior else mret (VStr text).

(** How the store compares an integer key column with a Python value:
    an integer as it is, numeric text as the integer it spells, [None]
    with no row at all. *)
Definition with_key {A} (key : value)
    (f : Z → database → outcome (option A) * database) : cli (option A) :=
  match key with
  | VInt z => store (f z)
  | VStr s => match int_of_text s with
              | Some z => store (f z)
              | None => raise DBAPIError
              end
  | VNone => mret None
  | VDate _ => raise DBAPIError
  end.

(** *** Doctor *)
Definition update_doctor : cli unit :=
  doctor_id ← input ≫= int;
  doctor ← query (λ d, db_ops.get_doctor d doctor_id);
  print_table (one Doctor.as_dict doctor) false;;
  name ← input;
  name ← or_keep name (attr doctor (λ d, VStr (Doctor.Doc_Name d)));
  phone ← input;
  phone ← or_keep phone (attr doctor (λ d, of_opt_str (Doctor.Phone_Num d)));
  speciality ← input;
  speciality ← or_keep speciality (attr doctor (λ d, VStr (Doctor.Speciality d)));
  email ← input;
  email ← or_keep email (attr doctor (λ d, VStr (Doctor.Email d)));
  let external_data := [("Doc_Name", name); ("Speciality", speciality);
                        ("Phone_Num", phone); ("Email", email)] in
  payload ← of_outcome (DoctorBase external_data);
  db_doctor ← store (λ d, db_ops.update_doctor d doctor_id payload);
  print_table (one Doctor.as_dict db_doctor) true.

(** *** Staff shift *)
Definition update_staff_shift : cli unit :=
  shift_id ← input ≫= int;
  shift ← query (λ d, db_ops.get_staff_shift d shift_id);
  print_table (one StaffShift.as_dict shift) false;;
  staff_id ← input;
  staff_id ← or_keep staff_id (attr shift (λ s, of_opt_int (StaffShift.Staff_ID s)));
  shift_start ← input;
  shift_start ← or_keep shift_start (attr shift (λ s, VDate (StaffShift.Shift_Start s)));
  shift_end ← input;
  shift_end ← or_keep shift_end (attr shift (λ s, VDate (StaffShift.Shift_End s)));
  let external_data := [("Staff_ID", staff_id); ("Shift_Start", shift_start);
                        ("Shift_End", shift_end)] in
  payload ← of_outcome (StaffShiftBase external_data);
  db_shift ← store (λ d, db_ops.update_staff_shift d shift_id payload);
  print_table (one StaffShift.as_dict db_shift) true.

(** *** Patient *)
Definition update_patient : cli unit :=
  patient_id ← input ≫= int;
  patient ← query (λ d, db_ops.get_patient d patient_id);
  print_table (one Patient.as_dict patient) false;;
  name ← input;
  name ← or_keep name (attr patient (λ p, VStr (Patient.Patient_Name p)));
  record ← input;
  record ← or_keep record (attr patient (λ p, VStr (Patient.Patient_Records p)));
  phone ← input;
  phone ← or_keep phone (attr patient (λ p, of_opt_str (Patient.Phone_Num p)));
  email ← input;
  email ← or_keep email (attr patient (λ p, VStr (Patient.Email p)));
  doc_id ← input;
  doc_id ← or_keep doc_id (attr patient (λ p, of_opt_int (Patient.Doc_ID p)));
  staff_id ← input;
  staff_id ← or_keep staff_id (attr patient (λ p, of_opt_int (Patient.Staff_ID p)));
  let external_data := [("Patient_Name", name); ("Patient_Records", record);
                        ("Phone_Num", phone); ("Email", email);
                        ("Doc_ID", doc_id); ("Staff_ID", staff_id)] in
  payload ← of_outcome (PatientBase external_data);
  db_staff ← with_key staff_id (λ k d, db_ops.update_staff d k payload);
  print_table (one Staff.as_dict db_staff) true.

(** *** Appointment *)
Definition ask_doctor : cli Z :=
  while_true (λ line d,
    match int_of_text line with
    | None => Raised ValueError
    | Some doc_id =>
        match db_ops.get_doctor d doc_id with
        | None => Returned None
        | Some _ => Returned (Some doc_id)
        end
    end).

Definition ask_date : cli string :=
  while_true (λ line _,
    if is_valid_date line then Returned (Some line) else Returned None).

Definition ask_status : cli Z :=
  while_true (λ status _,
    if isdigit status then
      match int_of_text status with
      | None => Raised ValueError
      | Some n => if bool_decide (0 ≤ n)%Z && bool_decide (n ≤ 4)%Z
                  then Returned (Some n) else Returned None
      end
    else Returned None).

Definition ask_typeof : cli string :=
  while_true (λ typeof _,
    if bool_decide (typeof ∈ ["Online"; "Inperson"])
    then Returned (Some typeof) else Returned None).

Definition create_open_appointment : cli unit :=
  doc_id ← ask_doctor;
  doctor ← query (λ d, db_ops.get_doctor d doc_id);
  print_table (one Doctor.as_dict doctor) false;;
  speciality ← attr doctor Doctor.Speciality;
  appo_date ← ask_date;
  let status := 0%Z in
  let external_data := [("Doc_ID", VInt doc_id); ("Appointment_Date", VStr appo_date);
                        ("Speciality", VStr speciality); ("Statusof", VInt status)] in
  payload ← of_outcome (AppointmentBase external_data);
  result ← store (λ d, db_ops.create_appointment d payload);
  print_table (Single (Appointment.as_dict result)) true.

Definition update_appointment : cli unit :=
  appointment_id ← input ≫= int;
  appointment ← query (λ d, db_ops.get_appointment d appointment_id);
  print_table (one Appointment.as_dict appointment) false;;
  doc_id ← input;
  doc_id ← or_keep doc_id (attr appointment (λ a, VInt (Appointment.Doc_ID a)));
  patient_id ← input;
  patient_id ← or_keep patient_id
                 (attr appointment (λ a, of_opt_int (Appointment.Patient_ID a)));
  app_date ← input;
  app_date ← or_keep app_date
               (attr appointment (λ a, VDate (Appointment.Appointment_Date a)));
  status ← ask_status;
  typeof ← ask_typeof;
  speciality ← attr appointment Appointment.Speciality;
  note ← input;
  note ← or_keep note (attr appointment (λ a, of_opt_str (Appointment.Notes a)));
  let external_data := [("Doc_ID", doc_id); ("Patient_ID", patient_id);
                        ("Statusof", VInt status); ("Typeof", VStr typeof);
                        ("Speciality", VStr speciality);
                        ("Appointment_Date", app_date); ("Notes", note)] in
  payload ← of_outcome (AppointmentBase external_data);
  store (λ d, db_ops.update_appointment d appointment_id payload);;
  shown ← query (λ d, db_ops.get_appointment d appointment_id);
  print_table (one Appointment.as_dict shown) true.

(** *** Bed *)

(** [now] is what [datetime.now()] reads during the call. *)
Definition assigne_bed (now : datetime) : cli unit :=
  bed_id ← input ≫= int;
  bed ← query (λ d, db_ops.get_bed d bed_id);
  print_table (one Bed.as_dict bed) false;;
  patient_id ← input ≫= int;
  the_bed_id ← attr bed Bed.Bed_ID;
  the_ward_id ← attr bed Bed.Ward_ID;
  let external_data := [("Bed_ID", VInt the_bed_id); ("Ward_ID", VInt the_ward_id);
                        ("Patient_ID", VInt patient_id); ("Status", VStr "Occupied");
                        ("Assigned_Date", VStr (strftime now))] in
  payload ← of_outcome (BedBase external_data);
  store (λ d, db_ops.update_bed d bed_id payload);;
  shown ← query (λ d, db_ops.get_bed d bed_id);
  print_table (one Bed.as_dict shown) true.

Definition release_bed : cli unit :=
  bed_id ← input ≫= int;
  bed ← query (λ d, db_ops.get_bed d bed_id);
  print_table (one Bed.as_dict bed) true;;
  the_bed_id ← attr bed Bed.Bed_ID;
  the_ward_id ← attr bed Bed.Ward_ID;
  let external_data := [("Bed_ID", VInt the_bed_id); ("Ward_ID", VInt the_ward_id);
                        ("Patient_ID", VNone); ("Status", VStr "Available");
                        ("Assigned_Date", VNone)] in
  payload ← of_outcome (BedBase external_data);
  store (λ d, db_ops.update_bed d bed_id payload);;
  shown ← query (λ d, db_ops.get_bed d bed_id);
  print_table (one Bed.as_dict shown) true.

(** *** Prescription *)
Definition list_prescription_by_doc_id : cli unit :=
  doc_id ← input ≫= int;
  found ← query (λ d, db_ops.get_prescriptions_by d
                         "Prescription.Doctor_ID == value" doc_id);
  found ← of_outcome found;
  print_table (Many found) true.

Definition list_prescription_by_patient_id : cli unit :=
  patient_id ← input ≫= int;
  found ← query (λ d, db_ops.get_prescriptions_by d
                         "Prescription.Doctor_ID == value" patient_id);
  found ← of_outcome found;
  print_table (Many found) true.
End actions.
End main_cli.

(** ** models.py, continued: constructors and the remaining assignments *)

(** A mapped class called with keyword arguments [kw], for the row that the
    store numbers [id]: a column that is not named stays NULL, a name that
    is no column is refused, and so is a value that the column cannot
    hold. *)
Module orm.
Import models.

Definition named (columns : list string) (kw : dict) : Prop :=
  Forall (λ kv : string * value, kv.1 ∈ columns) kw.

Definition col (kw : dict) (k : string) : value := default VNone (dict_get k kw).

Definition Doctor_new (id : Z) (kw : dict) : option Doctor.row :=
  if decide (named ["Doc_ID"; "Doc_Name"; "Speciality"; "Phone_Num"; "Email"] kw) then
    name ← as_str (col kw "Doc_Name");
    speciality ← as_str (col kw "Speciality");
    phone ← as_opt_str (col kw "Phone_Num");
    email ← as_str (col kw "Email");
    Some (Doctor.mk id name speciality phone email)
  else None.

Definition Staff_new (id : Z) (kw : dict) : option Staff.row :=
  if decide (named ["Staff_ID"; "Name"; "Department"; "Email"; "Hire_Date"] kw) then
    name ← as_str (col kw "Name");
    department ← as_str (col kw "Department");
    email ← as_str (col kw "Email");
    hired ← as_date (col kw "Hire_Date");
    Some (Staff.mk id name department email hired)
  else None.

Definition StaffShift_new (id : Z) (kw : dict) : option StaffShift.row :=
  if decide (named ["Shift_ID"; "Staff_ID"; "Shift_Start"; "Shift_End"] kw) then
    staff ← as_opt_int (col kw "Staff_ID");
    start_ ← as_date (col kw "Shift_Start");
    end_ ← as_date (col kw "Shift_End");
    Some (StaffShift.mk id staff start_ end_)
  else None.

Definition Patient_columns : list string :=
  ["Patient_ID"; "Patient_Name"; "Patient_Records"; "Phone_Num"; "Email"; "Doc_ID";
   "Staff_ID"].

Definition Patient_new (id : Z) (kw : dict) : option Patient.row :=
  if decide (named Patient_columns kw) then
    name ← as_str (col kw "Patient_Name");
    records ← as_str (col kw "Patient_Records");
    phone ← as_opt_str (col kw "Phone_Num");
    email ← as_str (col kw "Email");
    doc ← as_opt_int (col kw "Doc_ID");
    staff ← as_opt_int (col kw "Staff_ID");
    Some (Patient.mk id name records phone email doc staff)
  else None.

Definition Patient_setattr (key : string) (v : value) (r : Patient.row)
    : option Patient.row :=
  if decide (key = "Patient_ID") then
    (λ x, Patient.mk x (Patient.Patient_Name r) (Patient.Patient_Records r)
            (Patient.Phone_Num r) (Patient.Email r) (Patient.Doc_ID r)
            (Patient.Staff_ID r)) <$> as_int v
  else if decide (key = "Patient_Name") then
    (λ x, Patient.mk (Patient.Patient_ID r) x (Patient.Patient_Records r)
            (Patient.Phone_Num r) (Patient.Email r) (Patient.Doc_ID r)
            (Patient.Staff_ID r)) <$> as_str v
  else if decide (key = "Patient_Records") then
    (λ x, Patient.mk (Patient.Patient_ID r) (Patient.Patient_Name r) x
            (Patient.Phone_Num r) (Patient.Email r) (Patient.Doc_ID r)
            (Patient.Staff_ID r)) <$> as_str v
  else if decide (key = "Phone_Num") then
    (λ x, Patient.mk (Patient.Patient_ID r) (Patient.Patient_Name r)
            (Patient.Patient_Records r) x (Patient.Email r) (Patient.Doc_ID r)
            (Patient.Staff_ID r)) <$> as_opt_str v
  else if decide (key = "Email") then
    (λ x, Patient.mk (Patient.Patient_ID r) (Patient.Patient_Name r)
            (Patient.Patient_Records r) (Patient.Phone_Num r) x (Patient.Doc_ID r)
            (Patient.Staff_ID r)) <$> as_str v
  else if decide (key = "Doc_ID") then
    (λ x, Patient.mk (Patient.Patient_ID r) (Patient.Patient_Name r)
            (Patient.Patient_Records r) (Patient.Phone_Num r) (Patient.Email r) x
            (Patient.Staff_ID r)) <$> as_opt_int v
  else if decide (key = "Staff_ID") then
    (λ x, Patient.mk (Patient.Patient_ID r) (Patient.Patient_Name r)
            (Patient.Patient_Records r) (Patient.Phone_Num r) (Patient.Email r)
            (Patient.Doc_ID r) x) <$> as_opt_int v
  else Some r.

Definition Prescription_new (id : Z) (kw : dict) : option Prescription.row :=
  if decide (named ["Prescription_ID"; "Patient_ID"; "Doctor_ID"; "Date_Issued"; "Notes"]
               kw) then
    patient ← as_int (col kw "Patient_ID");
    doctor ← as_int (col kw "Doctor_ID");
    issued ← as_date (col kw "Date_Issued");
    notes ← as_opt_str (col kw "Notes");
    Some (Prescription.mk id patient doctor issued notes)
  else None.

Definition Prescription_as_dict (r : Prescription.row) : dict :=
  [("Prescription_ID", VInt (Prescription.Prescription_ID r));
   ("Patient_ID", VInt (Prescription.Patient_ID r));
   ("Doctor_ID", VInt (Prescription.Doctor_ID r));
   ("Date_Issued", VDate (Prescription.Date_Issued r));
   ("Notes", of_opt_str (Prescription.Notes r))].

Definition PrescriptionDetail_new (id : Z) (kw : dict) : option PrescriptionDetail.row :=
  if decide (named ["Detail_ID"; "Prescription_ID"; "Medication_Name"; "Dosage";
                    "Frequency"; "Duration"] kw) then
    prescription ← as_int (col kw "Prescription_ID");
    medication ← as_str (col kw "Medication_Name");
    dosage ← as_str (col kw "Dosage");
    frequency ← as_str (col kw "Frequency");
    duration ← as_str (col kw "Duration");
    Some (PrescriptionDetail.mk id prescription medication dosage frequency duration)
  else None.

Definition PrescriptionDetail_setattr (key : string) (v : value)
    (r : PrescriptionDetail.row) : option PrescriptionDetail.row :=
  if decide (key = "Detail_ID") then
    (λ x, PrescriptionDetail.mk x (PrescriptionDetail.Prescription_ID r)
            (PrescriptionDetail.Medication_Name r) (PrescriptionDetail.Dosage r)
            (PrescriptionDetail.Frequency r) (PrescriptionDetail.Duration r))
      <$> as_int v
  else if decide (key = "Prescription_ID") then
    (λ x, PrescriptionDetail.mk (PrescriptionDetail.Detail_ID r) x
            (PrescriptionDetail.Medication_Name r) (PrescriptionDetail.Dosage r)
            (PrescriptionDetail.Frequency r) (PrescriptionDetail.Duration r))
      <$> as_int v
  else if decide (key = "Medication_Name") then
    (λ x, PrescriptionDetail.mk (PrescriptionDetail.Detail_ID r)
            (PrescriptionDetail.Prescription_ID r) x (PrescriptionDetail.Dosage r)
            (PrescriptionDetail.Frequency r) (PrescriptionDetail.Duration r))
      <$> as_str v
  else if decide (key = "Dosage") then
    (λ x, PrescriptionDetail.mk (PrescriptionDetail.Detail_ID r)
            (PrescriptionDetail.Prescription_ID r)
            (PrescriptionDetail.Medication_Name r) x
            (PrescriptionDetail.Frequency r) (PrescriptionDetail.Duration r))
      <$> as_str v
  else if decide (key = "Frequency") then
    (λ x, PrescriptionDetail.mk (PrescriptionDetail.Detail_ID r)
            (PrescriptionDetail.Prescription_ID r)
            (PrescriptionDetail.Medication_Name r) (PrescriptionDetail.Dosage r) x
            (PrescriptionDetail.Duration r))
      <$> as_str v
  else if decide (key = "Duration") then
    (λ x, PrescriptionDetail.mk (PrescriptionDetail.Detail_ID r)
            (PrescriptionDetail.Prescription_ID r)
            (PrescriptionDetail.Medication_Name r) (PrescriptionDetail.Dosage r)
            (PrescriptionDetail.Frequency r) x)
      <$> as_str v
  else Some r.

End orm.

(** ** schemas.py, continued *)

Module schemas_more.
Import schemas.

Section validation.
Context `{Coercions}.

Definition PrescriptionBase : dict → outcome dict :=
  BaseModel [Field "Patient_ID" KInt false; Field "Doctor_ID" KInt false;
             Field "Date_Issued" KDatetime false; Field "Notes" KStr true].

Definition PrescriptionDetailBase : dict → outcome dict :=
  BaseModel [Field "Prescription_ID" KInt false; Field "Medication_Name" KStr false;
             Field "Dosage" KStr false; Field "Frequency" KStr false;
             Field "Duration" KStr false].
End validation.

End schemas_more.

(** ** db_operator.py, continued *)

Definition set_Patients (t : list models.Patient.row) (db : database) : database :=
  Database (Doctors db) (Staff db) (StaffShifts db) t (Appointments db) (Beds db)
           (Prescriptions db) (Prescription_Details db) (Notifications db).
Definition set_Prescriptions (t : list models.Prescription.row) (db : database)
    : database :=
  Database (Doctors db) (Staff db) (StaffShifts db) (Patients db) (Appointments db)
           (Beds db) t (Prescription_Details db) (Notifications db).
Definition set_Prescription_Details (t : list models.PrescriptionDetail.row)
    (db : database) : database :=
  Database (Doctors db) (Staff db) (StaffShifts db) (Patients db) (Appointments db)
           (Beds db) (Prescriptions db) t (Notifications db).

Module store.
Import models.

(** The body shared by every [create_...]: build the object from the
    payload, add it, commit, and return the stored row with its number. *)
Definition create_row {A} (new : Z → dict → option A) (pk : A → Z) (payload : dict)
    (tbl : list A) : outcome A * list A :=
  match new (db_ops.next_id (pk <$> tbl)) payload with
  | Some obj => (Returned obj, tbl ++ [obj])
  | None => (Raised DBAPIError, tbl)
  end.

(** The body shared by [delete_staff_shift] and [delete_appointment]: fetch
    the first row that satisfies [P]; when there is one, delete it and
    commit; return what was fetched.  No row of another table refers to a
    staff shift or to an appointment, so nothing else is written.  Deleting
    a doctor, a staff member or a patient also rewrites the rows that refer
    to it, and is left out. *)
Definition delete_row {A} (P : A → Prop) `{∀ x, Decision (P x)} (tbl : list A)
    : option A * list A :=
  match list_find P tbl with
  | Some (i, obj) => (Some obj, delete i tbl)
  | None => (None, tbl)
  end.

(** *** Doctor *)
Definition create_doctor (db : database) (doctor : dict)
    : outcome Doctor.row * database :=
  let '(r, t) := create_row orm.Doctor_new Doctor.Doc_ID doctor (Doctors db) in
  (r, set_Doctors t db).

Definition get_doctors (db : database) : list Doctor.row := Doctors db.

(** *** Staff *)
Definition create_staff (db : database) (staff : dict)
    : outcome Staff.row * database :=
  let '(r, t) := create_row orm.Staff_new Staff.Staff_ID staff (Staff db) in
  (r, set_Staff t db).

Definition get_staff (db : database) : list Staff.row := Staff db.

(** *** StaffShift *)
Definition create_staff_shift (db : database) (staff_shift : dict)
    : outcome StaffShift.row * database :=
  let '(r, t) := create_row orm.StaffShift_new StaffShift.Shift_ID staff_shift
                   (StaffShifts db) in
  (r, set_StaffShifts t db).

Definition get_staff_shifts (db : database) : list StaffShift.row := StaffShifts db.

Definition get_staff_shift_by_staff_id (db : database) (staff_id : Z)
    : list StaffShift.row :=
  filter (λ s, StaffShift.Staff_ID s = Some staff_id) (StaffShifts db).

Definition delete_staff_shift (db : database) (shift_id : Z)
    : option StaffShift.row * database :=
  let '(r, t) := delete_row (λ s, StaffShift.Shift_ID s = shift_id) (StaffShifts db) in
  (r, set_StaffShifts t db).

(** *** Patient *)
Definition create_patient (db : database) (patient : dict)
    : outcome Patient.row * database :=
  let '(r, t) := create_row orm.Patient_new Patient.Patient_ID patient (Patients db) in
  (r, set_Patients t db).

Definition get_patients (db : database) : list Patient.row := Patients db.

Definition update_patient (db : database) (patient_id : Z) (patient : dict)
    : outcome (option Patient.row) * database :=
  let '(r, t) := db_ops.update_row (λ p, Patient.Patient_ID p = patient_id)
                   orm.Patient_setattr patient (Patients db) in
  (r, set_Patients t db).

(** *** Appointment *)
Definition get_appointments (db : database) : list Appointment.row := Appointments db.

Definition delete_appointment (db : database) (appointment_id : Z)
    : option Appointment.row * database :=
  let '(r, t) := delete_row (λ a, Appointment.Appointment_ID a = appointment_id)
                   (Appointments db) in
  (r, set_Appointments t db).

(** The columns that the appointment searches select. *)
Definition appointment_line (a : Appointment.row) : dict :=
  [("Appointment_ID", VInt (Appointment.Appointment_ID a));
   ("Appointment_Date", VDate (Appointment.Appointment_Date a));
   ("Statusof", of_opt_int (Appointment.Statusof a));
   ("Typeof", of_opt_str (Appointment.Typeof a));
   ("Speciality", VStr (Appointment.Speciality a));
   ("Notes", of_opt_str (Appointment.Notes a))].

Definition get_appointments_by_doctor_id (db : database) (doctor_id : Z) : list dict :=
  appointment_line <$> filter (λ a, Appointment.Doc_ID a = doctor_id) (Appointments db).

Definition get_appointments_by_speciality (db : database) (speciality : string)
    : list dict :=
  appointment_line
    <$> filter (λ a, Appointment.Speciality a = speciality) (Appointments db).

Definition get_appointments_by_patient_id (db : database) (patient_id : Z) : list dict :=
  appointment_line
    <$> filter (λ a, Appointment.Patient_ID a = Some patient_id) (Appointments db).

(** *** Prescription *)
Definition create_prescription (db : database) (prescription : dict)
    : outcome Prescription.row * database :=
  let '(r, t) := create_row orm.Prescription_new Prescription.Prescription_ID
                   prescription (Prescriptions db) in
  (r, set_Prescriptions t db).

Definition create_prescription_detail (db : database) (prescriptiondetail : dict)
    : outcome PrescriptionDetail.row * database :=
  let '(r, t) := create_row orm.PrescriptionDetail_new PrescriptionDetail.Detail_ID
                   prescriptiondetail (Prescription_Details db) in
  (r, set_Prescription_Details t db).

Definition get_prescriptions_id (db : database) (prescription_id : Z)
    : option Prescription.row :=
  db_ops.first (λ p, Prescription.Prescription_ID p = prescription_id)
    (Prescriptions db).

Definition get_prescriptions_detail_id (db : database) (prescriptiondetail_id : Z)
    : option PrescriptionDetail.row :=
  db_ops.first (λ det, PrescriptionDetail.Prescription_ID det = prescriptiondetail_id)
    (Prescription_Details db).

Definition update_prescription_detail (db : database) (prescription_id : Z)
    (prescriptiondetail : dict) : outcome (option PrescriptionDetail.row) * database :=
  let '(r, t) := db_ops.update_row
                   (λ det, PrescriptionDetail.Prescription_ID det = prescription_id)
                   orm.PrescriptionDetail_setattr prescriptiondetail
                   (Prescription_Details db) in
  (r, set_Prescription_Details t db).

End store.

(** ** main_cli.py, continued *)

Module console.
Import models schemas schemas_more.
Import main_cli.

Section actions.
Context `{Coercions}.

(** [while True: ...  if db_ops.get_...(db_session, text) is None: ...]: the
    text typed is compared, as it is, with the integer key column. *)
Definition ask_existing {A} (get : database → Z → option A) : cli string :=
  while_true (λ line d,
    match int_of_text line with
    | None => Raised DBAPIError
    | Some z =>
        match get d z with
        | None => Returned None
        | Some _ => Returned (Some line)
        end
    end).

(** *** Doctor *)
Definition create_doctor : cli unit :=
  name ← input;
  speciality ← input;
  phone ← input;
  email ← input;
  let external_data := [("Doc_Name", VStr name); ("Speciality", VStr speciality);
                        ("Phone_Num", VStr phone); ("Email", VStr email)] in
  payload ← of_outcome (DoctorBase external_data);
  result ← store (λ d, store.create_doctor d payload);
  print_table (Single (Doctor.as_dict result)) true.

Definition get_doctors : cli unit :=
  found ← query store.get_doctors;
  print_table (Many (Doctor.as_dict <$> found)) true.

Definition get_doctor : cli unit :=
  doctor_id ← input ≫= int;
  found ← query (λ d, db_ops.get_doctor d doctor_id);
  print_table (one Doctor.as_dict found) true.

(** *** Staff *)
Definition create_staff : cli unit :=
  name ← input;
  department ← input;
  shift ← input;
  let external_data := [("Name", VStr name); ("Department", VStr department);
                        ("Upcoming_Shifts", VStr shift)] in
  payload ← of_outcome (StaffBase external_data);
  result ← store (λ d, store.create_staff d payload);
  print_table (Single (Staff.as_dict result)) true.

(** [staff.Doc_Name] and [staff.shift] name no attribute of a staff member:
    reading them raises, whatever [staff] is. *)
Definition update_staff : cli unit :=
  staff_id ← input ≫= int;
  staff ← query (λ d, db_ops.get_staff_member d staff_id);
  print_table (one Staff.as_dict staff) false;;
  name ← input;
  name ← or_keep name (raise AttributeError);
  dept ← input;
  dept ← or_keep dept (attr staff (λ s, VStr (Staff.Department s)));
  shift ← input;
  shift ← or_keep shift (raise AttributeError);
  let external_data := [("Name", name); ("Department", dept);
                        ("Upcoming_Shifts", shift)] in
  payload ← of_outcome (StaffBase external_data);
  db_staff ← store (λ d, db_ops.update_staff d staff_id payload);
  print_table (one Staff.as_dict db_staff) true.

(** *** Staff shift *)
Definition create_staff_shift : cli unit :=
  staff ← query store.get_staff;
  print_table (Many (Staff.as_dict <$> staff)) false;;
  staff_id ← ask_existing db_ops.get_staff_member;
  shift_start ← ask_date;
  shift_end ← ask_date;
  let external_data := [("Staff_ID", VStr staff_id); ("Shift_Start", VStr shift_start);
                        ("Shift_End", VStr shift_end)] in
  payload ← of_outcome (StaffShiftBase external_data);
  result ← store (λ d, store.create_staff_shift d payload);
  print_table (Single (StaffShift.as_dict result)) true.

Definition get_staff_shift_by_staff_id : cli unit :=
  staff_id ← input ≫= int;
  found ← query (λ d, store.get_staff_shift_by_staff_id d staff_id);
  print_table (Many (StaffShift.as_dict <$> found)) true.

Definition delete_staff_shift : cli unit :=
  listed ← query store.get_staff_shifts;
  print_table (Many (StaffShift.as_dict <$> listed)) false;;
  shift_id ← input ≫= int;
  db_shift ← store (λ d, let '(r, d') := store.delete_staff_shift d shift_id in
                         (Returned r, d'));
  print_table (one StaffShift.as_dict db_shift) true.

(** *** Patient *)
Definition create_patient : cli unit :=
  name ← input;
  email ← input;
  record ← input;
  phone ← input;
  doc_id ← input;
  staff_id ← input;
  let external_data := [("Patient_Name", VStr name); ("Patient_Records", VStr record);
                        ("Phone_Num", VStr phone); ("Email", VStr email);
                        ("Doc_ID", VStr doc_id); ("Staff_ID", VStr staff_id)] in
  payload ← of_outcome (PatientBase external_data);
  result ← store (λ d, store.create_patient d payload);
  print_table (Single (Patient.as_dict result)) true.

Definition get_patient : cli unit :=
  patient_id ← input ≫= int;
  found ← query (λ d, db_ops.get_doctor d patient_id);
  print_table (one Doctor.as_dict found) true.

(** *** Appointment *)
Definition create_appointment : cli unit :=
  doc_id ← ask_doctor;
  doctor ← query (λ d, db_ops.get_doctor d doc_id);
  print_table (one Doctor.as_dict doctor) false;;
  patient_id ← ask_existing db_ops.get_patient;
  app_date ← ask_date;
  status ← ask_status;
  typeof ← ask_typeof;
  speciality ← attr doctor Doctor.Speciality;
  note ← input;
  let external_data := [("Patient_ID", VStr patient_id); ("Doc_ID", VInt doc_id);
                        ("Appointment_Date", VStr app_date); ("Statusof", VInt status);
                        ("Typeof", VStr typeof); ("Speciality", VStr speciality);
                        ("Notes", VStr note)] in
  payload ← of_outcome (AppointmentBase external_data);
  result ← store (λ d, db_ops.create_appointment d payload);
  print_table (Single (Appointment.as_dict result)) true.

Definition delete_appointment : cli unit :=
  appointment_id ← input ≫= int;
  appointment ← query (λ d, db_ops.get_appointment d appointment_id);
  print_table (one Appointment.as_dict appointment) true;;
  store (λ d, let '(r, d') := store.delete_appointment d appointment_id in
              (Returned r, d'));;
  mret ().

(** *** Bed *)
Definition get_available_bed : cli unit :=
  found ← query db_ops.get_available_bed;
  print_table (Many (Bed.as_dict <$> found)) true.

Definition get_occupied_bed : cli unit :=
  found ← query db_ops.get_occupied_bed;
  print_table (Many (Bed.as_dict <$> found)) true.

(** *** Prescription *)
Definition create_prescriptions (now : datetime) : cli unit :=
  patient_id ← input ≫= int;
  doc_id ← input ≫= int;
  note ← input;
  let external_data := [("Patient_ID", VInt patient_id); ("Doctor_ID", VInt doc_id);
                        ("Date_Issued", VStr (strftime now)); ("Notes", VStr note)] in
  payload ← of_outcome (PrescriptionBase external_data);
  prescription ← store (λ d, store.create_prescription d payload);
  medication ← input;
  dosage ← input;
  frequency ← input;
  duration ← input;
  let external_data2 :=
    [("Prescription_ID", VInt (Prescription.Prescription_ID prescription));
     ("Medication_Name", VStr medication); ("Dosage", VStr dosage);
     ("Frequency", VStr frequency); ("Duration", VStr duration)] in
  payload2 ← of_outcome (PrescriptionDetailBase external_data2);
  store (λ d, store.create_prescription_detail d payload2);;
  found ← query (λ d, db_ops.get_prescriptions_by d
                         "Prescription.Prescription_ID == value"
                         (Prescription.Prescription_ID prescription));
  found ← of_outcome found;
  print_table (Many found) true.

Definition get_prescription : cli unit :=
  prescription_id ← input ≫= int;
  found ← query (λ d, db_ops.get_prescriptions_by d
                         "Prescription.Prescription_ID == value" prescription_id);
  found ← of_outcome found;
  print_table (Many found) true.

(** *** Notification *)
Definition list_notification (recipient_type : string) : cli unit :=
  recipient_id ← input ≫= int;
  found ← query (λ d, db_ops.get_notifications_for_recipient d recipient_type
                         recipient_id);
  print_table (Many (Notification.as_dict <$> found)) true.

Definition list_notification_doctor : cli unit := list_notification "Doctor".
Definition list_notification_staff : cli unit := list_notification "Staff".
Definition list_notification_patient : cli unit := list_notification "Patient".
End actions.

End console.

(** ** login/loginclass.py *)

(** The table [users] of login/logindb.py: the username is unique, and the
    store refuses a second row with a username that is taken. *)
Module login.

Record user := User {
  id : Z;
  username : string;
  password : string;
  role : string
}.

(** What a method returns: a message, or a message with the role found. *)
Inductive answer :=
| Message (text : string)
| Pair (text : string) (found : option string).

#[global] Instance answer_eq_dec : EqDecision answer.
Proof. solve_decision. Defined.

Section methods.
(** [hashlib.sha256(password.encode()).hexdigest()] *)
Context (sha256 : string → string).

Definition _hash_password (password : string) : string := sha256 password.

Definition welcome (name : string) : string := "Welcome, " +:+ name +:+ "!".

Definition register_user (users : list user) (name pass role_ : string)
    : answer * list user :=
  let hashed_password := _hash_password pass in
  let roles := ["admin"; "doctor"; "staff"] in
  if decide (role_ ∉ roles) then
    (Message ("Error: Role '" +:+ role_ +:+ "' is invalid. Valid roles are: "
              +:+ "admin, doctor, staff"), users)
  else if decide (name ∈ username <$> users) then
    (Message ("Error: Username '" +:+ name +:+ "' is already taken."), users)
  else
    (Message ("User '" +:+ name +:+ "' successfully registered!"),
     users ++ [User (db_ops.next_id (id <$> users)) name hashed_password role_]).

Definition login_user (users : list user) (name pass : string) : answer :=
  let hashed_password := _hash_password pass in
  match db_ops.first (λ u, username u = name ∧ password u = hashed_password) users with
  | Some u => Pair (welcome name) (Some (role u))
  | None => Pair "Error: Invalid username or password." None
  end.

(** The result of [login_user], a pair, is compared with a message. *)
Definition change_password (users : list user) (name old_password new_password : string)
    : answer * list user :=
  if decide (login_user users name old_password = Message (welcome name)) then
    let hashed_new_password := _hash_password new_password in
    (Message ("Password for user '" +:+ name +:+ "' successfully updated!"),
     (λ u, if decide (username u = name)
           then User (id u) (username u) hashed_new_password (role u) else u)
       <$> users)
  else (Message "Error: Old password is incorrect.", users).
End methods.

End login.

(** * The vocabulary of the properties *)

(** ** A concrete reading of text

    Integers and instants (counted in seconds) written in decimal, an
    e-mail check that asks for an [@], and a normal form that puts what
    follows the first [@] in lower case.  The statements below hold for
    every [Coercions]; this one is used to run the workflows on examples. *)

Definition decimal_of_text (s : string) : option Z :=
  Z.of_int <$> DecimalString.NilZero.int_of_string s.

Definition decimal_to_text (z : Z) : string :=
  DecimalString.NilZero.string_of_int (Z.to_int z).

(** An upper-case letter in lower case. *)
Definition lower (c : Ascii.ascii) : Ascii.ascii :=
  let n := Ascii.nat_of_ascii c in
  if bool_decide (65 ≤ n ≤ 90) then Ascii.ascii_of_nat (n + 32) else c.

(** The text with what follows its first [@] in lower case. *)
Fixpoint lower_domain (seen_at : bool) (s : string) : string :=
  match s with
  | EmptyString => EmptyString
  | String c rest =>
      String (if seen_at then lower c else c)
        (lower_domain (seen_at || Ascii.eqb c (Ascii.ascii_of_nat 64)) rest)
  end.

Definition decimal : Coercions.
Proof.
  refine {|
    int_of_text := decimal_of_text;
    datetime_of_text := decimal_of_text;
    strptime := decimal_of_text;
    strftime := decimal_to_text;
    is_email := λ s, existsb (Ascii.eqb (Ascii.ascii_of_nat 64))
                       (String.list_ascii_of_string s);
    normalized := lower_domain false;
    datetime_of_text_strftime := _
  |}.
  intros z. unfold decimal_of_text, decimal_to_text.
  rewrite DecimalString.NilZero.isi.
  - simpl. by rewrite DecimalZ.of_to.
  - destruct z as [|q|q]; simpl; try discriminate.
    intros [= Hq]. by apply (DecimalPos.Unsigned.to_uint_nonnil q).
  - destruct z as [|q|q]; simpl; try discriminate.
    intros [= Hq]. by apply (DecimalPos.Unsigned.to_uint_nonnil q).
Defined.

(** ** Reasoning about console actions *)

(** [hoare I m Q]: from a store that satisfies [I], the action [m] leaves a
    store that satisfies [I] however it ends, and what it returns
    satisfies [Q]. *)
Definition hoare {A} (I : database → Prop) (m : cli A) (Q : A → Prop) : Prop :=
  ∀ w, I (db w) → I (db (m w).2) ∧ ∀ a, (m w).1 = Returned a → Q a.

(** ** What is shown, what is typed *)

(** The table that [print_table] shows for one object. *)
Definition shown {A} (as_dict : A → dict) (obj : A) : table :=
  Table (as_dict obj).*1 [(as_dict obj).*2].

(** What [print_table] adds to the screen for a list of result lines. *)
Definition displayed (found : list dict) : list table :=
  match found with
  | [] => []
  | r0 :: _ => [Table r0.*1 ((λ r : dict, r.*2) <$> found)]
  end.

(** What a prompt of an update yields: the prior value on a blank line,
    else what is read from the line. *)
Definition entered {A} (text : string) (prior : A) (read : string → option A)
    : option A :=
  if decide (text = "") then Some prior else read text.

(** ** Beds, appointments, prescriptions *)

Section vocabulary.
Context `{Coercions}.
Import models.

(** The spec's invariant of a bed. *)
Definition bed_inv (b : Bed.row) : Prop :=
  (Bed.Status b = "Occupied" ↔ Bed.Patient_ID b ≠ None ∧ Bed.Assigned_Date b ≠ None)
  ∧ (Bed.Status b = "Available" ↔ Bed.Patient_ID b = None ∧ Bed.Assigned_Date b = None).

(** A bed operation asked at the console, and a session of such
    operations, each with the lines typed during it. *)
Inductive bed_op :=
| Assign (now : datetime)
| Release.

Definition bed_action (op : bed_op) : cli unit :=
  match op with
  | Assign now => main_cli.assigne_bed now
  | Release => main_cli.release_bed
  end.

Fixpoint bed_session (ops : list (bed_op * list string)) (d : database) : database :=
  match ops with
  | [] => d
  | (op, lines) :: ops' => bed_session ops' (db (bed_action op (World lines [] d)).2)
  end.

(** The open appointment that the store numbers next. *)
Definition open_slot (d : database) (doc_id : Z) (t : datetime) (speciality : string)
    : Appointment.row :=
  Appointment.mk (db_ops.next_id (Appointment.Appointment_ID <$> Appointments d))
    None doc_id t (Some 0%Z) None speciality None.

(** A line of the joined result that stems from prescription [p]. *)
Definition line_of (d : database) (p : Prescription.row) (line : dict) : Prop :=
  ∃ doc pt det,
    doc ∈ Doctors d ∧ pt ∈ Patients d ∧ det ∈ Prescription_Details d
    ∧ Prescription.Doctor_ID p = Doctor.Doc_ID doc
    ∧ Prescription.Patient_ID p = Patient.Patient_ID pt
    ∧ Prescription.Prescription_ID p = PrescriptionDetail.Prescription_ID det
    ∧ line = db_ops.prescription_line p doc pt det.

(** The lines that one prescription contributes to the join. *)
Definition joined_lines (d : database) (p : Prescription.row) : list dict :=
  doc ← filter (λ doc, Prescription.Doctor_ID p = Doctor.Doc_ID doc) (Doctors d);
  pt ← filter (λ pt, Prescription.Patient_ID p = Patient.Patient_ID pt) (Patients d);
  det ← filter (λ det, Prescription.Prescription_ID p
                        = PrescriptionDetail.Prescription_ID det)
          (Prescription_Details d);
  [db_ops.prescription_line p doc pt det].
End vocabulary.

(** ** Example stores *)

(** A ward with an occupied and a free bed, and two patients. *)
Definition ward_example : database :=
  Database [] [] []
    [models.Patient.mk 7 "Ada" "-" None "ada@example.org" None None;
     models.Patient.mk 8 "Ben" "-" None "ben@example.org" None None]
    []
    [models.Bed.mk 1 1 (Some 7%Z) "Occupied" (Some 100%Z); models.Bed.mk 2 1 None "Available" None]
    [] [] [].

(** A hospital with two doctors of different specialities, one staff member
    with a shift, one patient, and one scheduled appointment. *)
Definition hospital_example : database :=
  Database
    [models.Doctor.mk 1 "Ann" "Cardiology" None "ann@example.org";
     models.Doctor.mk 2 "Bob" "Neurology" None "bob@example.org"]
    [models.Staff.mk 3 "Sam" "Emergency" "sam@example.org" 10%Z]
    [models.StaffShift.mk 1 (Some 3%Z) 100%Z 200%Z]
    [models.Patient.mk 7 "Ada" "-" None "ada@example.org" (Some 1%Z) (Some 3%Z)]
    [models.Appointment.mk 1 (Some 7%Z) 1 500%Z (Some 1%Z) (Some "Online")
       "Cardiology" None]
    [] [] [] [].

(** The hospital with one unread notification for patient 7. *)
Definition inbox_example : database :=
  set_Notifications
    [models.Notification.mk 1 "Patient" 7 "Your results are ready" "Unread" 5%Z None]
    hospital_example.

(** Doctors 1 and 7, patients 7 and 8: prescription 1 is for patient 7 by
    doctor 1, prescription 2 is for patient 8 by doctor 7. *)
Definition pharmacy_example : database :=
  Database
    [models.Doctor.mk 1 "Ann" "Cardiology" None "ann@example.org";
     models.Doctor.mk 7 "Gus" "Oncology" None "gus@example.org"]
    [] []
    [models.Patient.mk 7 "Ada" "-" None "ada@example.org" None None;
     models.Patient.mk 8 "Ben" "-" None "ben@example.org" None None]
    [] []
    [models.Prescription.mk 1 7 1 50%Z None; models.Prescription.mk 2 8 7 60%Z None]
    [models.PrescriptionDetail.mk 1 1 "aspirin" "100mg" "daily" "7 days";
     models.PrescriptionDetail.mk 2 2 "ibuprofen" "200mg" "daily" "3 days"]
    [].

(** ** The vocabulary of the further properties *)

(** [runs Φ d m Q E]: started on the store [d], with every line still to
    be typed satisfying [Φ], the action [m] either returns, and the value it
    returns and the store it leaves satisfy [Q], or raises, and the store it
    leaves satisfies [E]; the lines it leaves to be typed still satisfy
    [Φ]. *)
Definition runs {A} (Φ : string → Prop) (d : database) (m : cli A)
    (Q : A → database → Prop) (E : database → Prop) : Prop :=
  ∀ w, Forall Φ (stdin w) → db w = d →
    Forall Φ (stdin (m w).2)
    ∧ match (m w).1 with
      | Returned a => Q a (db (m w).2)
      | Raised _ => E (db (m w).2)
      end.

(** What an assignment and a release keep: the bed numbered [other], and
    every table but the beds. *)
Definition bed_frame (d : database) (other : Z) (d' : database) : Prop :=
  db_ops.get_bed d' other = db_ops.get_bed d other ∧ ∃ beds, d' = set_Beds beds d.

(** An appointment as [create_appointment] of the console books it on the
    store [d]: for a stored doctor, with that doctor's speciality, for a
    stored patient, with a status and a type among those offered, under a
    number that no stored appointment has. *)
Definition booked (d : database) (a : models.Appointment.row) : Prop :=
  (∃ doc, db_ops.get_doctor d (models.Appointment.Doc_ID a) = Some doc
          ∧ models.Appointment.Speciality a = models.Doctor.Speciality doc)
  ∧ (∃ pid pt, models.Appointment.Patient_ID a = Some pid
               ∧ db_ops.get_patient d pid = Some pt)
  ∧ (∃ s, models.Appointment.Statusof a = Some s ∧ (0 ≤ s ≤ 4)%Z)
  ∧ (models.Appointment.Typeof a = Some "Online"
     ∨ models.Appointment.Typeof a = Some "Inperson")
  ∧ Forall (λ x, models.Appointment.Appointment_ID x
                 ≠ models.Appointment.Appointment_ID a) (Appointments d).

(** The status and the type that the console gives to an appointment. *)
Definition status_known (a : models.Appointment.row) : Prop :=
  (∃ s, models.Appointment.Statusof a = Some s ∧ (0 ≤ s ≤ 4)%Z)
  ∧ (models.Appointment.Typeof a = None ∨ models.Appointment.Typeof a = Some "Online"
     ∨ models.Appointment.Typeof a = Some "Inperson").

(** The appointment actions of the console. *)
Inductive appointment_op :=
| CreateAppointment
| CreateOpenAppointment
| UpdateAppointment
| DeleteAppointment.

Definition appointment_action `{Coercions} (op : appointment_op) : cli unit :=
  match op with
  | CreateAppointment => console.create_appointment
  | CreateOpenAppointment => main_cli.create_open_appointment
  | UpdateAppointment => main_cli.update_appointment
  | DeleteAppointment => console.delete_appointment
  end.

(** * Properties *)

(** ** Tables: first match, update in place, fresh numbers *)

Section tables.
Context {A : Type}.
Implicit Types (l : list A) (x y : A).

Lemma list_find_insert_same (P : A → Prop) `{∀ x, Decision (P x)} l i x y :
  list_find P l = Some (i, x) → P y → list_find P (<[i:=y]> l) = Some (i, y).
Proof.
  revert i. induction l as [|a l IH]; intros i; simpl; [done|].
  case_decide as Ha.
  - intros [= <- <-] Hy. simpl. by rewrite decide_True.
  - destruct (list_find P l) as [[j z]|] eqn:E; simpl; [|done].
    intros [= <- <-] Hy. simpl. rewrite decide_False by done.
    by rewrite (IH j).
Qed.

Lemma list_find_insert_other (Q : A → Prop) `{∀ x, Decision (Q x)} l i x y :
  l !! i = Some x → ¬ Q x → ¬ Q y → list_find Q (<[i:=y]> l) = list_find Q l.
Proof.
  revert i. induction l as [|a l IH]; intros [|i]; simpl; try done.
  - intros [= ->] Hx Hy. by rewrite !decide_False.
  - intros Hl Hx Hy. case_decide; [done|]. by rewrite IH.
Qed.

Lemma first_holds (P : A → Prop) `{∀ x, Decision (P x)} l x :
  db_ops.first P l = Some x → P x.
Proof.
  unfold db_ops.first. destruct (list_find P l) as [[i y]|] eqn:E; [|done].
  intros [= <-]. by apply list_find_Some in E as (_ & ? & _).
Qed.

Lemma first_elem_of (P : A → Prop) `{∀ x, Decision (P x)} l x :
  db_ops.first P l = Some x → x ∈ l.
Proof.
  unfold db_ops.first. destruct (list_find P l) as [[i y]|] eqn:E; [|done].
  intros [= <-]. apply list_find_Some in E as (? & _ & _).
  by eapply list_elem_of_lookup_2.
Qed.

Lemma first_found (P : A → Prop) `{∀ x, Decision (P x)} l x :
  db_ops.first P l = Some x → ∃ i, list_find P l = Some (i, x).
Proof.
  unfold db_ops.first. destruct (list_find P l) as [[i y]|]; [|done].
  intros [= <-]. by exists i.
Qed.

Lemma first_None (P : A → Prop) `{∀ x, Decision (P x)} l :
  db_ops.first P l = None ↔ list_find P l = None.
Proof. unfold db_ops.first. by destruct (list_find P l) as [[??]|]. Qed.

Lemma first_insert_same (P : A → Prop) `{∀ x, Decision (P x)} l i x y :
  list_find P l = Some (i, x) → P y → db_ops.first P (<[i:=y]> l) = Some y.
Proof.
  intros Hf Hy. unfold db_ops.first.
  by rewrite (list_find_insert_same P l i x y).
Qed.

Lemma first_insert_other (Q : A → Prop) `{∀ x, Decision (Q x)} l i x y :
  l !! i = Some x → ¬ Q x → ¬ Q y →
  db_ops.first Q (<[i:=y]> l) = db_ops.first Q l.
Proof.
  intros. unfold db_ops.first. by rewrite (list_find_insert_other Q l i x y).
Qed.

Lemma first_app_new (P : A → Prop) `{∀ x, Decision (P x)} l y :
  Forall (λ x, ¬ P x) l → P y → db_ops.first P (l ++ [y]) = Some y.
Proof.
  intros Hl Hy. unfold db_ops.first.
  rewrite list_find_app_r by by apply list_find_None.
  simpl. by rewrite decide_True.
Qed.

Lemma first_app_old (P : A → Prop) `{∀ x, Decision (P x)} l k x :
  db_ops.first P l = Some x → db_ops.first P (l ++ k) = Some x.
Proof.
  intros [i Hi]%first_found. unfold db_ops.first.
  by rewrite (list_find_app_l _ _ _ _ _ Hi).
Qed.

(** The three ways an update can end. *)
Lemma update_row_absent (P : A → Prop) `{∀ x, Decision (P x)} setattr payload l :
  list_find P l = None →
  db_ops.update_row P setattr payload l = (Returned None, l).
Proof. intros Hf. unfold db_ops.update_row. by rewrite Hf. Qed.

Lemma update_row_found (P : A → Prop) `{∀ x, Decision (P x)} setattr payload l i x y :
  list_find P l = Some (i, x) → db_ops.setattrs setattr payload x = Some y →
  db_ops.update_row P setattr payload l = (Returned (Some y), <[i:=y]> l).
Proof. intros Hf Hs. unfold db_ops.update_row. by rewrite Hf, Hs. Qed.

Lemma update_row_cases (P : A → Prop) `{∀ x, Decision (P x)} setattr payload l :
  (∃ e, db_ops.update_row P setattr payload l = (Raised e, l)) ∨
  db_ops.update_row P setattr payload l = (Returned None, l) ∨
  (∃ i x y, list_find P l = Some (i, x)
            ∧ db_ops.setattrs setattr payload x = Some y
            ∧ db_ops.update_row P setattr payload l
              = (Returned (Some y), <[i:=y]> l)).
Proof.
  unfold db_ops.update_row.
  destruct (list_find P l) as [[i x]|]; [|by right; left].
  destruct (db_ops.setattrs setattr payload x) as [y|] eqn:E.
  - right; right. by exists i, x, y.
  - left. by eexists.
Qed.
End tables.

Lemma foldr_max_ge (ids : list Z) (z : Z) :
  z ∈ ids → (z ≤ foldr Z.max 0 ids)%Z.
Proof.
  induction ids as [|a ids IH]; simpl.
  - by intros ?%elem_of_nil.
  - intros [->|Hin]%elem_of_cons; [lia|]. specialize (IH Hin). lia.
Qed.

Lemma next_id_fresh (ids : list Z) : db_ops.next_id ids ∉ ids.
Proof.
  intros Hin%foldr_max_ge. unfold db_ops.next_id in Hin. lia.
Qed.

(** ** Reasoning about console actions *)

(** Unfolding a run on a known console. *)
Ltac cli_unfold :=
  unfold mbind, cli_bind, mret, cli_ret, input, int, attr, echo, query, store,
    raise, of_outcome, while_true, main_cli.print_table, main_cli.one,
    main_cli.or_keep, main_cli.with_key in *.
Ltac cli_simpl := repeat progress (cli_unfold; cbn).

Section hoare.
Context (I : database → Prop).

Lemma hoare_ret {A} (a : A) (Q : A → Prop) : Q a → hoare I (mret a) Q.
Proof. intros HQ w HI. split; [done|]. by intros ? [= <-]. Qed.

Lemma hoare_raise {A} (e : exn) (Q : A → Prop) : hoare I (raise e) Q.
Proof. intros w HI. by split. Qed.

Lemma hoare_conseq {A} (m : cli A) (Q Q' : A → Prop) :
  hoare I m Q → (∀ a, Q a → Q' a) → hoare I m Q'.
Proof. intros Hm HQ w HI. destruct (Hm w HI). split; auto. Qed.

Lemma hoare_bind {A B} (m : cli A) (f : A → cli B) (Q : A → Prop) (R : B → Prop) :
  hoare I m Q → (∀ a, Q a → hoare I (f a) R) → hoare I (m ≫= f) R.
Proof.
  intros Hm Hf w HI. destruct (Hm w HI) as [HI' HQ].
  unfold mbind, cli_bind. destruct (m w) as [[e|a] w']; simpl in *.
  - by split.
  - by apply Hf; auto.
Qed.

Lemma hoare_input : hoare I input (λ _, True).
Proof. intros [[|line rest] out d] HI; by split. Qed.

Lemma hoare_int `{Coercions} (text : string) :
  hoare I (int text) (λ z, int_of_text text = Some z).
Proof.
  unfold int. destruct (int_of_text text).
  - by apply hoare_ret.
  - apply hoare_raise.
Qed.

Lemma hoare_input_int `{Coercions} : hoare I (input ≫= int) (λ _, True).
Proof.
  eapply hoare_bind; [apply hoare_input|]. intros line _.
  eapply hoare_conseq; [apply hoare_int|done].
Qed.

Lemma hoare_attr {A B} (obj : option A) (attribute : A → B) :
  hoare I (attr obj attribute) (λ b, ∃ o, obj = Some o ∧ b = attribute o).
Proof.
  destruct obj as [o|]; simpl.
  - apply hoare_ret. by exists o.
  - apply hoare_raise.
Qed.

Lemma hoare_echo (t : table) : hoare I (echo t) (λ _, True).
Proof. intros w HI. by split. Qed.

Lemma hoare_query {A} (f : database → A) :
  hoare I (query f) (λ a, ∃ d, I d ∧ a = f d).
Proof. intros w HI. split; [done|]. intros a [= <-]. by exists (db w). Qed.

Lemma hoare_of_outcome {A} (o : outcome A) :
  hoare I (of_outcome o) (λ a, o = Returned a).
Proof. intros w HI. by split. Qed.

Lemma hoare_store {A} (f : database → outcome A * database) (Q : A → Prop) :
  (∀ d, I d → I (f d).2 ∧ ∀ a, (f d).1 = Returned a → Q a) →
  hoare I (store f) Q.
Proof.
  intros Hf w HI. unfold store. destruct (Hf (db w) HI) as [HI' HQ].
  by destruct (f (db w)).
Qed.

Lemma prompt_loop_returned {A} (body : string → database → outcome (option A))
    d lines a :
  (prompt_loop body d lines).1 = Returned a →
  ∃ line, line ∈ lines ∧ body line d = Returned (Some a).
Proof.
  induction lines as [|line rest IH]; simpl; [done|].
  destruct (body line d) as [e|[a'|]] eqn:E; simpl.
  - done.
  - intros [= ->]. exists line. split; [left|done].
  - intros (l & ? & ?)%IH. exists l. split; [by right|done].
Qed.

Lemma hoare_while_true {A} (body : string → database → outcome (option A)) :
  hoare I (while_true body)
    (λ a, ∃ line d, I d ∧ body line d = Returned (Some a)).
Proof.
  intros w HI. unfold while_true.
  destruct (prompt_loop body (db w) (stdin w)) as [r rest] eqn:E; simpl.
  split; [done|]. intros a ->.
  destruct (prompt_loop_returned body (db w) (stdin w) a) as (line & _ & Hb).
  { by rewrite E. }
  by exists line, (db w).
Qed.

Lemma hoare_print_table (res : main_cli.results) (stop : bool) :
  hoare I (main_cli.print_table res stop) (λ _, True).
Proof.
  unfold main_cli.print_table.
  eapply hoare_bind with (Q := λ _, True).
  - destruct res as [|r|[|r0 rs]];
      first [by apply hoare_ret | apply hoare_echo].
  - intros _ _. destruct stop; [|by apply hoare_ret].
    eapply hoare_bind; [apply hoare_input|]. intros _ _. by apply hoare_ret.
Qed.

Lemma hoare_or_keep (text : string) (prior : cli value)
    (Q : value → Prop) :
  hoare I prior Q →
  hoare I (main_cli.or_keep text prior)
    (λ v, (text ≠ "" ∧ v = VStr text) ∨ (text = "" ∧ Q v)).
Proof.
  intros Hp. unfold main_cli.or_keep. case_decide.
  - eapply hoare_conseq; [done|]. intros; by right.
  - apply hoare_ret. by left.
Qed.
End hoare.

(** ** Beds *)
Arguments db_ops.get_bed : simpl never.
Arguments db_ops.update_bed : simpl never.
Arguments schemas.BedBase : simpl never.

Section beds.
Context `{Coercions}.
Import models.

Lemma BedBase_assign (bed_id ward_id patient_id : Z) (now : datetime) :
  schemas.BedBase [("Bed_ID", VInt bed_id); ("Ward_ID", VInt ward_id);
                   ("Patient_ID", VInt patient_id); ("Status", VStr "Occupied");
                   ("Assigned_Date", VStr (strftime now))]
  = Returned [("Bed_ID", VInt bed_id); ("Ward_ID", VInt ward_id);
              ("Patient_ID", VInt patient_id); ("Status", VStr "Occupied");
              ("Assigned_Date", VDate now)].
Proof.
  unfold schemas.BedBase, schemas.BaseModel, schemas.validate_field. simpl.
  by rewrite datetime_of_text_strftime.
Qed.

Lemma BedBase_release (bed_id ward_id : Z) :
  schemas.BedBase [("Bed_ID", VInt bed_id); ("Ward_ID", VInt ward_id);
                   ("Patient_ID", VNone); ("Status", VStr "Available");
                   ("Assigned_Date", VNone)]
  = Returned [("Bed_ID", VInt bed_id); ("Ward_ID", VInt ward_id);
              ("Patient_ID", VNone); ("Status", VStr "Available");
              ("Assigned_Date", VNone)].
Proof. reflexivity. Qed.

(** The run of an assignment on an existing bed, with the three lines it
    reads: the bed number, the patient number, and the key press after the
    final table. *)
Lemma assigne_bed_run now l1 l2 l3 rest out d bed_id patient_id i b :
  int_of_text l1 = Some bed_id → int_of_text l2 = Some patient_id →
  list_find (λ b, Bed.Bed_ID b = bed_id) (Beds d) = Some (i, b) →
  let b' := Bed.mk bed_id (Bed.Ward_ID b) (Some patient_id) "Occupied" (Some now) in
  main_cli.assigne_bed now (World (l1 :: l2 :: l3 :: rest) out d)
  = (Returned (),
     World rest (out ++ [shown Bed.as_dict b] ++ [shown Bed.as_dict b'])
           (set_Beds (<[i:=b']> (Beds d)) d)).
Proof.
  intros H1 H2 Hf b'.
  assert (Bed.Bed_ID b = bed_id) as Hid
    by by apply list_find_Some in Hf as (_ & ? & _).
  assert (db_ops.get_bed d bed_id = Some b) as Hg
    by (unfold db_ops.get_bed, db_ops.first; by rewrite Hf).
  assert (db_ops.update_bed d bed_id
            [("Bed_ID", VInt bed_id); ("Ward_ID", VInt (Bed.Ward_ID b));
             ("Patient_ID", VInt patient_id); ("Status", VStr "Occupied");
             ("Assigned_Date", VDate now)]
          = (Returned (Some b'), set_Beds (<[i:=b']> (Beds d)) d)) as Hu.
  { unfold db_ops.update_bed. by erewrite update_row_found. }
  assert (db_ops.get_bed (set_Beds (<[i:=b']> (Beds d)) d) bed_id = Some b') as Hg'.
  { unfold db_ops.get_bed. simpl. by eapply first_insert_same. }
  unfold main_cli.assigne_bed.
  repeat progress (cli_simpl; rewrite ?H1, ?H2, ?Hg, ?Hid, ?BedBase_assign, ?Hu, ?Hg').
  rewrite <- app_assoc. unfold shown. simpl. by rewrite Hid.
Qed.

(** The same for a release: the bed number, the key press after the first
    table, and the key press after the final table. *)
Lemma release_bed_run l1 l2 l3 rest out d bed_id i b :
  int_of_text l1 = Some bed_id →
  list_find (λ b, Bed.Bed_ID b = bed_id) (Beds d) = Some (i, b) →
  let b' := Bed.mk bed_id (Bed.Ward_ID b) None "Available" None in
  main_cli.release_bed (World (l1 :: l2 :: l3 :: rest) out d)
  = (Returned (),
     World rest (out ++ [shown Bed.as_dict b; shown Bed.as_dict b'])
           (set_Beds (<[i:=b']> (Beds d)) d)).
Proof.
  intros H1 Hf b'.
  assert (Bed.Bed_ID b = bed_id) as Hid
    by by apply list_find_Some in Hf as (_ & ? & _).
  assert (db_ops.get_bed d bed_id = Some b) as Hg
    by (unfold db_ops.get_bed, db_ops.first; by rewrite Hf).
  assert (db_ops.update_bed d bed_id
            [("Bed_ID", VInt bed_id); ("Ward_ID", VInt (Bed.Ward_ID b));
             ("Patient_ID", VNone); ("Status", VStr "Available");
             ("Assigned_Date", VNone)]
          = (Returned (Some b'), set_Beds (<[i:=b']> (Beds d)) d)) as Hu.
  { unfold db_ops.update_bed. by erewrite update_row_found. }
  assert (db_ops.get_bed (set_Beds (<[i:=b']> (Beds d)) d) bed_id = Some b') as Hg'.
  { unfold db_ops.get_bed. simpl. by eapply first_insert_same. }
  unfold main_cli.release_bed.
  repeat progress (cli_simpl; rewrite ?H1, ?Hg, ?Hid, ?BedBase_release, ?Hu, ?Hg').
  rewrite <- app_assoc. unfold shown. simpl. by rewrite Hid.
Qed.

(** What an update leaves in the table of beds. *)
Lemma update_bed_keeps (J : Bed.row → Prop) d bed_id payload :
  Forall J (Beds d) →
  (∀ x y, db_ops.setattrs Bed.setattr payload x = Some y → J y) →
  Forall J (Beds (db_ops.update_bed d bed_id payload).2).
Proof.
  intros Hd Hy. unfold db_ops.update_bed.
  destruct (update_row_cases (λ b, Bed.Bed_ID b = bed_id) Bed.setattr payload (Beds d))
    as [[e ->]|[->|(i & x & y & _ & Hs & ->)]]; simpl; try done.
  apply Forall_insert; eauto.
Qed.

Lemma update_bed_other d bed_id payload other :
  other ≠ bed_id →
  (∀ x y, db_ops.setattrs Bed.setattr payload x = Some y → Bed.Bed_ID y = Bed.Bed_ID x) →
  db_ops.get_bed (db_ops.update_bed d bed_id payload).2 other = db_ops.get_bed d other.
Proof.
  intros Hne Hpk. unfold db_ops.update_bed.
  destruct (update_row_cases (λ b, Bed.Bed_ID b = bed_id) Bed.setattr payload (Beds d))
    as [[e ->]|[->|(i & x & y & Hf & Hs & ->)]]; simpl; try done.
  unfold db_ops.get_bed. simpl.
  apply list_find_Some in Hf as (Hi & Hx & _).
  apply (first_insert_other _ _ i x y); [done|congruence|].
  rewrite (Hpk x y Hs). congruence.
Qed.

Lemma assigne_bed_keeps (J : Bed.row → Prop) now :
  (∀ bed_id ward_id patient_id,
     J (Bed.mk bed_id ward_id (Some patient_id) "Occupied" (Some now))) →
  hoare (λ d, Forall J (Beds d)) (main_cli.assigne_bed now) (λ _, True).
Proof.
  intros HJ. unfold main_cli.assigne_bed.
  eapply hoare_bind; [apply hoare_input_int|]. intros bed_id _.
  eapply hoare_bind; [apply hoare_query|]. intros bed _.
  eapply hoare_bind; [apply hoare_print_table|]. intros _ _.
  eapply hoare_bind; [apply hoare_input_int|]. intros patient_id _.
  eapply hoare_bind; [apply hoare_attr|]. intros the_bed_id _.
  eapply hoare_bind; [apply hoare_attr|]. intros the_ward_id _.
  eapply hoare_bind; [apply hoare_of_outcome|]. intros payload Hp.
  rewrite BedBase_assign in Hp. injection Hp as <-.
  eapply hoare_bind with (Q := λ _, True).
  { apply hoare_store. intros d Hd. split; [|done].
    apply update_bed_keeps; [done|]. intros x y [= <-]. apply HJ. }
  intros _ _.
  eapply hoare_bind; [apply hoare_query|]. intros shown _.
  apply hoare_print_table.
Qed.

Lemma release_bed_keeps (J : Bed.row → Prop) :
  (∀ bed_id ward_id, J (Bed.mk bed_id ward_id None "Available" None)) →
  hoare (λ d, Forall J (Beds d)) main_cli.release_bed (λ _, True).
Proof.
  intros HJ. unfold main_cli.release_bed.
  eapply hoare_bind; [apply hoare_input_int|]. intros bed_id _.
  eapply hoare_bind; [apply hoare_query|]. intros bed _.
  eapply hoare_bind; [apply hoare_print_table|]. intros _ _.
  eapply hoare_bind; [apply hoare_attr|]. intros the_bed_id _.
  eapply hoare_bind; [apply hoare_attr|]. intros the_ward_id _.
  eapply hoare_bind; [apply hoare_of_outcome|]. intros payload Hp.
  rewrite BedBase_release in Hp. injection Hp as <-.
  eapply hoare_bind with (Q := λ _, True).
  { apply hoare_store. intros d Hd. split; [|done].
    apply update_bed_keeps; [done|]. intros x y [= <-]. apply HJ. }
  intros _ _.
  eapply hoare_bind; [apply hoare_query|]. intros shown _.
  apply hoare_print_table.
Qed.

Lemma bed_inv_assigned bed_id ward_id patient_id now :
  bed_inv (Bed.mk bed_id ward_id (Some patient_id) "Occupied" (Some now)).
Proof. unfold bed_inv; simpl. repeat split; try done; by intros [??]. Qed.

Lemma bed_inv_released bed_id ward_id :
  bed_inv (Bed.mk bed_id ward_id None "Available" None).
Proof. unfold bed_inv; simpl. repeat split; try done; by intros [??]. Qed.

Lemma bed_session_keeps ops d :
  Forall bed_inv (Beds d) → Forall bed_inv (Beds (bed_session ops d)).
Proof.
  revert d. induction ops as [|[op lines] ops IH]; intros d Hd; simpl; [done|].
  apply IH. destruct op as [now|]; simpl.
  - by apply (assigne_bed_keeps bed_inv now (λ b w p, bed_inv_assigned b w p now)
                (World lines [] d)).
  - by apply (release_bed_keeps bed_inv bed_inv_released (World lines [] d)).
Qed.

(** Claim C3.  After every session of assignments and releases, started
    from a table of beds that satisfies the invariant (beds are provisioned
    Available, without patient or date), every bed has Status ["Occupied"]
    if and only if both its Patient_ID and its Assigned_Date are set, and
    Status ["Available"] if and only if both are null. *)
Theorem bed_invariant_preserved (ops : list (bed_op * list string)) (d : database) :
  (∀ b, b ∈ Beds d → bed_inv b) →
  ∀ b, b ∈ Beds (bed_session ops d) →
    (Bed.Status b = "Occupied" ↔ Bed.Patient_ID b ≠ None ∧ Bed.Assigned_Date b ≠ None)
    ∧ (Bed.Status b = "Available" ↔ Bed.Patient_ID b = None ∧ Bed.Assigned_Date b = None).
Proof.
  intros Hd%list.Forall_forall. intros b Hb.
  by apply (proj1 (list.Forall_forall _ _) (bed_session_keeps ops d Hd)).
Qed.

(** Claim C1, amended.  Assigning an existing patient to a bed whose Status
    is ["Occupied"] does not fail: the action returns normally and
    overwrites the bed record with the new patient and the current time,
    Status staying ["Occupied"]. *)
Theorem assign_occupied_overwrites now l1 l2 l3 rest out d bed_id patient_id b p :
  int_of_text l1 = Some bed_id → int_of_text l2 = Some patient_id →
  db_ops.get_bed d bed_id = Some b → Bed.Status b = "Occupied" →
  db_ops.get_patient d patient_id = Some p →
  let r := main_cli.assigne_bed now (World (l1 :: l2 :: l3 :: rest) out d) in
  r.1 = Returned ()
  ∧ db_ops.get_bed (db r.2) bed_id
    = Some (Bed.mk bed_id (Bed.Ward_ID b) (Some patient_id) "Occupied" (Some now)).
Proof.
  intros H1 H2 [i Hf]%first_found _ _ r. subst r.
  rewrite (assigne_bed_run now l1 l2 l3 rest out d bed_id patient_id i b) by done.
  split; [done|]. simpl. unfold db_ops.get_bed. simpl.
  by eapply first_insert_same.
Qed.

(** Claim C4.  Releasing an existing bed, whatever its status, returns
    normally and leaves it ["Available"] with Patient_ID and Assigned_Date
    null; releasing it once more returns normally too and leaves the store
    as the first release left it. *)
Theorem release_bed_idempotent l1 l2 l3 rest out d bed_id b :
  int_of_text l1 = Some bed_id →
  db_ops.get_bed d bed_id = Some b →
  let r := main_cli.release_bed (World (l1 :: l2 :: l3 :: rest) out d) in
  r.1 = Returned ()
  ∧ db_ops.get_bed (db r.2) bed_id
    = Some (Bed.mk bed_id (Bed.Ward_ID b) None "Available" None)
  ∧ ∀ m2 m3 rest' out',
      let r' := main_cli.release_bed (World (l1 :: m2 :: m3 :: rest') out' (db r.2)) in
      r'.1 = Returned () ∧ db r'.2 = db r.2.
Proof.
  intros H1 [i Hf]%first_found r. subst r.
  rewrite (release_bed_run l1 l2 l3 rest out d bed_id i b) by done. simpl.
  set (b' := Bed.mk bed_id (Bed.Ward_ID b) None "Available" None).
  assert (list_find (λ b, Bed.Bed_ID b = bed_id) (<[i:=b']> (Beds d)) = Some (i, b'))
    as Hf' by by eapply list_find_insert_same.
  split; [done|]. split.
  { unfold db_ops.get_bed, db_ops.first. simpl. by rewrite Hf'. }
  intros m2 m3 rest' out'.
  rewrite (release_bed_run l1 m2 m3 rest' out' _ bed_id i b') by done. simpl.
  split; [done|]. unfold set_Beds. simpl. f_equal.
  apply list_insert_insert_eq.
Qed.
End beds.

(** Claim C1 as stated fails: bed 1 is occupied by patient 7, and assigning
    it to patient 8 returns normally and rewrites the record. *)
Lemma assign_occupied_not_rejected :
  let w := World ["1"; "8"; ""] [] ward_example in
  let r := main_cli.assigne_bed (H:=decimal) 200%Z w in
  db_ops.get_bed (db w) 1%Z = Some (models.Bed.mk 1 1 (Some 7%Z) "Occupied" (Some 100%Z))
  ∧ r.1 = Returned ()
  ∧ db_ops.get_bed (db r.2) 1%Z = Some (models.Bed.mk 1 1 (Some 8%Z) "Occupied" (Some 200%Z)).
Proof. vm_compute. done. Qed.

(** Claim C2 at a failing input: no patient is numbered 99, and assigning
    bed 2 to 99 returns normally and records 99 as its patient. *)
Lemma assign_to_missing_patient :
  let w := World ["2"; "99"; ""] [] ward_example in
  let r := main_cli.assigne_bed (H:=decimal) 200%Z w in
  db_ops.get_patient (db w) 99%Z = None
  ∧ r.1 = Returned ()
  ∧ db_ops.get_bed (db r.2) 2%Z = Some (models.Bed.mk 2 1 (Some 99%Z) "Occupied" (Some 200%Z)).
Proof. vm_compute. done. Qed.

Lemma assign_occupied_overwrites_witness :
  let r := main_cli.assigne_bed (H:=decimal) 200%Z
             (World ["1"; "8"; ""] [] ward_example) in
  r.1 = Returned ()
  ∧ db_ops.get_bed (db r.2) 1%Z
    = Some (models.Bed.mk 1 1 (Some 8%Z) "Occupied" (Some 200%Z)).
Proof.
  apply (assign_occupied_overwrites (H:=decimal) 200%Z "1" "8" "" [] []
           ward_example 1%Z 8%Z
           (models.Bed.mk 1 1 (Some 7%Z) "Occupied" (Some 100%Z))
           (models.Patient.mk 8 "Ben" "-" None "ben@example.org" None None));
    reflexivity.
Defined.

Lemma bed_invariant_preserved_witness :
  Forall bed_inv (Beds ward_example)
  ∧ Forall bed_inv
      (Beds (bed_session (H:=decimal)
               [(Assign 200%Z, ["2"; "8"; ""]); (Release, ["1"; ""; ""])]
               ward_example)).
Proof.
  assert (Forall bed_inv (Beds ward_example)) as Hd.
  { unfold ward_example; simpl.
    repeat apply Forall_cons; try apply Forall_nil;
      unfold bed_inv; simpl; repeat split; try done; by intros [??]. }
  split; [exact Hd|].
  apply list.Forall_forall.
  apply (bed_invariant_preserved (H:=decimal)).
  by apply list.Forall_forall.
Defined.

Lemma release_bed_idempotent_witness :
  let r := main_cli.release_bed (H:=decimal) (World ["1"; ""; ""] [] ward_example) in
  let r' := main_cli.release_bed (H:=decimal) (World ["1"; ""; ""] [] (db r.2)) in
  r.1 = Returned ()
  ∧ db_ops.get_bed (db r.2) 1%Z = Some (models.Bed.mk 1 1 None "Available" None)
  ∧ r'.1 = Returned () ∧ db r'.2 = db r.2.
Proof.
  destruct (release_bed_idempotent (H:=decimal) "1" "" "" [] [] ward_example 1%Z
              (models.Bed.mk 1 1 (Some 7%Z) "Occupied" (Some 100%Z))
              eq_refl eq_refl) as (H1 & H2 & H3).
  split; [exact H1|]. split; [exact H2|]. exact (H3 "" "" [] []).
Defined.

(** ** Schemas: the shape of a validated dictionary *)
Section schema_facts.
Context `{Coercions}.

Lemma validate_field_key kw f kv :
  schemas.validate_field kw f = Some kv → kv.1 = schemas.f_name f.
Proof.
  unfold schemas.validate_field. intros Hv.
  repeat case_match; simplify_option_eq; done.
Qed.

Lemma BaseModel_returned fields kw payload :
  schemas.BaseModel fields kw = Returned payload →
  Forall2 (λ f kv, schemas.validate_field kw f = Some kv) fields payload.
Proof.
  unfold schemas.BaseModel. destruct (mapM _ fields) as [p|] eqn:E; [|done].
  intros [= <-]. by apply mapM_Some.
Qed.

(** A text field given text keeps it. *)
Lemma validate_field_text kw name optional s kv :
  dict_get name kw = Some (VStr s) →
  schemas.validate_field kw (schemas.Field name schemas.KStr optional) = Some kv →
  kv = (name, VStr s).
Proof.
  unfold schemas.validate_field. simpl. intros ->. simpl. by intros [= <-].
Qed.
End schema_facts.

Ltac invert_Forall2 :=
  repeat match goal with
  | H : Forall2 _ (_ :: _) _ |- _ =>
      apply Forall2_cons_inv_l in H as (? & ? & ? & H & ->)
  | H : Forall2 _ [] _ |- _ => apply Forall2_nil_inv_l in H as ->
  end.

Arguments db_ops.get_doctor : simpl never.
Arguments db_ops.get_appointment : simpl never.
Arguments db_ops.create_appointment : simpl never.
Arguments db_ops.update_appointment : simpl never.
Arguments schemas.AppointmentBase : simpl never.

(** ** Appointments *)

Section appointments.
Context `{Coercions}.
Import models.

Lemma prompt_loop_skip {A} (body : string → database → outcome (option A))
    d bad line rest a :
  Forall (λ l, body l d = Returned None) bad →
  body line d = Returned (Some a) →
  prompt_loop body d (bad ++ line :: rest) = (Returned a, rest).
Proof.
  intros Hbad Hline. induction Hbad as [|l bad Hl _ IH]; simpl.
  - by rewrite Hline.
  - by rewrite Hl.
Qed.

Lemma ask_doctor_run bad line rest out d doc_id doctor :
  Forall (λ l, ∃ z, int_of_text l = Some z ∧ db_ops.get_doctor d z = None) bad →
  int_of_text line = Some doc_id → db_ops.get_doctor d doc_id = Some doctor →
  main_cli.ask_doctor (World (bad ++ line :: rest) out d)
  = (Returned doc_id, World rest out d).
Proof.
  intros Hbad Hline Hdoc. unfold main_cli.ask_doctor, while_true. simpl.
  erewrite prompt_loop_skip; [done| |by rewrite Hline, Hdoc].
  eapply list.Forall_impl; [exact Hbad|]. intros l (z & -> & ->). done.
Qed.

Lemma ask_date_run bad line rest out d :
  Forall (λ l, strptime l = None) bad → is_Some (strptime line) →
  main_cli.ask_date (World (bad ++ line :: rest) out d)
  = (Returned line, World rest out d).
Proof.
  intros Hbad [t Hline]. unfold main_cli.ask_date, while_true. simpl.
  erewrite prompt_loop_skip; [done| |].
  - eapply list.Forall_impl; [exact Hbad|]. intros l Hl. unfold main_cli.is_valid_date.
    by rewrite Hl.
  - unfold main_cli.is_valid_date. by rewrite Hline.
Qed.

Lemma AppointmentBase_open doc_id appo_date t speciality :
  datetime_of_text appo_date = Some t →
  schemas.AppointmentBase [("Doc_ID", VInt doc_id); ("Appointment_Date", VStr appo_date);
                           ("Speciality", VStr speciality); ("Statusof", VInt 0)]
  = Returned [("Patient_ID", VNone); ("Doc_ID", VInt doc_id);
              ("Appointment_Date", VDate t); ("Statusof", VInt 0);
              ("Typeof", VNone); ("Speciality", VStr speciality); ("Notes", VNone)].
Proof.
  intros Ht. unfold schemas.AppointmentBase, schemas.BaseModel, schemas.validate_field.
  simpl. by rewrite Ht.
Qed.

Lemma create_appointment_open d doc_id t speciality :
  db_ops.create_appointment d
    [("Patient_ID", VNone); ("Doc_ID", VInt doc_id); ("Appointment_Date", VDate t);
     ("Statusof", VInt 0); ("Typeof", VNone); ("Speciality", VStr speciality);
     ("Notes", VNone)]
  = (Returned (open_slot d doc_id t speciality),
     set_Appointments (Appointments d ++ [open_slot d doc_id t speciality]) d).
Proof. reflexivity. Qed.

Lemma get_appointment_new d a :
  Appointment.Appointment_ID a
    = db_ops.next_id (Appointment.Appointment_ID <$> Appointments d) →
  db_ops.get_appointment (set_Appointments (Appointments d ++ [a]) d)
    (Appointment.Appointment_ID a) = Some a.
Proof.
  intros Hid. unfold db_ops.get_appointment. simpl.
  apply first_app_new; [|done].
  apply list.Forall_forall. intros x Hx Heq.
  apply (next_id_fresh (Appointment.Appointment_ID <$> Appointments d)).
  rewrite <- Hid, <- Heq. by apply list_elem_of_fmap_2.
Qed.

Lemma create_open_appointment_run
    bad_ids id_line bad_dates date_line key rest out d doc_id doctor t :
  Forall (λ l, ∃ z, int_of_text l = Some z ∧ db_ops.get_doctor d z = None) bad_ids →
  int_of_text id_line = Some doc_id → db_ops.get_doctor d doc_id = Some doctor →
  Forall (λ l, strptime l = None) bad_dates →
  is_Some (strptime date_line) → datetime_of_text date_line = Some t →
  let a := open_slot d doc_id t (Doctor.Speciality doctor) in
  main_cli.create_open_appointment
    (World (bad_ids ++ id_line :: bad_dates ++ date_line :: key :: rest) out d)
  = (Returned (),
     World rest (out ++ [shown Doctor.as_dict doctor; shown Appointment.as_dict a])
           (set_Appointments (Appointments d ++ [a]) d)).
Proof.
  intros Hbad Hid Hdoc Hbadd Hdate Ht a.
  unfold main_cli.create_open_appointment.
  unfold mbind at 1, cli_bind at 1.
  rewrite (ask_doctor_run bad_ids id_line _ out d doc_id doctor) by done.
  cli_simpl. rewrite Hdoc. cli_simpl.
  rewrite ask_date_run by done.
  rewrite (AppointmentBase_open _ _ t) by done. cli_simpl.
  rewrite create_appointment_open. cli_simpl.
  by rewrite <- app_assoc.
Qed.

(** Claim C5.  For an existing doctor, whatever is typed and rejected
    before the accepted doctor number and date, creating an open appointment
    returns normally and stores one new appointment whose Patient_ID is null,
    whose Statusof is 0 (Open; the action asks for no status) and whose
    Speciality is that of the referenced doctor at that moment. *)
Theorem create_open_appointment_snapshot
    bad_ids id_line bad_dates date_line key rest out d doc_id doctor t :
  Forall (λ l, ∃ z, int_of_text l = Some z ∧ db_ops.get_doctor d z = None) bad_ids →
  int_of_text id_line = Some doc_id → db_ops.get_doctor d doc_id = Some doctor →
  Forall (λ l, strptime l = None) bad_dates →
  is_Some (strptime date_line) → datetime_of_text date_line = Some t →
  let r := main_cli.create_open_appointment
             (World (bad_ids ++ id_line :: bad_dates ++ date_line :: key :: rest) out d) in
  ∃ a, r.1 = Returned ()
       ∧ Appointments (db r.2) = Appointments d ++ [a]
       ∧ db_ops.get_appointment (db r.2) (Appointment.Appointment_ID a) = Some a
       ∧ Appointment.Patient_ID a = None
       ∧ Appointment.Statusof a = Some 0%Z
       ∧ Appointment.Doc_ID a = doc_id
       ∧ Appointment.Speciality a = Doctor.Speciality doctor.
Proof.
  intros Hbad Hid Hdoc Hbadd Hdate Ht r. subst r.
  rewrite (create_open_appointment_run bad_ids id_line bad_dates date_line key rest
             out d doc_id doctor t) by done.
  exists (open_slot d doc_id t (Doctor.Speciality doctor)). simpl.
  split_and!; try done. by apply get_appointment_new.
Qed.

(** Every payload validated from the keyword arguments of
    [update_appointment] leaves the number of the row it is assigned to
    alone and sets its speciality to the one passed. *)
Lemma AppointmentBase_update_payload doc_id patient_id status typeof speciality
    app_date note payload x y :
  schemas.AppointmentBase
    [("Doc_ID", doc_id); ("Patient_ID", patient_id); ("Statusof", VInt status);
     ("Typeof", VStr typeof); ("Speciality", VStr speciality);
     ("Appointment_Date", app_date); ("Notes", note)] = Returned payload →
  db_ops.setattrs Appointment.setattr payload x = Some y →
  Appointment.Appointment_ID y = Appointment.Appointment_ID x
  ∧ Appointment.Speciality y = speciality.
Proof.
  intros Hp%BaseModel_returned. invert_Forall2.
  repeat match goal with
  | Hv : schemas.validate_field _ (schemas.Field _ schemas.KStr _) = Some _ |- _ =>
      apply validate_field_text with (s := speciality) in Hv; [|reflexivity]
  | Hv : schemas.validate_field _ (schemas.Field _ schemas.KStr _) = Some _ |- _ =>
      apply validate_field_text with (s := typeof) in Hv; [|reflexivity]
  | Hv : schemas.validate_field _ _ = Some _ |- _ =>
      apply validate_field_key in Hv; simpl in Hv
  end.
  repeat match goal with kv : (string * value)%type |- _ => destruct kv as [??] end.
  simpl in *. simplify_eq.
  unfold db_ops.setattrs, Appointment.setattr. simpl. intros Hy.
  repeat match goal with
  | Hy : context [as_opt_int ?v] |- _ => destruct (as_opt_int v); simpl in Hy; [|done]
  | Hy : context [as_opt_str ?v] |- _ => destruct (as_opt_str v); simpl in Hy; [|done]
  | Hy : context [as_int ?v] |- _ => destruct (as_int v); simpl in Hy; [|done]
  | Hy : context [as_date ?v] |- _ => destruct (as_date v); simpl in Hy; [|done]
  | Hy : context [as_str ?v] |- _ => destruct (as_str v); simpl in Hy; [|done]
  end.
  by injection Hy as <-.
Qed.

Lemma update_appointment_store_keeps d id0 s appointment_id payload speciality :
  (∀ x y, db_ops.setattrs Appointment.setattr payload x = Some y →
          Appointment.Appointment_ID y = Appointment.Appointment_ID x
          ∧ Appointment.Speciality y = speciality) →
  (appointment_id = id0 → speciality = s) →
  (∃ a, db_ops.get_appointment d id0 = Some a ∧ Appointment.Speciality a = s) →
  ∃ a, db_ops.get_appointment (db_ops.update_appointment d appointment_id payload).2 id0
       = Some a ∧ Appointment.Speciality a = s.
Proof.
  intros Hpay Hsame (a & Ha & Hs). unfold db_ops.update_appointment.
  destruct (update_row_cases (λ a, Appointment.Appointment_ID a = appointment_id)
              Appointment.setattr payload (Appointments d))
    as [[e ->]|[->|(i & x & y & Hf & Hy & ->)]]; simpl; eauto.
  destruct (Hpay x y Hy) as [Hid Hsp].
  pose proof Hf as (Hi & Hx & _)%list_find_Some.
  unfold db_ops.get_appointment in *. simpl.
  destruct (decide (appointment_id = id0)) as [->|Hne].
  - exists y. split; [|by rewrite Hsp, Hsame].
    eapply first_insert_same; [done|]. congruence.
  - exists a. split; [|done].
    rewrite (first_insert_other _ _ i x y); [done|done|congruence|congruence].
Qed.

Lemma update_appointment_hoare id0 s :
  hoare (λ d, ∃ a, db_ops.get_appointment d id0 = Some a ∧ Appointment.Speciality a = s)
    main_cli.update_appointment (λ _, True).
Proof.
  unfold main_cli.update_appointment.
  eapply hoare_bind; [apply hoare_input_int|]. intros appointment_id _.
  eapply hoare_bind; [apply hoare_query|]. intros appointment (d0 & Hd0 & Happ).
  eapply hoare_bind; [apply hoare_print_table|]. intros _ _.
  eapply hoare_bind; [apply hoare_input|]. intros ? _.
  eapply hoare_bind; [apply hoare_or_keep, hoare_attr|]. intros doc_id _.
  eapply hoare_bind; [apply hoare_input|]. intros ? _.
  eapply hoare_bind; [apply hoare_or_keep, hoare_attr|]. intros patient_id _.
  eapply hoare_bind; [apply hoare_input|]. intros ? _.
  eapply hoare_bind; [apply hoare_or_keep, hoare_attr|]. intros app_date _.
  eapply hoare_bind; [apply hoare_while_true|]. intros status _.
  eapply hoare_bind; [apply hoare_while_true|]. intros typeof _.
  eapply hoare_bind; [apply hoare_attr|]. intros speciality (o & Ho & Hsp).
  eapply hoare_bind; [apply hoare_input|]. intros ? _.
  eapply hoare_bind; [apply hoare_or_keep, hoare_attr|]. intros note _.
  eapply hoare_bind; [apply hoare_of_outcome|]. intros payload Hp.
  eapply hoare_bind with (Q := λ _, True).
  { apply hoare_store. intros d Hd. split; [|done].
    apply (update_appointment_store_keeps d id0 s appointment_id payload speciality);
      [|intros ->; destruct Hd0 as (? & ? & <-); congruence|done].
    intros x y. by apply (AppointmentBase_update_payload _ _ _ _ _ _ _ _ x y Hp). }
  intros _ _.
  eapply hoare_bind; [apply hoare_query|]. intros ? _.
  apply hoare_print_table.
Qed.

(** Claim C6.  Whatever is typed into the update of an appointment, and also
    when the doctor is changed, the Speciality of every stored appointment
    stays the value its row held before the update: it is never recomputed
    from the doctor. *)
Theorem update_appointment_keeps_speciality (w : world) (id : Z) (a : Appointment.row) :
  db_ops.get_appointment (db w) id = Some a →
  ∃ a', db_ops.get_appointment (db (main_cli.update_appointment w).2) id = Some a'
        ∧ Appointment.Speciality a' = Appointment.Speciality a.
Proof.
  intros Ha.
  apply (update_appointment_hoare id (Appointment.Speciality a) w). eauto.
Qed.
End appointments.

Lemma create_open_appointment_snapshot_witness :
  let r := main_cli.create_open_appointment (H:=decimal)
             (World (["5"] ++ "2" :: ["x"] ++ "777" :: "" :: []) [] hospital_example) in
  ∃ a, r.1 = Returned ()
       ∧ Appointments (db r.2) = Appointments hospital_example ++ [a]
       ∧ db_ops.get_appointment (db r.2) (models.Appointment.Appointment_ID a) = Some a
       ∧ models.Appointment.Patient_ID a = None
       ∧ models.Appointment.Statusof a = Some 0%Z
       ∧ models.Appointment.Doc_ID a = 2%Z
       ∧ models.Appointment.Speciality a = "Neurology".
Proof.
  apply (create_open_appointment_snapshot (H:=decimal) ["5"] "2" ["x"] "777" "" [] []
           hospital_example 2%Z
           (models.Doctor.mk 2 "Bob" "Neurology" None "bob@example.org") 777%Z).
  - apply Forall_cons; [|apply Forall_nil]. exists 5%Z. split; reflexivity.
  - reflexivity.
  - reflexivity.
  - apply Forall_cons; [reflexivity|apply Forall_nil].
  - exists 777%Z. reflexivity.
  - reflexivity.
Defined.

(** The appointment of doctor 1 (Cardiology) is moved to doctor 2
    (Neurology) and completed: its Speciality still reads Cardiology. *)
Example update_appointment_changes_doctor :
  let r := main_cli.update_appointment (H:=decimal)
             (World ["1"; "2"; ""; ""; "9"; "2"; "Inperson"; ""; ""] []
                hospital_example) in
  r.1 = Returned ()
  ∧ db_ops.get_appointment (db r.2) 1%Z
    = Some (models.Appointment.mk 1 (Some 7%Z) 2 500%Z (Some 2%Z) (Some "Inperson")
              "Cardiology" None).
Proof. vm_compute. done. Qed.

Lemma update_appointment_keeps_speciality_witness :
  ∃ a', db_ops.get_appointment
          (db (main_cli.update_appointment (H:=decimal)
                 (World ["1"; "2"; ""; ""; "9"; "2"; "Inperson"; ""; ""] []
                    hospital_example)).2) 1%Z = Some a'
        ∧ models.Appointment.Speciality a' = "Cardiology".
Proof.
  apply (update_appointment_keeps_speciality (H:=decimal)
           (World ["1"; "2"; ""; ""; "9"; "2"; "Inperson"; ""; ""] [] hospital_example)
           1%Z
           (models.Appointment.mk 1 (Some 7%Z) 1 500%Z (Some 1%Z) (Some "Online")
              "Cardiology" None)).
  reflexivity.
Defined.

(** ** Updates *)

Arguments db_ops.get_staff_shift : simpl never.
Arguments db_ops.update_staff_shift : simpl never.
Arguments schemas.StaffShiftBase : simpl never.
Arguments db_ops.update_doctor : simpl never.
Arguments schemas.DoctorBase : simpl never.

(** As [cli_simpl], but prompts that keep a prior value stay folded. *)
Ltac cli_eval :=
  repeat progress
    (unfold mbind, cli_bind, mret, cli_ret, input, int, echo, query, store, raise,
       of_outcome, main_cli.print_table, main_cli.one in *; cbn).

Lemma or_keep_run (text : string) (prior : value) (w : world) :
  main_cli.or_keep text (λ w, (Returned prior, w)) w
  = (Returned (if decide (text = "") then prior else VStr text), w).
Proof. unfold main_cli.or_keep. by case_decide. Qed.

Section updates.
Context `{Coercions}.
Import models.

Lemma StaffShiftBase_entered a1 a2 a3 sid start_ end_ new_staff new_start new_end :
  entered a1 sid int_of_text = Some new_staff →
  entered a2 start_ datetime_of_text = Some new_start →
  entered a3 end_ datetime_of_text = Some new_end →
  schemas.StaffShiftBase
    [("Staff_ID", if decide (a1 = "") then VInt sid else VStr a1);
     ("Shift_Start", if decide (a2 = "") then VDate start_ else VStr a2);
     ("Shift_End", if decide (a3 = "") then VDate end_ else VStr a3)]
  = Returned [("Staff_ID", VInt new_staff); ("Shift_Start", VDate new_start);
              ("Shift_End", VDate new_end)].
Proof.
  unfold entered, schemas.StaffShiftBase, schemas.BaseModel, schemas.validate_field.
  intros H1 H2 H3. simpl.
  repeat case_decide; simplify_eq; simpl; rewrite ?H1, ?H2, ?H3; done.
Qed.

Lemma update_staff_shift_run id_line a1 a2 a3 key rest out d shift_id i s sid
    new_staff new_start new_end :
  int_of_text id_line = Some shift_id →
  list_find (λ s, StaffShift.Shift_ID s = shift_id) (StaffShifts d) = Some (i, s) →
  StaffShift.Staff_ID s = Some sid →
  entered a1 sid int_of_text = Some new_staff →
  entered a2 (StaffShift.Shift_Start s) datetime_of_text = Some new_start →
  entered a3 (StaffShift.Shift_End s) datetime_of_text = Some new_end →
  let s' := StaffShift.mk shift_id (Some new_staff) new_start new_end in
  main_cli.update_staff_shift (World (id_line :: a1 :: a2 :: a3 :: key :: rest) out d)
  = (Returned (),
     World rest (out ++ [shown StaffShift.as_dict s; shown StaffShift.as_dict s'])
           (set_StaffShifts (<[i:=s']> (StaffShifts d)) d)).
Proof.
  intros Hid Hf Hsid E1 E2 E3 s'.
  assert (StaffShift.Shift_ID s = shift_id) as Hpk
    by by apply list_find_Some in Hf as (_ & ? & _).
  assert (db_ops.get_staff_shift d shift_id = Some s) as Hg
    by (unfold db_ops.get_staff_shift, db_ops.first; by rewrite Hf).
  pose proof (StaffShiftBase_entered _ _ _ _ _ _ _ _ _ E1 E2 E3) as Hv.
  assert (db_ops.update_staff_shift d shift_id
            [("Staff_ID", VInt new_staff); ("Shift_Start", VDate new_start);
             ("Shift_End", VDate new_end)]
          = (Returned (Some s'), set_StaffShifts (<[i:=s']> (StaffShifts d)) d)) as Hu.
  { unfold db_ops.update_staff_shift. erewrite update_row_found; [done..|].
    unfold s'. by rewrite <- Hpk. }
  assert (db_ops.get_staff_shift (set_StaffShifts (<[i:=s']> (StaffShifts d)) d)
            shift_id = Some s') as Hg'.
  { unfold db_ops.get_staff_shift. simpl. by eapply first_insert_same. }
  unfold main_cli.update_staff_shift.
  repeat progress (cli_eval; rewrite ?Hid, ?Hg, ?or_keep_run, ?Hsid; cbn;
                   rewrite ?Hv, ?Hu, ?Hg').
  rewrite <- app_assoc. unfold shown. simpl. by rewrite Hpk, Hsid.
Qed.

Lemma DoctorBase_entered name phone speciality email doc :
  let name' := if decide (name = "") then Doctor.Doc_Name doc else name in
  let phone' := if decide (phone = "") then Doctor.Phone_Num doc else Some phone in
  let speciality' := if decide (speciality = "") then Doctor.Speciality doc
                     else speciality in
  let email' := if decide (email = "") then Doctor.Email doc else email in
  is_email email' = true →
  schemas.DoctorBase
    [("Doc_Name", if decide (name = "") then VStr (Doctor.Doc_Name doc) else VStr name);
     ("Speciality", if decide (speciality = "") then VStr (Doctor.Speciality doc)
                    else VStr speciality);
     ("Phone_Num", if decide (phone = "") then of_opt_str (Doctor.Phone_Num doc)
                   else VStr phone);
     ("Email", if decide (email = "") then VStr (Doctor.Email doc) else VStr email)]
  = Returned [("Doc_Name", VStr name'); ("Speciality", VStr speciality');
              ("Phone_Num", of_opt_str phone'); ("Email", VStr (normalized email'))].
Proof.
  intros name' phone' speciality' email' Hmail. subst name' phone' speciality' email'.
  unfold schemas.DoctorBase, schemas.BaseModel, schemas.validate_field.
  simpl. repeat case_decide; simpl; rewrite ?Hmail; simpl;
    destruct (Doctor.Phone_Num doc); simpl; done.
Qed.

Lemma update_doctor_run id_line name phone speciality email key rest out d doctor_id i doc :
  let name' := if decide (name = "") then Doctor.Doc_Name doc else name in
  let phone' := if decide (phone = "") then Doctor.Phone_Num doc else Some phone in
  let speciality' := if decide (speciality = "") then Doctor.Speciality doc
                     else speciality in
  let email' := if decide (email = "") then Doctor.Email doc else email in
  let doc' := Doctor.mk doctor_id name' speciality' phone' (normalized email') in
  int_of_text id_line = Some doctor_id →
  list_find (λ x, Doctor.Doc_ID x = doctor_id) (Doctors d) = Some (i, doc) →
  is_email email' = true →
  main_cli.update_doctor
    (World (id_line :: name :: phone :: speciality :: email :: key :: rest) out d)
  = (Returned (),
     World rest (out ++ [shown Doctor.as_dict doc; shown Doctor.as_dict doc'])
           (set_Doctors (<[i:=doc']> (Doctors d)) d)).
Proof.
  intros name' phone' speciality' email' doc' Hid Hf Hmail.
  assert (Doctor.Doc_ID doc = doctor_id) as Hpk
    by by apply list_find_Some in Hf as (_ & ? & _).
  assert (db_ops.get_doctor d doctor_id = Some doc) as Hg
    by (unfold db_ops.get_doctor, db_ops.first; by rewrite Hf).
  pose proof (DoctorBase_entered name phone speciality email doc Hmail) as Hv.
  assert (db_ops.update_doctor d doctor_id
            [("Doc_Name", VStr name'); ("Speciality", VStr speciality');
             ("Phone_Num", of_opt_str phone'); ("Email", VStr (normalized email'))]
          = (Returned (Some doc'), set_Doctors (<[i:=doc']> (Doctors d)) d)) as Hu.
  { unfold db_ops.update_doctor. erewrite update_row_found; [done..|].
    unfold doc'. rewrite <- Hpk. unfold db_ops.setattrs, Doctor.setattr. simpl.
    by destruct phone'. }
  subst name' phone' speciality' email'.
  unfold main_cli.update_doctor.
  repeat progress (cli_eval; rewrite ?Hid, ?Hg, ?or_keep_run; cbn;
                   rewrite ?Hv, ?Hu).
  rewrite <- app_assoc. unfold shown. simpl. by rewrite Hpk.
Qed.

End updates.



(** A doctor's phone number is typed, the other prompts are left blank. *)
Example update_doctor_phone_only :
  let r := main_cli.update_doctor (H:=decimal)
             (World ["2"; ""; "555-0100"; ""; ""; ""] [] hospital_example) in
  r.1 = Returned ()
  ∧ db_ops.get_doctor (db r.2) 2%Z
    = Some (models.Doctor.mk 2 "Bob" "Neurology" (Some "555-0100") "bob@example.org").
Proof. vm_compute. done. Qed.

(** ** Notifications *)

Section notifications.
Import models.

(** Claim C8.  Marking an existing notification as read returns it with
    Status ["Read"] and Read_At the current time, and stores it so; marking
    it a second time returns it again, Status still ["Read"], with Read_At
    overwritten by the time of the second call. *)
Theorem mark_read_twice (d : database) (id : Z) (n : Notification.row)
    (now1 now2 : datetime) :
  db_ops.first (λ x, Notification.Notification_ID x = id) (Notifications d) = Some n →
  let read_at t := Notification.mk id (Notification.Recipient_Type n)
                     (Notification.Recipient_ID n) (Notification.Message n) "Read"
                     (Notification.Created_At n) (Some t) in
  let r1 := db_ops.mark_notification_as_read d id now1 in
  let r2 := db_ops.mark_notification_as_read r1.2 id now2 in
  r1.1 = Some (read_at now1)
  ∧ db_ops.first (λ x, Notification.Notification_ID x = id) (Notifications r1.2)
    = Some (read_at now1)
  ∧ r2.1 = Some (read_at now2)
  ∧ db_ops.first (λ x, Notification.Notification_ID x = id) (Notifications r2.2)
    = Some (read_at now2).
Proof.
  intros [i Hf]%first_found read_at r1 r2.
  assert (Notification.Notification_ID n = id) as Hid
    by by apply list_find_Some in Hf as (_ & ? & _).
  assert (r1 = (Some (read_at now1),
                set_Notifications (<[i:=read_at now1]> (Notifications d)) d)) as Hr1.
  { unfold r1, db_ops.mark_notification_as_read. rewrite Hf. unfold read_at.
    by rewrite Hid. }
  assert (list_find (λ x, Notification.Notification_ID x = id) (Notifications r1.2)
          = Some (i, read_at now1)) as Hf1.
  { rewrite Hr1. simpl. by eapply list_find_insert_same. }
  assert (r2 = (Some (read_at now2),
                set_Notifications (<[i:=read_at now2]> (Notifications r1.2)) r1.2))
    as Hr2.
  { unfold r2, db_ops.mark_notification_as_read. by rewrite Hf1. }
  split_and!.
  - by rewrite Hr1.
  - unfold db_ops.first. by rewrite Hf1.
  - by rewrite Hr2.
  - rewrite Hr2. simpl. by eapply first_insert_same.
Qed.
End notifications.

Lemma mark_read_twice_witness :
  let unread := models.Notification.mk 1 "Patient" 7 "Your results are ready"
                  "Unread" 5%Z None in
  let read_at t := models.Notification.mk 1 "Patient" 7 "Your results are ready"
                     "Read" 5%Z (Some t) in
  let r1 := db_ops.mark_notification_as_read inbox_example 1%Z 10%Z in
  let r2 := db_ops.mark_notification_as_read r1.2 1%Z 20%Z in
  r1.1 = Some (read_at 10%Z)
  ∧ db_ops.first (λ x, models.Notification.Notification_ID x = 1%Z) (Notifications r1.2)
    = Some (read_at 10%Z)
  ∧ r2.1 = Some (read_at 20%Z)
  ∧ db_ops.first (λ x, models.Notification.Notification_ID x = 1%Z) (Notifications r2.2)
    = Some (read_at 20%Z).
Proof.
  intros unread read_at.
  apply (mark_read_twice inbox_example 1%Z unread 10%Z 20%Z). reflexivity.
Defined.

(** The scenario of the spec: a notification is created for patient 5, then
    marked read at time 10 and again at time 20. *)
Example create_then_mark_read_twice :
  let created := db_ops.create_notification hospital_example
                   [("Recipient_Type", VStr "Patient"); ("Recipient_ID", VInt 5);
                    ("Message", VStr "msg")] 1%Z in
  let r1 := db_ops.mark_notification_as_read created.2 1%Z 10%Z in
  let r2 := db_ops.mark_notification_as_read r1.2 1%Z 20%Z in
  created.1 = Returned (models.Notification.mk 1 "Patient" 5 "msg" "Unread" 1%Z None)
  ∧ r1.1 = Some (models.Notification.mk 1 "Patient" 5 "msg" "Read" 1%Z (Some 10%Z))
  ∧ r2.1 = Some (models.Notification.mk 1 "Patient" 5 "msg" "Read" 1%Z (Some 20%Z)).
Proof. vm_compute. done. Qed.

(** ** The console update of a patient *)

Arguments db_ops.get_patient : simpl never.
Arguments db_ops.get_staff_member : simpl never.
Arguments db_ops.update_staff : simpl never.
Arguments schemas.PatientBase : simpl never.

Section patient_update.
Context `{Coercions}.
Import models.

Lemma hoare_with_key {A} (I : database → Prop) (key : value)
    (f : Z → database → outcome (option A) * database) :
  (∀ z d, I d → I (f z d).2) →
  hoare I (main_cli.with_key key f) (λ _, True).
Proof.
  intros Hf. unfold main_cli.with_key.
  destruct key as [|z|s|t]; try destruct (int_of_text s);
    first [ by apply hoare_ret | apply hoare_raise | idtac ].
  all: apply hoare_store; intros d Hd; split; [by apply Hf|done].
Qed.

Lemma update_staff_Patients d staff_id payload :
  Patients (db_ops.update_staff d staff_id payload).2 = Patients d.
Proof.
  unfold db_ops.update_staff. by destruct (db_ops.update_row _ _ _ _).
Qed.

Lemma update_patient_hoare (rows : list Patient.row) :
  hoare (λ d, Patients d = rows) main_cli.update_patient (λ _, True).
Proof.
  unfold main_cli.update_patient.
  eapply hoare_bind; [apply hoare_input_int|]. intros patient_id _.
  eapply hoare_bind; [apply hoare_query|]. intros patient _.
  eapply hoare_bind; [apply hoare_print_table|]. intros _ _.
  do 6 (eapply hoare_bind; [apply hoare_input|]; intros ? _;
        eapply hoare_bind; [apply hoare_or_keep, hoare_attr|]; intros ? _).
  eapply hoare_bind; [apply hoare_of_outcome|]. intros payload _.
  eapply hoare_bind.
  { apply hoare_with_key. intros z d <-. apply update_staff_Patients. }
  intros db_staff _. apply hoare_print_table.
Qed.

(** What the schema makes of the answers to the six prompts. *)
Lemma PatientBase_entered name record phone email doc staff p email' doc' k :
  let name' := if decide (name = "") then Patient.Patient_Name p else name in
  let record' := if decide (record = "") then Patient.Patient_Records p else record in
  let phone' := if decide (phone = "") then Patient.Phone_Num p else Some phone in
  entered email (Patient.Email p) Some = Some email' → is_email email' = true →
  entered doc (Patient.Doc_ID p) (λ t, Some <$> int_of_text t) = Some doc' →
  entered staff (Patient.Staff_ID p) (λ t, Some <$> int_of_text t) = Some (Some k) →
  schemas.PatientBase
    [("Patient_Name", if decide (name = "") then VStr (Patient.Patient_Name p)
                      else VStr name);
     ("Patient_Records", if decide (record = "") then VStr (Patient.Patient_Records p)
                         else VStr record);
     ("Phone_Num", if decide (phone = "") then of_opt_str (Patient.Phone_Num p)
                   else VStr phone);
     ("Email", if decide (email = "") then VStr (Patient.Email p) else VStr email);
     ("Doc_ID", if decide (doc = "") then of_opt_int (Patient.Doc_ID p) else VStr doc);
     ("Staff_ID", if decide (staff = "") then of_opt_int (Patient.Staff_ID p)
                  else VStr staff)]
  = Returned [("Patient_Name", VStr name'); ("Patient_Records", VStr record');
              ("Phone_Num", of_opt_str phone'); ("Email", VStr (normalized email'));
              ("Doc_ID", of_opt_int doc'); ("Staff_ID", VInt k)].
Proof.
  intros name' record' phone' E1 Hmail E2 E3. subst name' record' phone'.
  unfold entered in *.
  unfold schemas.PatientBase, schemas.BaseModel, schemas.validate_field. simpl.
  repeat case_decide; simplify_eq; simpl;
    repeat match goal with
    | |- context [Patient.Phone_Num p] => destruct (Patient.Phone_Num p); simpl
    | |- context [Patient.Doc_ID p] => destruct (Patient.Doc_ID p); simpl
    | Hs : Patient.Staff_ID p = _ |- _ => rewrite Hs; simpl
    | Hi : fmap _ (int_of_text ?t) = Some _ |- _ =>
        destruct (int_of_text t) eqn:?; simplify_eq/=
    end;
    rewrite ?Hmail; simpl; done.
Qed.

(** The staff row after the patient's answers have been assigned to it:
    of the six names only [Email] and [Staff_ID] are columns of the staff
    table. *)
Lemma update_staff_patient_payload d k name' record' phone' email' doc' :
  db_ops.update_staff d k
    [("Patient_Name", VStr name'); ("Patient_Records", VStr record');
     ("Phone_Num", of_opt_str phone'); ("Email", VStr email');
     ("Doc_ID", of_opt_int doc'); ("Staff_ID", VInt k)]
  = match list_find (λ s, Staff.Staff_ID s = k) (Staff d) with
    | Some (i, st) =>
        let st' := Staff.mk k (Staff.Name st) (Staff.Department st) email'
                     (Staff.Hire_Date st) in
        (Returned (Some st'), set_Staff (<[i:=st']> (Staff d)) d)
    | None => (Returned None, d)
    end.
Proof.
  unfold db_ops.update_staff, db_ops.update_row.
  destruct (list_find _ (Staff d)) as [[i st]|]; [|by destruct d].
  by destruct phone', doc'.
Qed.

Lemma with_key_entered {A} staff prior k
    (f : Z → database → outcome (option A) * database) w :
  entered staff prior (λ t, Some <$> int_of_text t) = Some (Some k) →
  main_cli.with_key (if decide (staff = "") then of_opt_int prior else VStr staff) f w
  = store (f k) w.
Proof.
  unfold entered, main_cli.with_key. case_decide.
  - by intros [= ->].
  - destruct (int_of_text staff); simpl; [|done]. by intros [= ->].
Qed.

End patient_update.


(** ** Prescriptions *)

Section prescriptions.
Context `{Coercions}.
Import models.

Lemma get_prescriptions_by_doctor (d : database) (value : Z) :
  ∃ found,
    db_ops.get_prescriptions_by d "Prescription.Doctor_ID == value" value
      = Returned found
    ∧ ∀ line, line ∈ found ↔
        ∃ p, p ∈ Prescriptions d ∧ Prescription.Doctor_ID p = value ∧ line_of d p line.
Proof.
  eexists. split; [reflexivity|]. intros line. unfold line_of.
  rewrite list_elem_of_bind. split.
  - intros (p & Hline & Hp). exists p.
    apply list_elem_of_bind in Hline as (doc & Hline & [Hdoc ?]%list_elem_of_filter).
    apply list_elem_of_bind in Hline as (pt & Hline & [Hpt ?]%list_elem_of_filter).
    apply list_elem_of_bind in Hline as (det & Hline & [Hdet ?]%list_elem_of_filter).
    case_bool_decide as Hv; [|by apply elem_of_nil in Hline].
    apply list_elem_of_singleton in Hline.
    split; [done|]. split; [done|]. by exists doc, pt, det.
  - intros (p & Hp & Hv & doc & pt & det & ? & ? & ? & ? & ? & ? & ->).
    exists p. split; [|done].
    apply list_elem_of_bind. exists doc. split; [|by apply list_elem_of_filter].
    apply list_elem_of_bind. exists pt. split; [|by apply list_elem_of_filter].
    apply list_elem_of_bind. exists det. split; [|by apply list_elem_of_filter].
    rewrite bool_decide_eq_true_2 by done. by apply list_elem_of_singleton.
Qed.

Lemma bind_to_nil {A B} (l : list A) : l ≫= (λ _, @nil B) = [].
Proof. induction l as [|x l IH]; [done|]. by rewrite bind_cons, IH. Qed.

Lemma get_prescriptions_by_doctor_filter (d : database) (value : Z) :
  db_ops.get_prescriptions_by d "Prescription.Doctor_ID == value" value
  = Returned (filter (λ p, Prescription.Doctor_ID p = value) (Prescriptions d)
                ≫= joined_lines d).
Proof.
  unfold db_ops.get_prescriptions_by, db_ops.eval. simpl. f_equal.
  induction (Prescriptions d) as [|p ps IH]; [done|].
  rewrite bind_cons, IH, filter_cons. clear IH.
  case_decide as Hp.
  - rewrite bind_cons. f_equal. unfold joined_lines.
    by rewrite bool_decide_eq_true_2.
  - rewrite bool_decide_eq_false_2 by done.
    replace (filter _ (Doctors d) ≫= _) with (@nil dict); [done|].
    symmetry. erewrite list_bind_ext; [apply bind_to_nil| |done].
    intros doc. erewrite list_bind_ext; [apply bind_to_nil| |done].
    intros pt. apply bind_to_nil.
Qed.

(** Claim C10.  The console listing of prescriptions by patient shows the
    result of the store's search with the filter
    [Prescription.Doctor_ID == value] at the entered number: the joined
    lines of exactly the prescriptions whose Doctor_ID is that number (it
    is the very action that lists by doctor), so a prescription of the
    patient contributes lines only if its Doctor_ID equals the number too. *)
Theorem list_prescription_by_patient_id_filters_doctor
    id_line key rest out d patient_id :
  int_of_text id_line = Some patient_id →
  let found := filter (λ p, Prescription.Doctor_ID p = patient_id) (Prescriptions d)
                 ≫= joined_lines d in
  main_cli.list_prescription_by_patient_id (World (id_line :: key :: rest) out d)
    = (Returned (), World rest (out ++ displayed found) d)
  ∧ db_ops.get_prescriptions_by d "Prescription.Doctor_ID == value" patient_id
    = Returned found
  ∧ (∀ line, line ∈ found ↔
       ∃ p, p ∈ Prescriptions d ∧ Prescription.Doctor_ID p = patient_id
            ∧ line_of d p line)
  ∧ main_cli.list_prescription_by_patient_id = main_cli.list_prescription_by_doc_id.
Proof.
  intros Hid found.
  pose proof (get_prescriptions_by_doctor_filter d patient_id) as Hf.
  fold found in Hf. split_and!; try done.
  - unfold main_cli.list_prescription_by_patient_id.
    repeat progress (cli_eval; rewrite ?Hid, ?Hf).
    destruct found as [|r0 found']; cli_eval; [by rewrite app_nil_r|done].
  - destruct (get_prescriptions_by_doctor d patient_id) as (found' & Hf' & Hin).
    rewrite Hf in Hf'. by injection Hf' as <-.
Qed.
End prescriptions.

(** Listing for patient 7 shows Ben's prescription, written by doctor 7,
    and not Ada's own. *)
Example list_prescription_by_patient_7 :
  (main_cli.list_prescription_by_patient_id (H:=decimal)
     (World ["7"; ""] [] pharmacy_example)).2.(stdout)
  = [Table ["Prescription_ID"; "Doc_Name"; "Patient_Name"; "Date_Issued"; "Notes";
            "Medication_Name"; "Dosage"; "Frequency"; "Duration"]
       [[VInt 2; VStr "Gus"; VStr "Ben"; VDate 60%Z; VNone; VStr "ibuprofen";
         VStr "200mg"; VStr "daily"; VStr "3 days"]]].
Proof. vm_compute. done. Qed.

Lemma list_prescription_by_patient_id_filters_doctor_witness :
  let found := filter (λ p, models.Prescription.Doctor_ID p = 7%Z)
                 (Prescriptions pharmacy_example) ≫= joined_lines pharmacy_example in
  main_cli.list_prescription_by_patient_id (H:=decimal)
    (World ["7"; ""] [] pharmacy_example)
  = (Returned (), World [] ([] ++ displayed found) pharmacy_example).
Proof.
  intros found.
  apply (list_prescription_by_patient_id_filters_doctor (H:=decimal)
           "7" "" [] [] pharmacy_example 7%Z).
  reflexivity.
Defined.

(** * Further properties

    The rest of [db_operator.py] and of the console actions, and
    [login/loginclass.py]. *)

Import models.

Arguments orm.Doctor_new : simpl never.
Arguments store.create_doctor : simpl never.
Arguments store.update_patient : simpl never.
Arguments store.delete_appointment : simpl never.
Arguments store.create_staff : simpl never.
Arguments store.create_staff_shift : simpl never.
Arguments schemas.StaffBase : simpl never.
Arguments store.create_patient : simpl never.
Arguments store.create_prescription : simpl never.
Arguments store.create_prescription_detail : simpl never.
Arguments db_ops.get_prescriptions_by : simpl never.
Arguments schemas_more.PrescriptionBase : simpl never.
Arguments schemas_more.PrescriptionDetailBase : simpl never.
Arguments db_ops.create_notification : simpl never.
Arguments db_ops.mark_notification_as_read : simpl never.
Arguments schemas.NotificationCreate : simpl never.
Arguments store.update_prescription_detail : simpl never.
Arguments store.get_prescriptions_detail_id : simpl never.
Arguments main_cli.ask_status : simpl never.
Arguments main_cli.ask_typeof : simpl never.

(** ** Runs of a console action from a given store *)

Section runs.
Context (Φ : string → Prop).
Implicit Types (d : database) (E : database → Prop).

Lemma runs_conseq {A} d (m : cli A) (Q Q' : A → database → Prop) E E' :
  runs Φ d m Q E → (∀ a d', Q a d' → Q' a d') → (∀ d', E d' → E' d') →
  runs Φ d m Q' E'.
Proof.
  intros Hm HQ HE w Hw Hd. destruct (Hm w Hw Hd) as [? Hr]. split; [done|].
  destruct ((m w).1); auto.
Qed.

Lemma runs_ret {A} d (a : A) E : runs Φ d (mret a) (λ a' d', a' = a ∧ d' = d) E.
Proof. intros w Hw Hd. by split. Qed.

Lemma runs_raise {A} d (e : exn) (Q : A → database → Prop) E :
  E d → runs Φ d (raise e) Q E.
Proof. intros HE w Hw <-. by split. Qed.

Lemma runs_bind {A B} d (m : cli A) (f : A → cli B) Q R E :
  runs Φ d m Q E → (∀ a d', Q a d' → runs Φ d' (f a) R E) → runs Φ d (m ≫= f) R E.
Proof.
  intros Hm Hf w Hw Hd. destruct (Hm w Hw Hd) as [Hw' Hr].
  unfold mbind, cli_bind. destruct (m w) as [[e|a] w']; simpl in *; [done|].
  by apply (Hf a (db w')).
Qed.

Lemma runs_input d E :
  E d → runs Φ d input (λ line d', Φ line ∧ d' = d) E.
Proof.
  intros HE [[|line rest] out d0] Hw Hd; simpl in *; subst.
  - done.
  - by inversion_clear Hw.
Qed.

Lemma runs_int `{Coercions} d (text : string) E :
  E d → runs Φ d (int text) (λ z d', int_of_text text = Some z ∧ d' = d) E.
Proof.
  intros HE. unfold int. destruct (int_of_text text).
  - eapply runs_conseq; [apply runs_ret| |done]. by intros ?? [-> ->].
  - by apply runs_raise.
Qed.

Lemma runs_input_int `{Coercions} d E :
  E d →
  runs Φ d (input ≫= int)
    (λ z d', (∃ line, Φ line ∧ int_of_text line = Some z) ∧ d' = d) E.
Proof.
  intros HE. eapply runs_bind; [by apply runs_input|].
  intros line ? [Hl ->].
  eapply runs_conseq; [by apply runs_int| |done].
  intros z ? [? ->]. split; [|done]. by exists line.
Qed.

Lemma runs_attr {A B} d (obj : option A) (attribute : A → B) E :
  E d →
  runs Φ d (attr obj attribute)
    (λ b d', (∃ o, obj = Some o ∧ b = attribute o) ∧ d' = d) E.
Proof.
  intros HE. destruct obj as [o|]; simpl.
  - eapply runs_conseq; [apply runs_ret| |done]. intros ?? [-> ->]. eauto.
  - by apply runs_raise.
Qed.

Lemma runs_echo d (t : table) E : runs Φ d (echo t) (λ _ d', d' = d) E.
Proof. intros w Hw Hd. by split. Qed.

Lemma runs_query {A} d (f : database → A) E :
  runs Φ d (query f) (λ a d', a = f d ∧ d' = d) E.
Proof. intros w Hw <-. by split. Qed.

Lemma runs_of_outcome {A} d (o : outcome A) E :
  E d → runs Φ d (of_outcome o) (λ a d', o = Returned a ∧ d' = d) E.
Proof. intros HE w Hw <-. split; [done|]. by destruct o. Qed.

Lemma runs_store {A} d (f : database → outcome A * database) E :
  (∀ e, (f d).1 = Raised e → E (f d).2) →
  runs Φ d (store f) (λ a d', f d = (Returned a, d')) E.
Proof.
  intros HE w Hw <-. unfold store. destruct (f (db w)) as [[e|a] d'] eqn:Ef; simpl.
  - split; [done|]. by apply (HE e).
  - done.
Qed.

Lemma prompt_loop_runs {A} (body : string → database → outcome (option A)) d lines :
  Forall Φ lines →
  Forall Φ (prompt_loop body d lines).2
  ∧ ∀ a, (prompt_loop body d lines).1 = Returned a →
      ∃ line, Φ line ∧ body line d = Returned (Some a).
Proof.
  induction lines as [|line rest IH]; simpl; [done|].
  intros Hall. inversion_clear Hall as [|?? Hl Hrest].
  destruct (body line d) as [e|[a'|]] eqn:Eb; simpl.
  - done.
  - split; [done|]. intros a [= ->]. by exists line.
  - by apply IH.
Qed.

Lemma runs_while_true {A} d (body : string → database → outcome (option A)) E :
  E d →
  runs Φ d (while_true body)
    (λ a d', (∃ line, Φ line ∧ body line d = Returned (Some a)) ∧ d' = d) E.
Proof.
  intros HE w Hw <-. unfold while_true.
  destruct (prompt_loop_runs body (db w) (stdin w) Hw) as [Hrest Hret].
  destruct (prompt_loop body (db w) (stdin w)) as [[e|a] rest]; simpl in *.
  - done.
  - split; [done|]. split; [|done]. by apply Hret.
Qed.

Lemma runs_print_table d (res : main_cli.results) (stop : bool) E :
  E d → runs Φ d (main_cli.print_table res stop) (λ _ d', d' = d) E.
Proof.
  intros HE. unfold main_cli.print_table.
  eapply runs_bind with (Q := λ _ d', d' = d).
  - destruct res as [|r|[|r0 rs]];
      first [ eapply runs_conseq; [apply runs_ret| |done]; by intros ?? [_ ->]
            | apply runs_echo ].
  - intros _ ? ->. destruct stop.
    + eapply runs_bind; [by apply runs_input|]. intros _ ? [_ ->].
      eapply runs_conseq; [apply runs_ret| |done]. by intros ?? [_ ->].
    + eapply runs_conseq; [apply runs_ret| |done]. by intros ?? [_ ->].
Qed.

Lemma runs_or_keep d (text : string) (prior : cli value) Q E :
  runs Φ d prior Q E →
  runs Φ d (main_cli.or_keep text prior)
    (λ v d', (text ≠ "" ∧ v = VStr text ∧ d' = d) ∨ (text = "" ∧ Q v d')) E.
Proof.
  intros Hp. unfold main_cli.or_keep. case_decide.
  - eapply runs_conseq; [done| |done]. intros; by right.
  - eapply runs_conseq; [apply runs_ret| |done]. intros ?? [-> ->]. by left.
Qed.
End runs.

(** ** Tables: deleting, appending, the first match *)

Section tables_more.
Context {A : Type}.
Implicit Types (l : list A) (x y : A).

Lemma first_delete_same (pk : A → Z) k l i x :
  list_find (λ x, pk x = k) l = Some (i, x) → NoDup (pk <$> l) →
  db_ops.first (λ x, pk x = k) (delete i l) = None.
Proof.
  intros Hf Hnd. apply first_None, list_find_None, list.Forall_forall.
  intros y Hy Hk.
  apply list_find_Some in Hf as (Hi & Hx & _).
  apply list_elem_of_lookup in Hy as [j Hj].
  assert (l !! (if decide (j < i) then j else S j) = Some y) as Hl.
  { by rewrite list_lookup_delete in Hj. }
  assert ((if decide (j < i) then j else S j) = i) as Heq.
  { eapply (NoDup_lookup (pk <$> l)); [done| |].
    - rewrite list_lookup_fmap, Hl. simpl. by rewrite Hk.
    - rewrite list_lookup_fmap, Hi. simpl. by rewrite Hx. }
  case_decide; lia.
Qed.

Lemma list_find_delete_other (Q : A → Prop) `{∀ x, Decision (Q x)} l i x :
  l !! i = Some x → ¬ Q x →
  snd <$> list_find Q (delete i l) = snd <$> list_find Q l.
Proof.
  revert i. induction l as [|a l IH]; intros [|i]; simpl; try done.
  - intros [= ->] Hx. rewrite decide_False by done.
    by destruct (list_find Q l) as [[??]|].
  - intros Hl Hx. case_decide; [done|].
    specialize (IH i Hl Hx).
    destruct (list_find Q (delete i l)) as [[??]|], (list_find Q l) as [[??]|];
      simpl in *; congruence.
Qed.

Lemma first_delete_other (Q : A → Prop) `{∀ x, Decision (Q x)} l i x :
  l !! i = Some x → ¬ Q x → db_ops.first Q (delete i l) = db_ops.first Q l.
Proof. apply list_find_delete_other. Qed.

Lemma create_row_cases (new : Z → dict → option A) (pk : A → Z) payload l :
  (∀ id obj, new id payload = Some obj → pk obj = id) →
  (store.create_row new pk payload l = (Raised DBAPIError, l)
   ∧ new (db_ops.next_id (pk <$> l)) payload = None)
  ∨ ∃ obj, store.create_row new pk payload l = (Returned obj, l ++ [obj])
           ∧ new (pk obj) payload = Some obj
           ∧ Forall (λ x, pk x ≠ pk obj) l.
Proof.
  intros Hpk. unfold store.create_row.
  destruct (new _ payload) as [obj|] eqn:E; [right|by left].
  exists obj. split; [done|]. rewrite (Hpk _ _ E). split; [done|].
  apply list.Forall_forall. intros x Hx Heq.
  apply (next_id_fresh (pk <$> l)). rewrite <- Heq.
  by apply list_elem_of_fmap_2.
Qed.
End tables_more.

Lemma list_find_middle {A} (P : A → Prop) `{∀ x, Decision (P x)}
    (before after : list A) (x : A) :
  Forall (λ y, ¬ P y) before → P x →
  list_find P (before ++ x :: after) = Some (length before, x).
Proof.
  intros Hb Hx. rewrite list_find_app_r by by apply list_find_None.
  simpl. by rewrite decide_True.
Qed.

Lemma elem_of_insert_keyed {A} (pk : A → Z) (l : list A) i x y :
  l !! i = Some x → NoDup (pk <$> l) →
  ∀ z, z ∈ <[i:=y]> l ↔ z = y ∨ (z ∈ l ∧ pk z ≠ pk x).
Proof.
  intros Hi Hnd z. rewrite list_elem_of_lookup. split.
  - intros [j Hj]. apply list_lookup_insert_Some in Hj as [(-> & -> & _)|[Hne Hj]].
    + by left.
    + right. split; [by eapply list_elem_of_lookup_2|]. intros Heq. apply Hne.
      eapply (NoDup_lookup (pk <$> l)); [done| |].
      * rewrite list_lookup_fmap, Hi. done.
      * rewrite list_lookup_fmap, Hj. simpl. by rewrite Heq.
  - intros [->|[[j Hj]%list_elem_of_lookup Hne]].
    + exists i. apply list_lookup_insert_Some. left.
      split; [done|]. split; [done|]. by eapply lookup_lt_Some.
    + exists j. apply list_lookup_insert_Some. right. split; [|done].
      intros <-. congruence.
Qed.

Lemma fmap_filter_insert {A B} (P : A → Prop) `{∀ x, Decision (P x)} (f : A → B)
    (l : list A) i x y :
  l !! i = Some x → (P x ↔ P y) → f x = f y →
  f <$> filter P (<[i:=y]> l) = f <$> filter P l.
Proof.
  revert i. induction l as [|a l IH]; intros [|i]; simpl; try done.
  - intros [= ->] HP Hf. rewrite !filter_cons.
    destruct (decide (P x)), (decide (P y)); try tauto; rewrite ?fmap_cons, ?Hf; done.
  - intros Hl HP Hf. rewrite !filter_cons.
    destruct (decide (P a)); rewrite ?fmap_cons, (IH i Hl HP Hf); done.
Qed.

(** ** Schemas: the kind of a validated value *)

Section schema_shapes.
Context `{Coercions}.

Lemma validate_field_shape kw f kv :
  schemas.validate_field kw f = Some kv →
  kv.1 = schemas.f_name f
  ∧ ((schemas.f_optional f = true ∧ kv.2 = VNone)
     ∨ match schemas.f_kind f with
       | schemas.KInt => ∃ z, kv.2 = VInt z
       | schemas.KStr | schemas.KEmail => ∃ s, kv.2 = VStr s
       | schemas.KDatetime => ∃ t, kv.2 = VDate t
       end).
Proof.
  unfold schemas.validate_field, schemas.coerce. intros Hv.
  destruct f as [name k opt]; simpl in *.
  repeat case_match; simplify_option_eq; split; eauto.
Qed.

Lemma validate_field_omitted kw f kv :
  schemas.validate_field kw f = Some kv → dict_get (schemas.f_name f) kw = None →
  kv = (schemas.f_name f, VNone).
Proof.
  unfold schemas.validate_field. intros Hv Hk. rewrite Hk in Hv.
  by destruct (schemas.f_optional f); simplify_eq.
Qed.
End schema_shapes.

(** ** The store: doctors and patients *)

Section doctors.
Context `{Coercions}.

Lemma Doctor_new_of_payload kw payload id :
  schemas.DoctorBase kw = Returned payload →
  ∃ doc, orm.Doctor_new id payload = Some doc
         ∧ Doctor.Doc_ID doc = id
         ∧ Doctor.as_dict doc = ("Doc_ID", VInt id) :: payload.
Proof.
  intros Hp%BaseModel_returned. invert_Forall2.
  repeat match goal with
  | Hv : schemas.validate_field _ _ = Some ?kv |- _ =>
      apply validate_field_shape in Hv as [? [[? ?]|[? ?]]];
      destruct kv; simpl in *; simplify_eq
  end; eexists; (split; [reflexivity|done]).
Qed.

(** Extra X1.  Creating a doctor and looking the doctor up.  For every
    payload that the schema accepts, [create_doctor] returns and adds one
    row; the row has a number that no stored doctor has and its other
    columns are the payload; [get_doctor] on that number returns the row,
    and every doctor found before is still found. *)
Theorem create_doctor_then_get d kw payload :
  schemas.DoctorBase kw = Returned payload →
  ∃ doc,
    let d' := set_Doctors (Doctors d ++ [doc]) d in
    store.create_doctor d payload = (Returned doc, d')
    ∧ Doctor.as_dict doc = ("Doc_ID", VInt (Doctor.Doc_ID doc)) :: payload
    ∧ db_ops.get_doctor d (Doctor.Doc_ID doc) = None
    ∧ db_ops.get_doctor d' (Doctor.Doc_ID doc) = Some doc
    ∧ ∀ k old, db_ops.get_doctor d k = Some old → db_ops.get_doctor d' k = Some old.
Proof.
  intros Hp.
  destruct (create_row_cases orm.Doctor_new Doctor.Doc_ID payload (Doctors d))
    as [[_ Hn]|(doc & Hc & Hn & Hfresh)].
  { intros id obj Hn.
    destruct (Doctor_new_of_payload kw payload id Hp) as (doc & Hd & ? & _).
    congruence. }
  { by destruct (Doctor_new_of_payload kw payload
                   (db_ops.next_id (Doctor.Doc_ID <$> Doctors d)) Hp)
      as (doc & Hd & _); congruence. }
  exists doc. cbv zeta. split; [unfold store.create_doctor; by rewrite Hc|].
  destruct (Doctor_new_of_payload kw payload (Doctor.Doc_ID doc) Hp)
    as (doc' & Hd & _ & Has).
  assert (doc' = doc) as -> by congruence.
  split; [done|]. unfold db_ops.get_doctor. simpl. split; [|split].
  - by apply first_None, list_find_None.
  - by apply first_app_new.
  - intros k old Hk. by apply first_app_old.
Qed.
End doctors.

Lemma create_doctor_then_get_witness :
  ∃ doc,
    store.create_doctor hospital_example
      [("Doc_Name", VStr "Cy"); ("Speciality", VStr "Urology"); ("Phone_Num", VNone);
       ("Email", VStr "cy@example.org")]
    = (Returned doc, set_Doctors (Doctors hospital_example ++ [doc]) hospital_example)
    ∧ Doctor.Phone_Num doc = None.
Proof.
  destruct (create_doctor_then_get (H:=decimal) hospital_example
              [("Doc_Name", VStr "Cy"); ("Speciality", VStr "Urology");
               ("Email", VStr "cy@example.org")]
              [("Doc_Name", VStr "Cy"); ("Speciality", VStr "Urology");
               ("Phone_Num", VNone); ("Email", VStr "cy@example.org")]
              eq_refl) as (doc & Hc & Has & _).
  exists doc. split; [exact Hc|].
  destruct doc as [? ? ? [?|] ?]; simpl in Has; [discriminate|reflexivity].
Defined.

(** The e-mail address typed at the console is stored in normal form. *)
Example create_doctor_normalizes_email :
  let r := console.create_doctor (H:=decimal)
             (World ["Cy"; "Urology"; "555-0199"; "Cy@EXAMPLE.org"; ""] []
                hospital_example) in
  r.1 = Returned ()
  ∧ db_ops.get_doctor (db r.2) 3%Z
    = Some (Doctor.mk 3 "Cy" "Urology" (Some "555-0199") "Cy@example.org").
Proof. vm_compute. done. Qed.

Section patients.
Context `{Coercions}.

Lemma Patient_setattrs_payload kw payload p :
  schemas.PatientBase kw = Returned payload →
  ∃ p', db_ops.setattrs orm.Patient_setattr payload p = Some p'
        ∧ Patient.Patient_ID p' = Patient.Patient_ID p
        ∧ Patient.as_dict p' = ("Patient_ID", VInt (Patient.Patient_ID p)) :: payload.
Proof.
  intros Hp%BaseModel_returned. invert_Forall2.
  repeat match goal with
  | Hv : schemas.validate_field _ _ = Some ?kv |- _ =>
      apply validate_field_shape in Hv as [? [[? ?]|[? ?]]];
      destruct kv; simpl in *; simplify_eq
  end; eexists; (split; [reflexivity|done]).
Qed.

End patients.


(** ** Beds, continued *)

Section beds_more.
Context `{Coercions}.

Lemma update_bed_frame d bed_id payload other :
  other ≠ bed_id →
  (∀ x y, db_ops.setattrs Bed.setattr payload x = Some y → Bed.Bed_ID y ≠ other) →
  db_ops.get_bed (db_ops.update_bed d bed_id payload).2 other = db_ops.get_bed d other
  ∧ ∃ beds, (db_ops.update_bed d bed_id payload).2 = set_Beds beds d.
Proof.
  intros Hne Hpk. unfold db_ops.update_bed.
  destruct (update_row_cases (λ b, Bed.Bed_ID b = bed_id) Bed.setattr payload (Beds d))
    as [[e ->]|[->|(i & x & y & Hf & Hs & ->)]]; simpl.
  - split; [done|]. exists (Beds d). by destruct d.
  - split; [done|]. exists (Beds d). by destruct d.
  - split; [|by eexists]. unfold db_ops.get_bed. simpl.
    apply list_find_Some in Hf as (Hi & Hx & _).
    apply (first_insert_other _ _ i x y); [done|congruence|by eapply Hpk].
Qed.

Lemma bed_frame_refl d other : bed_frame d other d.
Proof. split; [done|]. exists (Beds d). by destruct d. Qed.

Lemma assigne_bed_frame now d other :
  runs (λ line, int_of_text line ≠ Some other) d (main_cli.assigne_bed now)
    (λ _, bed_frame d other) (bed_frame d other).
Proof.
  pose proof (bed_frame_refl d other) as Hd.
  unfold main_cli.assigne_bed.
  eapply runs_bind; [by apply runs_input_int|]. intros bed_id ? [(l & Hl & Hb) ->].
  eapply runs_bind; [apply runs_query|]. intros bed ? [-> ->].
  eapply runs_bind; [by apply runs_print_table|]. intros _ ? ->.
  eapply runs_bind; [by apply runs_input_int|]. intros patient_id ? [_ ->].
  eapply runs_bind; [by apply runs_attr|]. intros the_bed_id ? [(b & Hg & ->) ->].
  eapply runs_bind; [by apply runs_attr|]. intros the_ward_id ? [_ ->].
  eapply runs_bind; [by apply runs_of_outcome|]. intros payload ? [Hp ->].
  rewrite BedBase_assign in Hp. injection Hp as <-.
  assert (other ≠ bed_id) as Hne by congruence.
  assert (Bed.Bed_ID b = bed_id) as Hid by by apply first_holds in Hg.
  match goal with |- context [db_ops.update_bed _ bed_id ?p] => set (payload := p) end.
  assert (bed_frame d other (db_ops.update_bed d bed_id payload).2) as Hu.
  { apply update_bed_frame; [done|]. intros x y [= <-]. simpl. congruence. }
  eapply runs_bind; [apply runs_store; intros; exact Hu|]. intros r d' Hr.
  rewrite Hr in Hu. simpl in Hu.
  eapply runs_bind; [apply runs_query|]. intros shown ? [_ ->].
  eapply runs_conseq with (E := bed_frame d other);
    [by apply runs_print_table| |done]. by intros _ ? ->.
Qed.

Lemma release_bed_frame d other :
  runs (λ line, int_of_text line ≠ Some other) d main_cli.release_bed
    (λ _, bed_frame d other) (bed_frame d other).
Proof.
  pose proof (bed_frame_refl d other) as Hd.
  unfold main_cli.release_bed.
  eapply runs_bind; [by apply runs_input_int|]. intros bed_id ? [(l & Hl & Hb) ->].
  eapply runs_bind; [apply runs_query|]. intros bed ? [-> ->].
  eapply runs_bind; [by apply runs_print_table|]. intros _ ? ->.
  eapply runs_bind; [by apply runs_attr|]. intros the_bed_id ? [(b & Hg & ->) ->].
  eapply runs_bind; [by apply runs_attr|]. intros the_ward_id ? [_ ->].
  eapply runs_bind; [by apply runs_of_outcome|]. intros payload ? [Hp ->].
  rewrite BedBase_release in Hp. injection Hp as <-.
  assert (other ≠ bed_id) as Hne by congruence.
  assert (Bed.Bed_ID b = bed_id) as Hid by by apply first_holds in Hg.
  match goal with |- context [db_ops.update_bed _ bed_id ?p] => set (payload := p) end.
  assert (bed_frame d other (db_ops.update_bed d bed_id payload).2) as Hu.
  { apply update_bed_frame; [done|]. intros x y [= <-]. simpl. congruence. }
  eapply runs_bind; [apply runs_store; intros; exact Hu|]. intros r d' Hr.
  rewrite Hr in Hu. simpl in Hu.
  eapply runs_bind; [apply runs_query|]. intros shown ? [_ ->].
  eapply runs_conseq with (E := bed_frame d other);
    [by apply runs_print_table| |done]. by intros _ ? ->.
Qed.

(** Extra X3.  However an assignment or a release ends, it writes to no
    table but the beds, and leaves as it was every bed whose number none of
    the lines typed spells. *)
Theorem bed_actions_keep_untyped_beds (op : bed_op) (w : world) (other : Z) :
  Forall (λ line, int_of_text line ≠ Some other) (stdin w) →
  let d' := db (bed_action op w).2 in
  db_ops.get_bed d' other = db_ops.get_bed (db w) other
  ∧ ∃ beds, d' = set_Beds beds (db w).
Proof.
  intros Hw d'. subst d'. destruct op as [now|]; simpl.
  - destruct (assigne_bed_frame now (db w) other w Hw eq_refl) as [_ Hr].
    by destruct ((main_cli.assigne_bed now w).1).
  - destruct (release_bed_frame (db w) other w Hw eq_refl) as [_ Hr].
    by destruct ((main_cli.release_bed w).1).
Qed.

(** Extra X4.  On a bed number that is not stored, an assignment raises
    AttributeError once the patient number is read, a release raises it
    once the key is pressed; nothing is shown and nothing is written. *)
Theorem bed_actions_on_absent_bed now l1 l2 rest out d bed_id patient_id :
  int_of_text l1 = Some bed_id → db_ops.get_bed d bed_id = None →
  main_cli.release_bed (World (l1 :: l2 :: rest) out d)
  = (Raised AttributeError, World rest out d)
  ∧ (int_of_text l2 = Some patient_id →
     main_cli.assigne_bed now (World (l1 :: l2 :: rest) out d)
     = (Raised AttributeError, World rest out d)).
Proof.
  intros H1 Hg. split.
  - unfold main_cli.release_bed.
    repeat progress (cli_simpl; rewrite ?H1, ?Hg). done.
  - intros H2. unfold main_cli.assigne_bed.
    repeat progress (cli_simpl; rewrite ?H1, ?H2, ?Hg). done.
Qed.
End beds_more.

Lemma bed_actions_keep_untyped_beds_witness :
  db_ops.get_bed
    (db (bed_action (H:=decimal) (Assign 200%Z) (World ["2"; "8"; ""] [] ward_example)).2)
    1%Z
  = db_ops.get_bed ward_example 1%Z.
Proof.
  refine (proj1 (bed_actions_keep_untyped_beds (H:=decimal) (Assign 200%Z)
                   (World ["2"; "8"; ""] [] ward_example) 1%Z _)).
  by apply (bool_decide_unpack _).
Defined.

Lemma bed_actions_on_absent_bed_witness :
  main_cli.release_bed (H:=decimal) (World ["9"; ""] [] ward_example)
  = (Raised AttributeError, World [] [] ward_example).
Proof.
  exact (proj1 (bed_actions_on_absent_bed (H:=decimal) 200%Z "9" "" [] []
                  ward_example 9%Z 0%Z eq_refl eq_refl)).
Defined.

Section listings.
Context `{Coercions}.

End listings.


(** ** Appointments, continued *)

Section appointments_more.
Context `{Coercions}.

Lemma ask_status_range status line :
  (if main_cli.isdigit line then
     match int_of_text line with
     | None => Raised ValueError
     | Some n => if bool_decide (0 ≤ n)%Z && bool_decide (n ≤ 4)%Z
                 then Returned (Some n) else Returned None
     end
   else Returned None) = Returned (Some status) →
  main_cli.isdigit line = true ∧ int_of_text line = Some status ∧ (0 ≤ status ≤ 4)%Z.
Proof.
  destruct (main_cli.isdigit line); [|done].
  destruct (int_of_text line) as [n|]; [|done].
  destruct (bool_decide (0 ≤ n)%Z) eqn:E1, (bool_decide (n ≤ 4)%Z) eqn:E2;
    simpl; try done.
  intros [= ->]. apply bool_decide_eq_true in E1, E2. done.
Qed.

Lemma create_appointment_runs d :
  runs (λ _, True) d console.create_appointment
    (λ _ d', ∃ a, d' = set_Appointments (Appointments d ++ [a]) d ∧ booked d a)
    (λ d', d' = d ∨ ∃ a, d' = set_Appointments (Appointments d ++ [a]) d ∧ booked d a).
Proof.
  unfold console.create_appointment.
  match goal with |- runs _ _ _ _ ?e => set (E := e) end.
  eapply runs_bind; [apply runs_while_true; by left|].
  intros doc_id ? [(l & _ & Hdoc) ->].
  destruct (int_of_text l) as [z|]; [|done].
  destruct (db_ops.get_doctor d z) as [doc|] eqn:Hg; [|done].
  injection Hdoc as ->.
  eapply runs_bind; [apply runs_query|]. intros doctor ? [-> ->].
  eapply runs_bind; [apply runs_print_table; by left|]. intros _ ? ->.
  eapply runs_bind; [apply runs_while_true; by left|].
  intros patient_id ? [(l' & _ & Hpat) ->].
  destruct (int_of_text l') as [pid|] eqn:Hpid; [|done].
  destruct (db_ops.get_patient d pid) as [pt|] eqn:Hgp; [|done].
  injection Hpat as <-.
  eapply runs_bind; [apply runs_while_true; by left|].
  intros app_date ? [_ ->].
  eapply runs_bind; [apply runs_while_true; by left|].
  intros status ? [(ls & _ & (_ & _ & Hs)%ask_status_range) ->].
  eapply runs_bind; [apply runs_while_true; by left|].
  intros typeof ? [(lt & _ & Ht) ->].
  case_bool_decide as Hty; [|done]. injection Ht as ->.
  rewrite Hg.
  eapply runs_bind; [apply runs_attr; by left|].
  intros speciality ? [(doc' & [= <-] & ->) ->].
  eapply runs_bind; [apply runs_input; by left|]. intros note ? [_ ->].
  eapply runs_bind; [apply runs_of_outcome; by left|]. intros payload ? [Hp ->].
  unfold schemas.AppointmentBase, schemas.BaseModel, schemas.validate_field in Hp.
  simpl in Hp. rewrite Hpid in Hp. simpl in Hp.
  destruct (datetime_of_text app_date) as [t|]; [|done]. simpl in Hp.
  injection Hp as <-.
  set (a := Appointment.mk (db_ops.next_id (Appointment.Appointment_ID <$> Appointments d))
              (Some pid) doc_id t (Some status) (Some typeof) (Doctor.Speciality doc)
              (Some note)).
  assert (booked d a) as Ha.
  { unfold booked; simpl. split_and!; eauto.
    - apply elem_of_cons in Hty as [->|Hty]; [by left|].
      apply elem_of_cons in Hty as [->|Hty]; [by right|].
      by apply elem_of_nil in Hty.
    - apply list.Forall_forall. intros x Hx Heq.
      apply (next_id_fresh (Appointment.Appointment_ID <$> Appointments d)).
      rewrite <- Heq. by apply list_elem_of_fmap_2. }
  eapply runs_bind.
  { apply runs_store. intros e. by left. }
  intros result d' Hr. injection Hr as <- <-.
  eapply runs_conseq with (E := E); [apply runs_print_table| |done].
  - right. by exists a.
  - intros _ ? ->. by exists a.
Qed.
End appointments_more.

Section appointments_thm.
Context `{Coercions}.

(** Extra X6.  The console books an appointment only for a doctor and a
    patient that are stored.  However [create_appointment] ends, the store is as
    before or holds one more appointment; that appointment has a fresh
    number, the number of a stored doctor and that doctor's speciality, the
    number of a stored patient, a status from 0 to 4 and the type Online or
    Inperson.  When the action returns, the appointment is stored. *)
Theorem create_appointment_books_existing (w : world) :
  let d := db w in
  let r := console.create_appointment w in
  let stored := ∃ a,
    db r.2 = set_Appointments (Appointments d ++ [a]) d
    ∧ (∃ doc, db_ops.get_doctor d (Appointment.Doc_ID a) = Some doc
              ∧ Appointment.Speciality a = Doctor.Speciality doc)
    ∧ (∃ pid pt, Appointment.Patient_ID a = Some pid
                 ∧ db_ops.get_patient d pid = Some pt)
    ∧ (∃ s, Appointment.Statusof a = Some s ∧ (0 ≤ s ≤ 4)%Z)
    ∧ (Appointment.Typeof a = Some "Online" ∨ Appointment.Typeof a = Some "Inperson")
    ∧ Forall (λ x, Appointment.Appointment_ID x ≠ Appointment.Appointment_ID a)
        (Appointments d) in
  (r.1 = Returned () → stored) ∧ (db r.2 = d ∨ stored).
Proof.
  intros d r stored. subst d r stored.
  destruct (create_appointment_runs (db w) w) as [_ Hr];
    [by apply Forall_true|done|].
  destruct ((console.create_appointment w).1) as [e|[]].
  - split; [done|]. exact Hr.
  - split; [by intros _|by right].
Qed.
End appointments_thm.

Example create_appointment_for_ada :
  let r := console.create_appointment (H:=decimal)
             (World ["9"; "2"; "8"; "7"; "x"; "600"; "5"; "1"; "Phone"; "Online"; "-"; ""]
                [] hospital_example) in
  r.1 = Returned ()
  ∧ Appointments (db r.2)
    = Appointments hospital_example
      ++ [Appointment.mk 2 (Some 7%Z) 2 600%Z (Some 1%Z) (Some "Online") "Neurology"
            (Some "-")].
Proof. vm_compute. done. Qed.

Section status.
Context `{Coercions}.

Lemma AppointmentBase_update_status doc_id patient_id status typeof speciality
    app_date note payload x y :
  schemas.AppointmentBase
    [("Doc_ID", doc_id); ("Patient_ID", patient_id); ("Statusof", VInt status);
     ("Typeof", VStr typeof); ("Speciality", VStr speciality);
     ("Appointment_Date", app_date); ("Notes", note)] = Returned payload →
  db_ops.setattrs Appointment.setattr payload x = Some y →
  Appointment.Statusof y = Some status ∧ Appointment.Typeof y = Some typeof.
Proof.
  intros Hp%BaseModel_returned. invert_Forall2.
  repeat match goal with
  | Hv : schemas.validate_field _ (schemas.Field "Statusof" _ _) = Some _ |- _ =>
      unfold schemas.validate_field in Hv; simpl in Hv; injection Hv as <-
  | Hv : schemas.validate_field _ (schemas.Field _ schemas.KStr _) = Some _ |- _ =>
      apply validate_field_text with (s := speciality) in Hv; [|reflexivity]
  | Hv : schemas.validate_field _ (schemas.Field _ schemas.KStr _) = Some _ |- _ =>
      apply validate_field_text with (s := typeof) in Hv; [|reflexivity]
  | Hv : schemas.validate_field _ _ = Some _ |- _ =>
      apply validate_field_key in Hv; simpl in Hv
  end.
  repeat match goal with kv : (string * value)%type |- _ => destruct kv as [??] end.
  simpl in *. simplify_eq.
  unfold db_ops.setattrs, Appointment.setattr. simpl. intros Hy.
  repeat match goal with
  | Hy : context [as_opt_int ?v] |- _ => destruct (as_opt_int v); simpl in Hy; [|done]
  | Hy : context [as_opt_str ?v] |- _ => destruct (as_opt_str v); simpl in Hy; [|done]
  | Hy : context [as_int ?v] |- _ => destruct (as_int v); simpl in Hy; [|done]
  | Hy : context [as_date ?v] |- _ => destruct (as_date v); simpl in Hy; [|done]
  | Hy : context [as_str ?v] |- _ => destruct (as_str v); simpl in Hy; [|done]
  end.
  by injection Hy as <-.
Qed.

Lemma update_appointment_status_hoare :
  hoare (λ d, Forall status_known (Appointments d)) main_cli.update_appointment
    (λ _, True).
Proof.
  unfold main_cli.update_appointment.
  eapply hoare_bind; [apply hoare_input_int|]. intros appointment_id _.
  eapply hoare_bind; [apply hoare_query|]. intros appointment _.
  eapply hoare_bind; [apply hoare_print_table|]. intros _ _.
  eapply hoare_bind; [apply hoare_input|]. intros ? _.
  eapply hoare_bind; [apply hoare_or_keep, hoare_attr|]. intros doc_id _.
  eapply hoare_bind; [apply hoare_input|]. intros ? _.
  eapply hoare_bind; [apply hoare_or_keep, hoare_attr|]. intros patient_id _.
  eapply hoare_bind; [apply hoare_input|]. intros ? _.
  eapply hoare_bind; [apply hoare_or_keep, hoare_attr|]. intros app_date _.
  eapply hoare_bind; [apply hoare_while_true|].
  intros status (ls & _ & _ & (_ & _ & Hs)%ask_status_range).
  eapply hoare_bind; [apply hoare_while_true|]. intros typeof (lt & _ & _ & Ht).
  case_bool_decide as Hty; [|done]. injection Ht as ->.
  eapply hoare_bind; [apply hoare_attr|]. intros speciality _.
  eapply hoare_bind; [apply hoare_input|]. intros ? _.
  eapply hoare_bind; [apply hoare_or_keep, hoare_attr|]. intros note _.
  eapply hoare_bind; [apply hoare_of_outcome|]. intros payload Hp.
  eapply hoare_bind with (Q := λ _, True).
  { apply hoare_store. intros d Hd. split; [|done].
    unfold db_ops.update_appointment.
    destruct (update_row_cases (λ a, Appointment.Appointment_ID a = appointment_id)
                Appointment.setattr payload (Appointments d))
      as [[e ->]|[->|(i & x & y & _ & Hy & ->)]]; simpl; try done.
    apply Forall_insert; [done|].
    destruct (AppointmentBase_update_status _ _ _ _ _ _ _ _ x y Hp Hy) as [Hst Htp].
    split; [by exists status|]. rewrite Htp.
    apply elem_of_cons in Hty as [->|Hty]; [by right; left|].
    apply elem_of_cons in Hty as [->|Hty]; [by right; right|].
    by apply elem_of_nil in Hty. }
  intros _ _.
  eapply hoare_bind; [apply hoare_query|]. intros ? _.
  apply hoare_print_table.
Qed.

Lemma create_open_appointment_status_hoare :
  hoare (λ d, Forall status_known (Appointments d)) main_cli.create_open_appointment
    (λ _, True).
Proof.
  unfold main_cli.create_open_appointment.
  eapply hoare_bind; [apply hoare_while_true|]. intros doc_id _.
  eapply hoare_bind; [apply hoare_query|]. intros doctor _.
  eapply hoare_bind; [apply hoare_print_table|]. intros _ _.
  eapply hoare_bind; [apply hoare_attr|]. intros speciality _.
  eapply hoare_bind; [apply hoare_while_true|]. intros appo_date _.
  eapply hoare_bind; [apply hoare_of_outcome|]. intros payload Hp.
  unfold schemas.AppointmentBase, schemas.BaseModel, schemas.validate_field in Hp.
  simpl in Hp. destruct (datetime_of_text appo_date) as [t|]; [|done].
  simpl in Hp. injection Hp as <-.
  eapply hoare_bind with (Q := λ _, True).
  { apply hoare_store. intros d Hd. split; [|done].
    rewrite create_appointment_open. simpl.
    apply list.Forall_app. split; [done|]. apply Forall_singleton.
    split; [by exists 0%Z|by left]. }
  intros result _. apply hoare_print_table.
Qed.

Lemma delete_appointment_status_hoare :
  hoare (λ d, Forall status_known (Appointments d)) console.delete_appointment
    (λ _, True).
Proof.
  unfold console.delete_appointment.
  eapply hoare_bind; [apply hoare_input_int|]. intros appointment_id _.
  eapply hoare_bind; [apply hoare_query|]. intros appointment _.
  eapply hoare_bind; [apply hoare_print_table|]. intros _ _.
  eapply hoare_bind with (Q := λ _, True).
  { apply hoare_store. intros d Hd. split; [|done].
    unfold store.delete_appointment, store.delete_row.
    destruct (list_find _ (Appointments d)) as [[i a]|]; simpl; [|done].
    by apply Forall_delete. }
  intros _ _. by apply hoare_ret.
Qed.

(** Extra X7.  Every appointment action of the console keeps, however it
    ends, the status of every stored appointment among the codes 0 to 4 and
    its type among Online, Inperson and none. *)
Theorem appointment_status_in_range (op : appointment_op) (w : world) :
  (∀ a, a ∈ Appointments (db w) → status_known a) →
  ∀ a, a ∈ Appointments (db (appointment_action op w).2) →
    (∃ s, Appointment.Statusof a = Some s ∧ (0 ≤ s ≤ 4)%Z)
    ∧ (Appointment.Typeof a = None ∨ Appointment.Typeof a = Some "Online"
       ∨ Appointment.Typeof a = Some "Inperson").
Proof.
  intros Hd%list.Forall_forall. apply list.Forall_forall.
  destruct op; simpl.
  - destruct (create_appointment_runs (db w) w) as [_ Hr];
      [by apply Forall_true|done|].
    assert (∀ a, booked (db w) a → status_known a) as Hb.
    { intros a (_ & _ & Hs & Ht & _). split; [done|]. destruct Ht; auto. }
    destruct ((console.create_appointment w).1) as [e|u].
    + destruct Hr as [->|(a & -> & Ha)]; [done|]. simpl.
      apply list.Forall_app. split; [done|]. apply Forall_singleton. by apply Hb.
    + destruct Hr as (a & -> & Ha). simpl.
      apply list.Forall_app. split; [done|]. apply Forall_singleton. by apply Hb.
  - by apply create_open_appointment_status_hoare.
  - by apply update_appointment_status_hoare.
  - by apply delete_appointment_status_hoare.
Qed.
End status.

Lemma appointment_status_in_range_witness :
  Forall status_known
    (Appointments
       (db (appointment_action (H:=decimal) UpdateAppointment
              (World ["1"; "2"; ""; ""; "9"; "2"; "Inperson"; ""; ""] []
                 hospital_example)).2)).
Proof.
  apply list.Forall_forall.
  apply (appointment_status_in_range (H:=decimal) UpdateAppointment).
  intros a Ha. apply list_elem_of_singleton in Ha as ->.
  split; [exists 1%Z; split; [reflexivity|lia]|right; left; reflexivity].
Defined.

Section update_doctor_number.
Context `{Coercions}.

Lemma ask_status_run line rest out d s :
  main_cli.isdigit line = true → int_of_text line = Some s → (0 ≤ s ≤ 4)%Z →
  main_cli.ask_status (World (line :: rest) out d) = (Returned s, World rest out d).
Proof.
  intros Hdig Hs [H0 H4]. unfold main_cli.ask_status, while_true. simpl.
  rewrite Hdig, Hs.
  by rewrite (bool_decide_eq_true_2 (0 ≤ s)%Z), (bool_decide_eq_true_2 (s ≤ 4)%Z).
Qed.

Lemma ask_typeof_run line rest out d :
  line ∈ ["Online"; "Inperson"] →
  main_cli.ask_typeof (World (line :: rest) out d) = (Returned line, World rest out d).
Proof.
  intros Hty. unfold main_cli.ask_typeof, while_true. simpl.
  by rewrite bool_decide_eq_true_2.
Qed.

Lemma AppointmentBase_new_doctor doc_line doc_id pid date s ty sp notes :
  int_of_text doc_line = Some doc_id →
  schemas.AppointmentBase
    [("Doc_ID", VStr doc_line); ("Patient_ID", of_opt_int pid); ("Statusof", VInt s);
     ("Typeof", VStr ty); ("Speciality", VStr sp); ("Appointment_Date", VDate date);
     ("Notes", of_opt_str notes)]
  = Returned [("Patient_ID", of_opt_int pid); ("Doc_ID", VInt doc_id);
              ("Appointment_Date", VDate date); ("Statusof", VInt s);
              ("Typeof", VStr ty); ("Speciality", VStr sp);
              ("Notes", of_opt_str notes)].
Proof.
  intros Hd. unfold schemas.AppointmentBase, schemas.BaseModel, schemas.validate_field.
  destruct pid, notes; simpl; by rewrite Hd.
Qed.

Lemma setattrs_new_doctor a doc_id s ty :
  db_ops.setattrs Appointment.setattr
    [("Patient_ID", of_opt_int (Appointment.Patient_ID a)); ("Doc_ID", VInt doc_id);
     ("Appointment_Date", VDate (Appointment.Appointment_Date a)); ("Statusof", VInt s);
     ("Typeof", VStr ty); ("Speciality", VStr (Appointment.Speciality a));
     ("Notes", of_opt_str (Appointment.Notes a))] a
  = Some (Appointment.mk (Appointment.Appointment_ID a) (Appointment.Patient_ID a) doc_id
            (Appointment.Appointment_Date a) (Some s) (Some ty)
            (Appointment.Speciality a) (Appointment.Notes a)).
Proof. by destruct a as [? [?|] ? ? ? ? ? [?|]]. Qed.

(** Extra X8.  Changing the doctor of an appointment.  For a stored
    appointment whose patient, if it has one, is stored, with the number of
    a stored doctor typed, the prompts of the patient, the date and the
    notes left blank, a status from 0 to 4 and a type, [update_appointment]
    returns and the appointment holds the doctor number typed and the new
    status and type; the patient, the date and the notes are the prior ones,
    and so is the speciality, whatever the speciality of the doctor typed
    is. *)
Theorem update_appointment_keeps_blank_answers
    l1 doc_line status_line type_line key rest out d appointment_id a doc_id doc s :
  int_of_text l1 = Some appointment_id →
  db_ops.get_appointment d appointment_id = Some a →
  (∀ pid, Appointment.Patient_ID a = Some pid → is_Some (db_ops.get_patient d pid)) →
  doc_line ≠ "" → int_of_text doc_line = Some doc_id →
  db_ops.get_doctor d doc_id = Some doc →
  main_cli.isdigit status_line = true → int_of_text status_line = Some s →
  (0 ≤ s ≤ 4)%Z → type_line ∈ ["Online"; "Inperson"] →
  let r := main_cli.update_appointment
             (World (l1 :: doc_line :: "" :: "" :: status_line :: type_line :: ""
                     :: key :: rest) out d) in
  r.1 = Returned ()
  ∧ db_ops.get_appointment (db r.2) appointment_id
    = Some (Appointment.mk appointment_id (Appointment.Patient_ID a) doc_id
              (Appointment.Appointment_Date a) (Some s) (Some type_line)
              (Appointment.Speciality a) (Appointment.Notes a)).
Proof.
  intros H1 Hg _ Hdoc Hd _ Hdig Hs Hrange Hty r. subst r.
  pose proof Hg as [i Hf]%first_found.
  pose proof Hf as (Hi & Hid & _)%list_find_Some. simpl in Hid.
  set (a' := Appointment.mk appointment_id (Appointment.Patient_ID a) doc_id
               (Appointment.Appointment_Date a) (Some s) (Some type_line)
               (Appointment.Speciality a) (Appointment.Notes a)).
  pose proof (AppointmentBase_new_doctor doc_line doc_id (Appointment.Patient_ID a)
                (Appointment.Appointment_Date a) s type_line (Appointment.Speciality a)
                (Appointment.Notes a) Hd) as Hv.
  assert (db_ops.update_appointment d appointment_id
            [("Patient_ID", of_opt_int (Appointment.Patient_ID a)); ("Doc_ID", VInt doc_id);
             ("Appointment_Date", VDate (Appointment.Appointment_Date a));
             ("Statusof", VInt s); ("Typeof", VStr type_line);
             ("Speciality", VStr (Appointment.Speciality a));
             ("Notes", of_opt_str (Appointment.Notes a))]
          = (Returned (Some a'), set_Appointments (<[i:=a']> (Appointments d)) d)) as Hu.
  { unfold db_ops.update_appointment.
    erewrite update_row_found; [done|exact Hf|].
    rewrite setattrs_new_doctor. unfold a'. by rewrite Hid. }
  assert (db_ops.get_appointment (set_Appointments (<[i:=a']> (Appointments d)) d)
            appointment_id = Some a') as Hg'.
  { unfold db_ops.get_appointment. simpl. by eapply first_insert_same. }
  unfold main_cli.update_appointment.
  repeat progress
    (cli_eval;
     rewrite ?H1, ?Hg, ?or_keep_run, ?(ask_status_run status_line _ _ _ s Hdig Hs Hrange),
       ?(ask_typeof_run type_line _ _ _ Hty); cbn;
     rewrite ?(decide_False (P := doc_line = "")), ?(decide_True (P := @eq string "" ""))
       by done;
     rewrite ?Hv, ?Hu, ?Hg').
  done.
Qed.
End update_doctor_number.

Lemma update_appointment_keeps_blank_answers_witness :
  let r := main_cli.update_appointment (H:=decimal)
             (World ["1"; "2"; ""; ""; "2"; "Inperson"; ""; ""] [] hospital_example) in
  r.1 = Returned ()
  ∧ db_ops.get_appointment (db r.2) 1%Z
    = Some (Appointment.mk 1 (Some 7%Z) 2 500%Z (Some 2%Z) (Some "Inperson")
              "Cardiology" None).
Proof.
  refine (update_appointment_keeps_blank_answers (H:=decimal) "1" "2" "2" "Inperson" ""
            [] [] hospital_example 1%Z
            (Appointment.mk 1 (Some 7%Z) 1 500%Z (Some 1%Z) (Some "Online")
               "Cardiology" None) 2%Z
            (Doctor.mk 2 "Bob" "Neurology" None "bob@example.org") 2%Z
            eq_refl eq_refl _ _ eq_refl eq_refl eq_refl eq_refl _ _).
  - intros pid [= <-]. by eexists.
  - discriminate.
  - lia.
  - by apply (bool_decide_unpack _).
Defined.

Section deletion.
Context `{Coercions}.

(** Extra X9.  Deleting an appointment at the console.  On a number and a key
    press, [delete_appointment] returns; on a table with distinct numbers
    no appointment has the number afterwards, every appointment of another
    number is as before, and no other table is written.  When no
    appointment has the number, nothing is shown and nothing changes. *)
Theorem delete_appointment_removes l1 key rest out d appointment_id :
  int_of_text l1 = Some appointment_id →
  NoDup (Appointment.Appointment_ID <$> Appointments d) →
  let r := console.delete_appointment (World (l1 :: key :: rest) out d) in
  r.1 = Returned ()
  ∧ db_ops.get_appointment (db r.2) appointment_id = None
  ∧ (∀ other, other ≠ appointment_id →
       db_ops.get_appointment (db r.2) other = db_ops.get_appointment d other)
  ∧ (∃ appointments, db r.2 = set_Appointments appointments d)
  ∧ (db_ops.get_appointment d appointment_id = None → r.2 = World rest out d).
Proof.
  intros H1 Hnd r. subst r. unfold console.delete_appointment.
  unfold store.delete_appointment, store.delete_row.
  destruct (db_ops.get_appointment d appointment_id) as [a|] eqn:Hg.
  - pose proof Hg as [i Hf]%first_found.
    repeat progress (cli_simpl; rewrite ?H1, ?Hg, ?Hf).
    pose proof Hf as (Hi & Hid & _)%list_find_Some.
    split_and!; try done.
    + unfold db_ops.get_appointment. simpl.
      by apply (first_delete_same Appointment.Appointment_ID _ _ i a).
    + intros other Hne. unfold db_ops.get_appointment. simpl.
      apply (first_delete_other _ _ i a); [done|]. simpl in *. congruence.
    + by eexists.
  - pose proof Hg as Hf%first_None.
    repeat progress (cli_simpl; rewrite ?H1, ?Hg, ?Hf).
    assert (set_Appointments (Appointments d) d = d) as -> by by destruct d.
    split_and!; try done. exists (Appointments d). by destruct d.
Qed.
End deletion.

Lemma delete_appointment_removes_witness :
  let r := console.delete_appointment (H:=decimal) (World ["1"; ""] [] hospital_example) in
  r.1 = Returned () ∧ db_ops.get_appointment (db r.2) 1%Z = None.
Proof.
  assert (NoDup (Appointment.Appointment_ID <$> Appointments hospital_example)) as Hnd
    by by apply (bool_decide_unpack _).
  destruct (delete_appointment_removes (H:=decimal) "1" "" [] [] hospital_example 1%Z
              eq_refl Hnd) as (H1 & H2 & _).
  split; [exact H1|exact H2].
Defined.

(** ** Staff and staff shifts *)

Section staff.
Context `{Coercions}.

Lemma StaffBase_without_email name dept shift :
  schemas.StaffBase [("Name", name); ("Department", dept); ("Upcoming_Shifts", shift)]
  = Raised ValidationError.
Proof.
  destruct (schemas.StaffBase _) as [e|payload] eqn:E.
  - unfold schemas.StaffBase, schemas.BaseModel in E.
    destruct (mapM _ _); by simplify_eq.
  - apply BaseModel_returned in E. invert_Forall2.
    match goal with
    | Hv : schemas.validate_field _ (schemas.Field "Email" _ _) = Some _ |- _ =>
        unfold schemas.validate_field in Hv; simpl in Hv; discriminate
    end.
Qed.

Lemma create_staff_hoare d0 : hoare (λ d, d = d0) console.create_staff (λ _, False).
Proof.
  unfold console.create_staff.
  eapply hoare_bind; [apply hoare_input|]. intros name _.
  eapply hoare_bind; [apply hoare_input|]. intros department _.
  eapply hoare_bind; [apply hoare_input|]. intros shift _.
  eapply hoare_bind; [apply hoare_of_outcome|]. intros payload Hp.
  by rewrite StaffBase_without_email in Hp.
Qed.

Lemma update_staff_hoare d0 : hoare (λ d, d = d0) console.update_staff (λ _, False).
Proof.
  unfold console.update_staff.
  eapply hoare_bind; [apply hoare_input_int|]. intros staff_id _.
  eapply hoare_bind; [apply hoare_query|]. intros staff _.
  eapply hoare_bind; [apply hoare_print_table|]. intros _ _.
  eapply hoare_bind; [apply hoare_input|]. intros ? _.
  eapply hoare_bind; [apply hoare_or_keep, (hoare_raise _ _ (λ _, True))|].
  intros name _.
  eapply hoare_bind; [apply hoare_input|]. intros ? _.
  eapply hoare_bind; [apply hoare_or_keep, hoare_attr|]. intros dept _.
  eapply hoare_bind; [apply hoare_input|]. intros ? _.
  eapply hoare_bind; [apply hoare_or_keep, (hoare_raise _ _ (λ _, True))|].
  intros shift _.
  eapply hoare_bind; [apply hoare_of_outcome|]. intros payload Hp.
  by rewrite StaffBase_without_email in Hp.
Qed.

(** Extra X10.  The console can neither create nor update a staff member.
    Whatever is typed, [create_staff] and [update_staff] end with an
    exception and leave the store as it was: the keyword arguments they
    build lack the e-mail and the hire date that the schema requires. *)
Theorem staff_console_never_writes (w : world) :
  (∃ e, (console.create_staff w).1 = Raised e) ∧ db (console.create_staff w).2 = db w
  ∧ (∃ e, (console.update_staff w).1 = Raised e) ∧ db (console.update_staff w).2 = db w.
Proof.
  destruct (create_staff_hoare (db w) w eq_refl) as [Hc1 Hc2].
  destruct (update_staff_hoare (db w) w eq_refl) as [Hu1 Hu2].
  split_and!; try done.
  - destruct ((console.create_staff w).1) as [e|a]; [by exists e|].
    by destruct (Hc2 a).
  - destruct ((console.update_staff w).1) as [e|a]; [by exists e|].
    by destruct (Hu2 a).
Qed.
End staff.

Section shifts.
Context `{Coercions}.

Lemma create_staff_shift_runs d :
  let stored d' := ∃ s z m,
    d' = set_StaffShifts (StaffShifts d ++ [s]) d
    ∧ StaffShift.Staff_ID s = Some z ∧ db_ops.get_staff_member d z = Some m
    ∧ Forall (λ x, StaffShift.Shift_ID x ≠ StaffShift.Shift_ID s) (StaffShifts d) in
  runs (λ _, True) d console.create_staff_shift
    (λ _ d', stored d') (λ d', d' = d ∨ stored d').
Proof.
  intros stored. unfold console.create_staff_shift.
  match goal with |- runs _ _ _ _ ?e => set (E := e) end.
  eapply runs_bind; [apply runs_query|]. intros staff ? [-> ->].
  eapply runs_bind; [apply runs_print_table; by left|]. intros _ ? ->.
  eapply runs_bind; [apply runs_while_true; by left|].
  intros staff_id ? [(l & _ & Hst) ->].
  destruct (int_of_text l) as [z|] eqn:Hz; [|done].
  destruct (db_ops.get_staff_member d z) as [m|] eqn:Hg; [|done].
  injection Hst as <-.
  eapply runs_bind; [apply runs_while_true; by left|]. intros shift_start ? [_ ->].
  eapply runs_bind; [apply runs_while_true; by left|]. intros shift_end ? [_ ->].
  eapply runs_bind; [apply runs_of_outcome; by left|]. intros payload ? [Hp ->].
  unfold schemas.StaffShiftBase, schemas.BaseModel, schemas.validate_field in Hp.
  simpl in Hp. rewrite Hz in Hp. simpl in Hp.
  destruct (datetime_of_text shift_start) as [t1|]; [|done]. simpl in Hp.
  destruct (datetime_of_text shift_end) as [t2|]; [|done]. simpl in Hp.
  injection Hp as <-.
  set (s := StaffShift.mk (db_ops.next_id (StaffShift.Shift_ID <$> StaffShifts d))
              (Some z) t1 t2).
  assert (stored (set_StaffShifts (StaffShifts d ++ [s]) d)) as Hs.
  { exists s, z, m. split_and!; try done.
    apply list.Forall_forall. intros x Hx Heq. simpl in Heq.
    apply (next_id_fresh (StaffShift.Shift_ID <$> StaffShifts d)).
    rewrite <- Heq. by apply list_elem_of_fmap_2. }
  eapply runs_bind.
  { apply runs_store. intros e. by left. }
  intros result d' Hr. injection Hr as <- <-.
  eapply runs_conseq with (E := E); [apply runs_print_table| |done].
  - by right.
  - by intros _ ? ->.
Qed.

(** Extra X11.  The console records a shift only for a staff member that is
    stored.  However [create_staff_shift] ends, the store is as before or
    holds one more shift, with a fresh number and the number of a stored
    staff member; when the action returns, the shift is stored. *)
Theorem create_staff_shift_for_existing_staff (w : world) :
  let d := db w in
  let r := console.create_staff_shift w in
  let stored := ∃ s z m,
    db r.2 = set_StaffShifts (StaffShifts d ++ [s]) d
    ∧ StaffShift.Staff_ID s = Some z ∧ db_ops.get_staff_member d z = Some m
    ∧ Forall (λ x, StaffShift.Shift_ID x ≠ StaffShift.Shift_ID s) (StaffShifts d) in
  (r.1 = Returned () → stored) ∧ (db r.2 = d ∨ stored).
Proof.
  intros d r stored. subst d r stored.
  destruct (create_staff_shift_runs (db w) w) as [_ Hr];
    [by apply Forall_true|done|].
  destruct ((console.create_staff_shift w).1) as [e|[]].
  - split; [done|]. exact Hr.
  - split; [by intros _|by right].
Qed.
End shifts.

Example create_staff_shift_for_sam :
  let r := console.create_staff_shift (H:=decimal)
             (World ["4"; "3"; "soon"; "300"; "400"; ""] [] hospital_example) in
  r.1 = Returned ()
  ∧ StaffShifts (db r.2)
    = StaffShifts hospital_example ++ [StaffShift.mk 2 (Some 3%Z) 300%Z 400%Z].
Proof. vm_compute. done. Qed.

(** ** Patients at the console *)

Section patients_console.
Context `{Coercions}.

(** Extra X12.  The patient lookup of the console shows a doctor.  On a number,
    [get_patient] shows the doctor of that number, or nothing when no
    doctor has it, whatever the patients are, and writes nothing. *)
Theorem get_patient_shows_doctor l1 key rest out d patient_id :
  int_of_text l1 = Some patient_id →
  console.get_patient (World (l1 :: key :: rest) out d)
  = (Returned (),
     World rest
       (out ++ match db_ops.get_doctor d patient_id with
               | Some doc => [shown Doctor.as_dict doc]
               | None => []
               end) d).
Proof.
  intros H1. unfold console.get_patient.
  repeat progress (cli_simpl; rewrite ?H1).
  destruct (db_ops.get_doctor d patient_id) as [doc|]; cli_simpl; [done|].
  by rewrite app_nil_r.
Qed.

(** Extra X13.  A patient cannot be registered at the console without a
    doctor and a staff member.  When the line typed for the doctor or for
    the staff member is not the text of a number, a blank line for one,
    [create_patient] raises ValidationError after the six lines and stores
    nothing, although both columns may be null. *)
Theorem create_patient_needs_numbers name email record phone doc_id staff_id rest out d :
  int_of_text doc_id = None ∨ int_of_text staff_id = None →
  console.create_patient
    (World (name :: email :: record :: phone :: doc_id :: staff_id :: rest) out d)
  = (Raised ValidationError, World rest out d).
Proof.
  intros Hno. unfold console.create_patient. cli_simpl.
  unfold schemas.PatientBase, schemas.BaseModel, schemas.validate_field. simpl.
  destruct (is_email email); simpl; [|done].
  destruct Hno as [-> | ->]; simpl; [done|].
  by destruct (int_of_text doc_id).
Qed.
End patients_console.

Lemma get_patient_shows_doctor_witness :
  db_ops.get_patient hospital_example 1%Z = None
  ∧ console.get_patient (H:=decimal) (World ["1"; ""] [] hospital_example)
    = (Returned (),
       World [] [shown Doctor.as_dict (Doctor.mk 1 "Ann" "Cardiology" None "ann@example.org")]
         hospital_example).
Proof.
  split; [reflexivity|].
  exact (get_patient_shows_doctor (H:=decimal) "1" "" [] [] hospital_example 1%Z eq_refl).
Defined.

Lemma create_patient_needs_numbers_witness :
  console.create_patient (H:=decimal)
    (World ["Cy"; "cy@example.org"; "-"; "555"; ""; "3"] [] hospital_example)
  = (Raised ValidationError, World [] [] hospital_example).
Proof.
  exact (create_patient_needs_numbers (H:=decimal) "Cy" "cy@example.org" "-" "555" "" "3"
           [] [] hospital_example (or_introl eq_refl)).
Defined.

(** ** Prescriptions, continued *)

Section prescriptions_more.
Context `{Coercions}.

Lemma get_prescriptions_by_id_filter (d : database) (value : Z) :
  db_ops.get_prescriptions_by d "Prescription.Prescription_ID == value" value
  = Returned (filter (λ p, Prescription.Prescription_ID p = value) (Prescriptions d)
                ≫= joined_lines d).
Proof.
  unfold db_ops.get_prescriptions_by, db_ops.eval. simpl. f_equal.
  induction (Prescriptions d) as [|p ps IH]; [done|].
  rewrite bind_cons, IH, filter_cons. clear IH.
  case_decide as Hp.
  - rewrite bind_cons. f_equal. unfold joined_lines.
    by rewrite bool_decide_eq_true_2.
  - rewrite bool_decide_eq_false_2 by done.
    replace (filter _ (Doctors d) ≫= _) with (@nil dict); [done|].
    symmetry. erewrite list_bind_ext; [apply bind_to_nil| |done].
    intros doc. erewrite list_bind_ext; [apply bind_to_nil| |done].
    intros pt. apply bind_to_nil.
Qed.

Lemma filter_app_fresh {A} (pk : A → Z) (l : list A) (x : A) :
  Forall (λ y, pk y ≠ pk x) l →
  filter (λ y, pk y = pk x) (l ++ [x]) = [x].
Proof.
  intros Hl. rewrite list.filter_app.
  replace (filter (λ y, pk y = pk x) l) with (@nil A).
  - simpl. rewrite filter_cons. by rewrite decide_True.
  - symmetry. induction Hl as [|y l Hy _ IH]; [done|].
    rewrite filter_cons. by rewrite decide_False.
Qed.

Lemma PrescriptionBase_entered patient_id doc_id now note :
  schemas_more.PrescriptionBase
    [("Patient_ID", VInt patient_id); ("Doctor_ID", VInt doc_id);
     ("Date_Issued", VStr (strftime now)); ("Notes", VStr note)]
  = Returned [("Patient_ID", VInt patient_id); ("Doctor_ID", VInt doc_id);
              ("Date_Issued", VDate now); ("Notes", VStr note)].
Proof.
  unfold schemas_more.PrescriptionBase, schemas.BaseModel, schemas.validate_field.
  simpl. by rewrite datetime_of_text_strftime.
Qed.

Lemma create_prescription_entered d patient_id doc_id now note :
  let p := Prescription.mk (db_ops.next_id (Prescription.Prescription_ID <$> Prescriptions d))
             patient_id doc_id now (Some note) in
  store.create_prescription d
    [("Patient_ID", VInt patient_id); ("Doctor_ID", VInt doc_id);
     ("Date_Issued", VDate now); ("Notes", VStr note)]
  = (Returned p, set_Prescriptions (Prescriptions d ++ [p]) d).
Proof. reflexivity. Qed.

Lemma create_prescription_detail_entered d id medication dosage frequency duration :
  let det := PrescriptionDetail.mk
               (db_ops.next_id (PrescriptionDetail.Detail_ID <$> Prescription_Details d))
               id medication dosage frequency duration in
  schemas_more.PrescriptionDetailBase
    [("Prescription_ID", VInt id); ("Medication_Name", VStr medication);
     ("Dosage", VStr dosage); ("Frequency", VStr frequency);
     ("Duration", VStr duration)]
  = Returned [("Prescription_ID", VInt id); ("Medication_Name", VStr medication);
              ("Dosage", VStr dosage); ("Frequency", VStr frequency);
              ("Duration", VStr duration)]
  ∧ store.create_prescription_detail d
      [("Prescription_ID", VInt id); ("Medication_Name", VStr medication);
       ("Dosage", VStr dosage); ("Frequency", VStr frequency);
       ("Duration", VStr duration)]
    = (Returned det, set_Prescription_Details (Prescription_Details d ++ [det]) d).
Proof. split; reflexivity. Qed.


Lemma joined_lines_stored d p doc pt det :
  doc ∈ Doctors d → pt ∈ Patients d → det ∈ Prescription_Details d →
  Prescription.Doctor_ID p = Doctor.Doc_ID doc →
  Prescription.Patient_ID p = Patient.Patient_ID pt →
  Prescription.Prescription_ID p = PrescriptionDetail.Prescription_ID det →
  db_ops.prescription_line p doc pt det ∈ joined_lines d p.
Proof.
  intros Hdoc Hpt Hdet Hd Hp Hi. unfold joined_lines.
  apply list_elem_of_bind. exists doc. split; [|by apply list_elem_of_filter].
  apply list_elem_of_bind. exists pt. split; [|by apply list_elem_of_filter].
  apply list_elem_of_bind. exists det. split; [|by apply list_elem_of_filter].
  by apply list_elem_of_singleton.
Qed.

End prescriptions_more.



(** Extra X16.  Updating the detail of a prescription reaches only the first
    one.  [get_prescriptions_detail_id] looks a detail up by the number of
    its prescription, so it finds the first detail stored for the
    prescription; [update_prescription_detail] rewrites that row at most,
    and every row stored before or after it, further details of the same
    prescription included, stays as it is. *)
Theorem update_prescription_detail_first_only d prescription_id payload before det after :
  Prescription_Details d = before ++ det :: after →
  Forall (λ x, PrescriptionDetail.Prescription_ID x ≠ prescription_id) before →
  PrescriptionDetail.Prescription_ID det = prescription_id →
  store.get_prescriptions_detail_id d prescription_id = Some det
  ∧ ∃ det',
      Prescription_Details (store.update_prescription_detail d prescription_id payload).2
      = before ++ det' :: after.
Proof.
  intros Hd Hb Hdet.
  pose proof (list_find_middle
                (λ x, PrescriptionDetail.Prescription_ID x = prescription_id)
                before after det Hb Hdet) as Hf.
  rewrite <- Hd in Hf. split.
  - unfold store.get_prescriptions_detail_id, db_ops.first. by rewrite Hf.
  - unfold store.update_prescription_detail.
    destruct (update_row_cases
                (λ x, PrescriptionDetail.Prescription_ID x = prescription_id)
                orm.PrescriptionDetail_setattr payload (Prescription_Details d))
      as [[e ->]|[->|(i & x & y & Hf' & _ & ->)]]; simpl.
    + by exists det.
    + by exists det.
    + rewrite Hf in Hf'. injection Hf' as <- <-. exists y.
      rewrite Hd. replace (length before) with (length before + 0) by lia.
      by rewrite insert_app_r.
Qed.

Lemma update_prescription_detail_first_only_witness :
  let d := set_Prescription_Details
             [PrescriptionDetail.mk 1 1 "aspirin" "100mg" "daily" "7 days";
              PrescriptionDetail.mk 2 2 "ibuprofen" "200mg" "daily" "3 days";
              PrescriptionDetail.mk 3 2 "codeine" "30mg" "nightly" "3 days"]
             pharmacy_example in
  ∃ det',
    Prescription_Details
      (store.update_prescription_detail d 2
         [("Prescription_ID", VInt 2); ("Medication_Name", VStr "paracetamol");
          ("Dosage", VStr "500mg"); ("Frequency", VStr "daily");
          ("Duration", VStr "5 days")]).2
    = [PrescriptionDetail.mk 1 1 "aspirin" "100mg" "daily" "7 days"]
      ++ det' :: [PrescriptionDetail.mk 3 2 "codeine" "30mg" "nightly" "3 days"].
Proof.
  intros d.
  refine (proj2 (update_prescription_detail_first_only d 2%Z _
                   [PrescriptionDetail.mk 1 1 "aspirin" "100mg" "daily" "7 days"]
                   (PrescriptionDetail.mk 2 2 "ibuprofen" "200mg" "daily" "3 days")
                   [PrescriptionDetail.mk 3 2 "codeine" "30mg" "nightly" "3 days"]
                   eq_refl _ eq_refl)).
  by apply (bool_decide_unpack _).
Defined.

(** ** Notifications, continued *)

Section notifications_more.
Context `{Coercions}.


(** Extra X18.  Marking a notification touches only that notification.  On a
    number that no notification has, [mark_notification_as_read] returns
    [None] and leaves the store as it is; on the number of a notification it
    leaves every notification of another number, and the numbers listed
    for every recipient, as they were. *)
Theorem mark_notification_as_read_frame d notification_id now :
  let r := db_ops.mark_notification_as_read d notification_id now in
  (db_ops.first (λ n, Notification.Notification_ID n = notification_id) (Notifications d)
     = None → r = (None, d))
  ∧ (∀ other, other ≠ notification_id →
       db_ops.first (λ n, Notification.Notification_ID n = other) (Notifications r.2)
       = db_ops.first (λ n, Notification.Notification_ID n = other) (Notifications d))
  ∧ (∀ ty rid,
       Notification.Notification_ID <$> db_ops.get_notifications_for_recipient r.2 ty rid
       = Notification.Notification_ID <$> db_ops.get_notifications_for_recipient d ty rid)
  ∧ ∃ notifications, r.2 = set_Notifications notifications d.
Proof.
  intros r. subst r. unfold db_ops.mark_notification_as_read.
  destruct (list_find _ (Notifications d)) as [[i n]|] eqn:Hf; simpl.
  - apply list_find_Some in Hf as (Hi & Hid & _). split_and!.
    + unfold db_ops.first. intros Hn%fmap_None.
      apply list_find_None in Hn.
      by destruct (proj1 (list.Forall_forall _ _) Hn n (list_elem_of_lookup_2 _ _ _ Hi)).
    + intros other Hne. apply (first_insert_other _ _ i n); [done| |]; simpl; congruence.
    + intros ty rid. unfold db_ops.get_notifications_for_recipient. simpl.
      by apply (fmap_filter_insert _ _ _ i n).
    + by eexists.
  - split_and!; try done. exists (Notifications d). by destruct d.
Qed.
End notifications_more.


(** ** Login *)

Section login_facts.
Context (sha256 : string → string).

(** Extra X19.  A registered user can log in.  Registering a name that is not
    taken, with one of the three roles, adds the user; logging in with the
    same name and password then succeeds and yields that role.  Every user
    who could log in before still can, with the same answer. *)
Theorem register_then_login users name pass role_ :
  role_ ∈ ["admin"; "doctor"; "staff"] → name ∉ login.username <$> users →
  let r := login.register_user sha256 users name pass role_ in
  r.1 = login.Message ("User '" +:+ name +:+ "' successfully registered!")
  ∧ login.login_user sha256 r.2 name pass
    = login.Pair (login.welcome name) (Some role_)
  ∧ ∀ name' pass' found,
      login.login_user sha256 users name' pass'
        = login.Pair (login.welcome name') (Some found) →
      login.login_user sha256 r.2 name' pass'
        = login.Pair (login.welcome name') (Some found).
Proof.
  intros Hrole Hfree r. subst r. unfold login.register_user.
  rewrite decide_False by (by intros ?).
  rewrite decide_False by done. simpl. split; [done|]. split.
  - unfold login.login_user. rewrite first_app_new; [done| |done].
    apply list.Forall_forall. intros u Hu [Hn _]. apply Hfree. rewrite <- Hn.
    by apply list_elem_of_fmap_2.
  - intros name' pass' found. unfold login.login_user.
    destruct (db_ops.first _ users) as [u|] eqn:Hf; [|done].
    intros [= <-]. by rewrite (first_app_old _ _ _ _ Hf).
Qed.

(** Extra X20.  Registration keeps the usernames distinct.  A role other than
    admin, doctor and staff, or a username that is taken, is refused with
    an error message and the table is left as it is; in every case the
    usernames of the table stay distinct. *)
Theorem register_user_keeps_usernames_distinct users name pass role_ :
  NoDup (login.username <$> users) →
  let r := login.register_user sha256 users name pass role_ in
  NoDup (login.username <$> r.2)
  ∧ (role_ ∉ ["admin"; "doctor"; "staff"] ∨ name ∈ login.username <$> users →
     r.2 = users ∧ ∃ text, r.1 = login.Message text
                            ∧ String.prefix "Error: " text = true).
Proof.
  intros Hnd r. subst r. unfold login.register_user.
  destruct (decide (role_ ∉ _)) as [Hr|Hr]; simpl.
  { split; [done|]. intros _. split; [done|]. by eexists. }
  destruct (decide (name ∈ _)) as [Hn|Hn]; simpl.
  { split; [done|]. intros _. split; [done|]. by eexists. }
  split; [|by intros [?|?]].
  rewrite fmap_app. simpl. apply list.NoDup_app. split; [done|].
  split; [|apply NoDup_singleton].
  intros x Hx ->%list_elem_of_singleton. done.
Qed.

(** Extra X21.  [change_password] changes nothing.  Whatever the name and the
    passwords are, also with the right old password, it answers that the
    old password is incorrect and leaves the table as it is, so the old
    password still logs in. *)
Theorem change_password_never_changes users name old_password new_password :
  login.change_password sha256 users name old_password new_password
  = (login.Message "Error: Old password is incorrect.", users).
Proof.
  unfold login.change_password. rewrite decide_False; [done|].
  unfold login.login_user. by destruct (db_ops.first _ users).
Qed.
End login_facts.

Lemma register_then_login_witness :
  let r := login.register_user id [login.User 1 "root" "pw" "admin"] "eve" "s3" "doctor" in
  login.login_user id r.2 "eve" "s3" = login.Pair (login.welcome "eve") (Some "doctor").
Proof.
  refine (proj1 (proj2 (register_then_login id [login.User 1 "root" "pw" "admin"]
                          "eve" "s3" "doctor" _ _)));
    by apply (bool_decide_unpack _).
Defined.

Lemma register_user_keeps_usernames_distinct_witness :
  let users := [login.User 1 "root" "pw" "admin"] in
  (login.register_user id users "root" "x" "staff").2 = users
  ∧ (login.register_user id users "eve" "x" "nurse").2 = users.
Proof.
  intros users.
  assert (NoDup (login.username <$> users)) as Hnd by by apply (bool_decide_unpack _).
  split.
  - refine (proj1 (proj2 (register_user_keeps_usernames_distinct id users "root" "x"
                            "staff" Hnd) (or_intror _))).
    by apply (bool_decide_unpack _).
  - refine (proj1 (proj2 (register_user_keeps_usernames_distinct id users "eve" "x"
                            "nurse" Hnd) (or_introl _))).
    by apply (bool_decide_unpack _).
Defined.
